(** * aroadtools.roadlib: token codec, PRT key derivation and CNG key blobs

    A shallow embedding of the parts of [roadlib/auth.py] and
    [roadlib/deviceauth.py] that the specification's testable properties
    talk about, with the properties proved (or refuted) on the embedding.

    Conventions.
    - Python [bytes] are [list byte]; Python [str] is [string], read as a
      sequence of code points below 256.
    - A Python call that may raise returns [result A]: either the value
      or the exception that escapes.
    - [os.urandom], the clock and the remote servers are inputs of the
      functions that use them. *)

From Stdlib Require Import ZArith List String Ascii Bool Lia.
From Stdlib Require Import Init.Byte.
From stdpp Require Import gmap strings.

Import ListNotations.
Local Open Scope Z_scope.

(* ===================================================================== *)
(** ** Bytes and fixed-width integers *)
(* ===================================================================== *)

Module Bytes.

Abbreviation bytes := (list byte).

#[global] Instance byte_eq_decision : EqDecision byte := Byte.byte_eq_dec.

Definition Z_of_byte (b : byte) : Z := Z.of_N (Byte.to_N b).

Definition byte_of_Z (z : Z) : byte :=
  match Byte.of_N (Z.to_N (z mod 256)) with
  | Some b => b
  | None => x00
  end.

(** [x.to_bytes(len, 'big')] for [0 <= x < 256^len]: the [len] low
    base-256 digits of [x], most significant first. *)
Fixpoint be_digits (len : nat) (x : Z) : bytes :=
  match len with
  | O => []
  | S k => be_digits k (x / 256) ++ [byte_of_Z x]
  end.

(** [int.from_bytes(bs, 'big')]. *)
Definition be_value (bs : bytes) : Z :=
  fold_left (fun acc b => acc * 256 + Z_of_byte b) bs 0.

(** Little-endian digits, as [struct.pack('<L', x)] lays them out. *)
Fixpoint le_digits (len : nat) (x : Z) : bytes :=
  match len with
  | O => []
  | S k => byte_of_Z x :: le_digits k (x / 256)
  end.

Definition le_value (bs : bytes) : Z :=
  fold_right (fun b acc => Z_of_byte b + 256 * acc) 0 bs.

Definition xor_byte (a b : byte) : byte :=
  byte_of_Z (Z.lxor (Z_of_byte a) (Z_of_byte b)).

(** The bytes of an ASCII literal. *)
Definition of_string (s : string) : bytes :=
  map byte_of_ascii (list_ascii_of_string s).

(** [bytes.fromhex]. *)
Definition hex_digit (c : ascii) : Z :=
  let n := Z.of_nat (nat_of_ascii c) in
  if (48 <=? n) && (n <=? 57) then n - 48
  else if (97 <=? n) && (n <=? 102) then n - 87
  else if (65 <=? n) && (n <=? 70) then n - 55
  else 0.

Fixpoint fromhex (s : string) : bytes :=
  match s with
  | String hi (String lo rest) =>
      byte_of_Z (16 * hex_digit hi + hex_digit lo) :: fromhex rest
  | _ => []
  end.

(** [bs.decode('latin-1')]: one character per byte. *)
Definition string_of_bytes (bs : bytes) : string :=
  string_of_list_ascii (map ascii_of_byte bs).

End Bytes.
Import Bytes.

(* ===================================================================== *)
(** ** SHA-256, HMAC-SHA256 and the counter-mode KBKDF

    [cryptography.hazmat.primitives.hashes.SHA256], [hmac.HMAC] and
    [kdf.kbkdf.KBKDFHMAC] as FIPS 180-4, RFC 2104 and SP 800-108 define
    them. *)
(* ===================================================================== *)

Module SHA256.

Definition mask32 (x : Z) : Z := Z.land x 0xFFFFFFFF.
Definition add32 (x y : Z) : Z := mask32 (x + y).
Definition rotr (n x : Z) : Z :=
  Z.lor (Z.shiftr x n) (mask32 (Z.shiftl x (32 - n))).
Definition not32 (x : Z) : Z := Z.lxor x 0xFFFFFFFF.

Definition Ch (x y z : Z) := Z.lxor (Z.land x y) (Z.land (not32 x) z).
Definition Maj (x y z : Z) :=
  Z.lxor (Z.lxor (Z.land x y) (Z.land x z)) (Z.land y z).
Definition bsig0 x := Z.lxor (Z.lxor (rotr 2 x) (rotr 13 x)) (rotr 22 x).
Definition bsig1 x := Z.lxor (Z.lxor (rotr 6 x) (rotr 11 x)) (rotr 25 x).
Definition ssig0 x := Z.lxor (Z.lxor (rotr 7 x) (rotr 18 x)) (Z.shiftr x 3).
Definition ssig1 x := Z.lxor (Z.lxor (rotr 17 x) (rotr 19 x)) (Z.shiftr x 10).

(** The round constants are the first 32 bits of the fractional parts
    of the cube roots of the first 64 primes; the initial chaining words
    those of the square roots of the first 8. Both are computed here. *)
Definition primes64 : list Z :=
  [ 2; 3; 5; 7; 11; 13; 17; 19; 23; 29; 31; 37; 41; 43; 47; 53;
    59; 61; 67; 71; 73; 79; 83; 89; 97; 101; 103; 107; 109; 113; 127; 131;
    137; 139; 149; 151; 157; 163; 167; 173; 179; 181; 191; 193; 197; 199;
    211; 223; 227; 229; 233; 239; 241; 251; 257; 263; 269; 271; 277; 281;
    283; 293; 307; 311 ].

(** Largest [r] in [[lo, lo + 2^bits)] with [r^3 <= n], by bisection. *)
Fixpoint cube_root_from (bits : nat) (lo n : Z) : Z :=
  match bits with
  | O => lo
  | S b =>
      let mid := lo + 2 ^ Z.of_nat b in
      if mid * mid * mid <=? n then cube_root_from b mid n
      else cube_root_from b lo n
  end.

Definition cube_root_fraction (p : Z) : Z :=
  mask32 (cube_root_from 36 0 (p * 2 ^ 96)).

Definition square_root_fraction (p : Z) : Z :=
  mask32 (Z.sqrt (p * 2 ^ 64)).

Definition K : list Z := Eval vm_compute in map cube_root_fraction primes64.

(** The eight working variables / chaining words. *)
Record regs := Regs { ra : Z; rb : Z; rc : Z; rd : Z;
                      re : Z; rf : Z; rg : Z; rh : Z }.

Definition H0 : regs :=
  Eval vm_compute in
    let f i := square_root_fraction (nth i primes64 0) in
    Regs (f 0%nat) (f 1%nat) (f 2%nat) (f 3%nat)
         (f 4%nat) (f 5%nat) (f 6%nat) (f 7%nat).

(** Message schedule, newest word first: from W[t-1] .. W[t-16] the
    next word is ssig1 W[t-2] + W[t-7] + ssig0 W[t-15] + W[t-16]. *)
Definition next_word (recent : list Z) : Z :=
  add32 (add32 (ssig1 (nth 1 recent 0)) (nth 6 recent 0))
        (add32 (ssig0 (nth 14 recent 0)) (nth 15 recent 0)).

Fixpoint extend (n : nat) (recent : list Z) : list Z :=
  match n with
  | O => recent
  | S k => extend k (next_word recent :: recent)
  end.

Definition schedule (block_words : list Z) : list Z :=
  rev (extend 48 (rev block_words)).

Definition round (s : regs) (kw : Z * Z) : regs :=
  let t1 := add32 (add32 (add32 (rh s) (bsig1 (re s)))
                         (add32 (Ch (re s) (rf s) (rg s)) (fst kw)))
                  (snd kw) in
  let t2 := add32 (bsig0 (ra s)) (Maj (ra s) (rb s) (rc s)) in
  Regs (add32 t1 t2) (ra s) (rb s) (rc s)
       (add32 (rd s) t1) (re s) (rf s) (rg s).

Definition add_regs (x y : regs) : regs :=
  Regs (add32 (ra x) (ra y)) (add32 (rb x) (rb y))
       (add32 (rc x) (rc y)) (add32 (rd x) (rd y))
       (add32 (re x) (re y)) (add32 (rf x) (rf y))
       (add32 (rg x) (rg y)) (add32 (rh x) (rh y)).

Definition compress (h : regs) (block_words : list Z) : regs :=
  add_regs h (fold_left round (combine K (schedule block_words)) h).

(** Big-endian 32-bit words of a byte string (a short tail is read as
    if zero-extended on the left; padded messages have none). *)
Fixpoint words_of (bs : bytes) : list Z :=
  match bs with
  | b0 :: b1 :: b2 :: b3 :: rest => be_value [b0; b1; b2; b3] :: words_of rest
  | [] => []
  | tail => [be_value tail]
  end.

Definition pad (msg : bytes) : bytes :=
  let len := Z.of_nat (length msg) in
  msg ++ [x80] ++ repeat x00 (Z.to_nat ((55 - len) mod 64))
      ++ be_digits 8 (8 * len).

Fixpoint blocks (fuel : nat) (ws : list Z) : list (list Z) :=
  match fuel, ws with
  | S k, _ :: _ => firstn 16 ws :: blocks k (skipn 16 ws)
  | _, _ => []
  end.

Definition regs_bytes (h : regs) : bytes :=
  be_digits 4 (ra h) ++ be_digits 4 (rb h) ++ be_digits 4 (rc h)
    ++ be_digits 4 (rd h) ++ be_digits 4 (re h) ++ be_digits 4 (rf h)
    ++ be_digits 4 (rg h) ++ be_digits 4 (rh h).

Definition sha256 (msg : bytes) : bytes :=
  let ws := words_of (pad msg) in
  regs_bytes (fold_left compress (blocks (length ws) ws) H0).

(** [hashes.Hash(hashes.SHA256())]: the context holds what was fed to
    it; [update] feeds more, [finalize] returns the digest. *)
Record Hash := { fed : bytes }.
Definition new : Hash := {| fed := [] |}.
Definition update (h : Hash) (data : bytes) : Hash :=
  {| fed := fed h ++ data |}.
Definition finalize (h : Hash) : bytes := sha256 (fed h).

End SHA256.

Module HMAC.

Definition block_size : nat := 64.

Definition block_key (key : bytes) : bytes :=
  let k := if (block_size <? length key)%nat then SHA256.sha256 key else key in
  k ++ repeat x00 (block_size - length k).

Definition hmac_sha256 (key msg : bytes) : bytes :=
  let k := block_key key in
  let ipad := map (xor_byte x36) k in
  let opad := map (xor_byte x5c) k in
  SHA256.sha256 (opad ++ SHA256.sha256 (ipad ++ msg)).

End HMAC.

Module KBKDF.

(** [KBKDFHMAC(algorithm=SHA256, mode=CounterMode, length, rlen, llen,
    location=BeforeFixed, label, context, fixed=None).derive(key)]:
    K(i) = HMAC(key, [i]_rlen ‖ label ‖ 0x00 ‖ context ‖ [8*length]_llen)
    for i = 1 .. ceil(length / 32), concatenated and cut to [length]. *)
Definition fixed_input (length llen : nat) (label context : bytes) : bytes :=
  label ++ [x00] ++ context ++ be_digits llen (8 * Z.of_nat length).

Fixpoint rounds_from (n : nat) (i : Z) (rlen : nat) (key fixed : bytes) : bytes :=
  match n with
  | O => []
  | S k => HMAC.hmac_sha256 key (be_digits rlen i ++ fixed)
             ++ rounds_from k (i + 1) rlen key fixed
  end.

Definition derive (length rlen llen : nat) (label context key : bytes) : bytes :=
  let rounds := ((length + 31) / 32)%nat in
  firstn length
    (rounds_from rounds 1 rlen key (fixed_input length llen label context)).

End KBKDF.

(* ===================================================================== *)
(** ** Python values, exceptions and the library calls the code makes *)
(* ===================================================================== *)

Module Py.

(** The exceptions that can escape the modelled functions.
    [TimestampError] is what [datetime.fromtimestamp] raises for a
    timestamp it cannot turn into a [datetime]: a [ValueError], an
    [OSError] or an [OverflowError], as the platform's C library decides
    for the value at hand; it is never a [KeyError]. *)
Inductive exn :=
| KeyError (key : string)
| IndexError
| TypeError
| AttributeError
| ValueError
| OverflowError
| StructError
| BinasciiError
| JSONDecodeError
| InvalidTag
| TimestampError.

Inductive result (A : Type) :=
| Ok (a : A)
| Raise (e : exn).
Arguments Ok {A} a.
Arguments Raise {A} e.

Definition bind {A B} (r : result A) (k : A -> result B) : result B :=
  match r with
  | Ok a => k a
  | Raise e => Raise e
  end.

(** A library call that either returns or raises one known exception. *)
Definition or_raise {A} (e : exn) (o : option A) : result A :=
  match o with
  | Some a => Ok a
  | None => Raise e
  end.

(** [try: body  except KeyError: handler]. *)
Definition except_KeyError {A} (body handler : result A) : result A :=
  match body with
  | Raise (KeyError _) => handler
  | r => r
  end.

(** What [json.loads] produces, and what the token dictionaries hold.
    A float is kept as its literal, with whether it differs from zero. *)
#[warnings="-register-all"]
Inductive value :=
| VNone
| VBool (b : bool)
| VInt (z : Z)
| VFloat (nonzero : bool) (literal : string)
| VStr (s : string)
| VList (l : list value)
| VDict (d : gmap string value).

(** Truth value of an object, as [if x:] and [not x] take it. *)
Definition truthy (v : value) : bool :=
  match v with
  | VNone => false
  | VBool b => b
  | VInt z => negb (z =? 0)
  | VFloat nonzero _ => nonzero
  | VStr s => negb (String.eqb s "")
  | VList l => match l with [] => false | _ => true end
  | VDict d => negb (bool_decide (d = ∅))
  end.

(** [d[key]] on a dictionary. *)
Definition getitem (d : gmap string value) (key : string) : result value :=
  or_raise (KeyError key) (d !! key).

(** [v[key]] with a string key on an arbitrary object. *)
Definition subscript (v : value) (key : string) : result value :=
  match v with
  | VDict d => getitem d key
  | _ => Raise TypeError
  end.

(** [v.get(key)] on an arbitrary object. *)
Definition dict_get (v : value) (key : string) : result value :=
  match v with
  | VDict d => Ok (default VNone (d !! key))
  | _ => Raise AttributeError
  end.

(** [l[i]] on a list. *)
Definition index {A} (l : list A) (i : nat) : result A :=
  or_raise IndexError (nth_error l i).

(** [s.split(sep)] for a one-character separator. *)
Fixpoint split (sep : ascii) (s : string) : list string :=
  match s with
  | EmptyString => [EmptyString]
  | String c rest =>
      if Ascii.eqb c sep then EmptyString :: split sep rest
      else match split sep rest with
           | part :: parts => String c part :: parts
           | [] => [String c EmptyString]
           end
  end.

(** [s * n] for a string. *)
Fixpoint str_repeat (s : string) (n : nat) : string :=
  match n with
  | O => EmptyString
  | S k => s ++ str_repeat s k
  end.

(** [needle in haystack] for strings. *)
Fixpoint contains (needle haystack : string) : bool :=
  String.prefix needle haystack
  || match haystack with
     | EmptyString => false
     | String _ rest => contains needle rest
     end.

(** [s.lower()] on code points below 256: A-Z, and the Latin-1 capitals
    U+00C0..U+00DE except the multiplication sign, move up by 32. *)
Definition lower_char (c : ascii) : ascii :=
  let n := nat_of_ascii c in
  if ((65 <=? n) && (n <=? 90)
      || (192 <=? n) && (n <=? 222) && negb (n =? 215))%nat
  then ascii_of_nat (n + 32) else c.

Fixpoint lower (s : string) : string :=
  match s with
  | EmptyString => EmptyString
  | String c rest => String (lower_char c) (lower rest)
  end.

(** [s.encode('utf-8')] on code points below 256. *)
Fixpoint encode_utf8 (s : string) : bytes :=
  match s with
  | EmptyString => []
  | String c rest =>
      let n := Z.of_nat (nat_of_ascii c) in
      (if n <? 128 then [byte_of_Z n]
       else [byte_of_Z (Z.lor 0xC0 (Z.shiftr n 6));
             byte_of_Z (Z.lor 0x80 (Z.land n 0x3F))])
        ++ encode_utf8 rest
  end.

(** [x.bit_length()]. *)
Definition bit_length (x : Z) : Z :=
  if x =? 0 then 0 else Z.log2 (Z.abs x) + 1.

(** [x.to_bytes(length, byteorder='big')]: unsigned, and it must fit. *)
Definition to_bytes_big (x : Z) (length : Z) : result bytes :=
  if length <? 0 then Raise ValueError
  else if (x <? 0) || (256 ^ length <=? x) then Raise OverflowError
  else Ok (be_digits (Z.to_nat length) x).

(** [struct.pack('<L', x)]. *)
Definition pack_u32_le (x : Z) : result bytes :=
  if (x <? 0) || (2 ^ 32 <=? x) then Raise StructError
  else Ok (le_digits 4 x).

End Py.
Import Py.

Notation "'let*' x := e 'in' k" := (Py.bind e (fun x => k))
  (at level 10, x name, e at level 100, k at level 200).

(* ===================================================================== *)
(** ** deviceauth.py: the CNG public key blob *)
(* ===================================================================== *)

Module DeviceAuthentication.

(** What [key.public_key()] exposes: the public numbers; [key_size] is
    the bit length of the modulus. *)
Record RSAPublicKey := { pub_e : Z; pub_n : Z }.

Definition key_size (k : RSAPublicKey) : Z := bit_length (pub_n k).

Definition create_pubkey_blob_from_key (key : RSAPublicKey) : result bytes :=
  let* exponent_as_bytes := to_bytes_big (pub_e key) ((bit_length (pub_e key) + 7) / 8) in
  let* modulus_as_bytes := to_bytes_big (pub_n key) ((bit_length (pub_n key) + 7) / 8) in
  let* h1 := pack_u32_le (key_size key) in
  let* h2 := pack_u32_le (Z.of_nat (length exponent_as_bytes)) in
  let* h3 := pack_u32_le (Z.of_nat (length modulus_as_bytes)) in
  let* h4 := pack_u32_le 0 in
  let* h5 := pack_u32_le 0 in
  Ok (concat [of_string "RSA1"; h1; h2; h3; h4; h5]
        ++ exponent_as_bytes ++ modulus_as_bytes).

(** Reading a [BCRYPT_RSAKEY_BLOB] back: magic, five little-endian
    32-bit fields, then [cbPublicExp] bytes of exponent and [cbModulus]
    bytes of modulus, both big-endian. Returns [(e, n)]. *)
Definition parse_rsa1_blob (blob : bytes) : option (Z * Z) :=
  let field i := le_value (firstn 4 (skipn (4 + 4 * i) blob)) in
  let elen := Z.to_nat (field 1%nat) in
  let mlen := Z.to_nat (field 2%nat) in
  if bool_decide (firstn 4 blob = of_string "RSA1")
     && (length blob =? 24 + elen + mlen)%nat
  then Some (be_value (firstn elen (skipn 24 blob)),
             be_value (firstn mlen (skipn (24 + elen) blob)))
  else None.

(** [bs] is the shortest big-endian byte string whose value is [x]. *)
Definition min_big_endian (x : Z) (bs : bytes) : Prop :=
  be_value bs = x /\
  forall bs' : bytes, be_value bs' = x -> (length bs <= length bs')%nat.

(** The layout the blob is documented to have. *)
Definition rsa1_layout (bits : Z) (eb nb : bytes) : bytes :=
  of_string "RSA1"
    ++ le_digits 4 bits
    ++ le_digits 4 (Z.of_nat (length eb))
    ++ le_digits 4 (Z.of_nat (length nb))
    ++ le_digits 4 0 ++ le_digits 4 0
    ++ eb ++ nb.

End DeviceAuthentication.

(* ===================================================================== *)
(** ** auth.py *)
(* ===================================================================== *)

Module Authentication.

(** *** Key derivation

    [urandom n] stands for the bytes [os.urandom(n)] hands out when the
    call is made; [context] is [None] when the caller passes none. *)

Definition calculate_derived_key
    (urandom : nat -> bytes) (sessionkey : bytes) (context : option bytes)
  : bytes * bytes :=
  let label := of_string "AzureAD-SecureConversation" in
  let context :=
    match context with
    | Some (b :: bs) => b :: bs
    | Some [] | None => urandom 24%nat
    end in
  let derived_key := KBKDF.derive 32 4 4 label context sessionkey in
  (context, derived_key).

Definition calculate_derived_key_v2
    (urandom : nat -> bytes) (sessionkey context jwtbody : bytes)
  : bytes * bytes :=
  let digest := SHA256.new in
  let digest := SHA256.update digest context in
  let digest := SHA256.update digest jwtbody in
  let kdfcontext := SHA256.finalize digest in
  calculate_derived_key urandom sessionkey (Some kdfcontext).

(** [padding.PKCS7(128).unpadder()]: [update(data) + finalize()]. *)
Definition pkcs7_unpad (data : bytes) : result bytes :=
  let n := length data in
  match rev data with
  | [] => Raise ValueError
  | last :: _ =>
      let p := Z.to_nat (Z_of_byte last) in
      if ((n mod 16 =? 0) && (1 <=? p) && (p <=? 16))%nat
         && forallb (fun b => bool_decide (b = last)) (skipn (n - p) data)
      then Ok (firstn (n - p) data)
      else Raise ValueError
  end.

(** What [decrypt_auth_response] hands back. *)
Inductive plaintext :=
| AsStr (s : string)
| AsBytes (b : bytes)
| AsJson (v : value).

(** The authorize response as the code reads it. *)
Record response := { status : Z; headers : gmap string string; body : bytes }.

(** [coderedeemfunc]: [authenticate_with_code_native] or its v2 twin. *)
Inductive redeemer := CodeNative | CodeNativeV2.

Inductive cookie_result :=
| ReturnCode (code : string)
| ReturnRedeem (f : redeemer) (code redirect_uri : string)
| ReturnFalse.

(** One [self.print] of an f-string: a literal and the value put in. *)
Inductive printed :=
| Line (text : string)
| LineWith (text : string) (v : value).

Inductive bulk_return :=
| BulkFalse
| BulkTokendata (tokendata : gmap string value).

(** A run of [get_bulk_enrollment_token] against scripted replies:
    [finished = None] when the script ends while the loop still polls. *)
Record bulk_run := { output : list printed; sleeps : nat;
                     finished : option (result bulk_return) }.

Definition is_str (v : value) (s : string) : bool :=
  match v with
  | VStr s' => String.eqb s' s
  | _ => false
  end.

Definition translate_map : list (string * string) :=
  [ ("access_token", "accessToken"); ("refresh_token", "refreshToken");
    ("id_token", "idToken"); ("token_type", "tokenType") ]%string.

Definition time_format : string := "%Y-%m-%d %H:%M:%S".

(** The two characters an unencrypted JSON reply starts with: an
    opening brace and a double quote. *)
Definition brace_quote : string :=
  String "{" (String (ascii_of_nat 34) EmptyString).

(** What [requests_get] would hand back beside the response: the parsed
    JSON, the body bytes or the body text. *)
Inductive resdata :=
| Json (v : value)
| Content (b : bytes)
| Text (s : string).

(** The parameters [requests_get] declares after [self] (line 1147); it
    has no [**kwargs]. *)
Definition requests_get_parameters : list string :=
  ["url"; "headers"; "data"; "restype"; "reqtype"; "follow_redirects"]%string.

(** Binding the keyword arguments of a call: a keyword that names no
    parameter is a [TypeError], raised by the call itself. *)
Definition bind_keywords (parameters keywords : list string) : result unit :=
  if forallb (fun k => existsb (String.eqb k) parameters) keywords
  then Ok tt else Raise TypeError.

(** [await obj] for an object that is no awaitable, such as the value
    [response.json()] returns or the [bytes] of [response.read()]: a
    [TypeError]. *)
Definition await_plain (obj : resdata) : result resdata := Raise TypeError.

Section Libraries.

(** [base64.b64decode] and [base64.urlsafe_b64decode] on a [str];
    [None] is [binascii.Error]. *)
Variable b64decode : string -> option bytes.
Variable urlsafe_b64decode : string -> option bytes.

(** [json.loads] on [bytes] and on [str]; [None] is a decode error. *)
Variable json_loads : bytes -> option value.
Variable json_loads_str : string -> option value.

(** [AESGCM(key).decrypt(nonce, data, aad)]; [None] is [InvalidTag].
    [Cipher(AES(key), CBC(iv))] is [None] when the constructor
    raises [ValueError], else the map from ciphertext to what
    [update] and [finalize] return ([None]: [ValueError] again). *)
Variable aesgcm_decrypt : bytes -> bytes -> bytes -> bytes -> option bytes.
Variable aes_cbc : bytes -> bytes -> option (bytes -> option bytes).

(** [int(s)] on a string and on the float a JSON literal stands for;
    [None] for a float is not-a-number, whose literal is [NaN], or an
    infinity. *)
Variable int_of_str : string -> option Z.
Variable int_of_float : string -> option Z.

(** Naive local [datetime]s: [fromtimestamp], [+ timedelta(seconds=n)]
    (both [None] out of range) and [strftime]. *)
Variable datetime : Type.
Variable fromtimestamp : Z -> option datetime.
Variable add_seconds : datetime -> Z -> option datetime.
Variable strftime : datetime -> string -> string.

(** [urlparse(url).query] and [parse_qs]. *)
Variable urlparse_query : string -> string.
Variable parse_qs : string -> gmap string (list string).

(** The exception, if any, that escapes while the error page of an
    authorize response is decoded and reported. *)
Variable report_error_page : response -> option exn.

Definition get_data (data : string) : result bytes :=
  or_raise BinasciiError
    (urlsafe_b64decode (data +:+ str_repeat "=" (String.length data mod 4))).

Definition py_int (v : value) : result Z :=
  match v with
  | VInt z => Ok z
  | VBool b => Ok (if b then 1 else 0)
  | VStr s => or_raise ValueError (int_of_str s)
  | VFloat _ lit =>
      or_raise (if String.eqb lit "NaN" then ValueError else OverflowError)
        (int_of_float lit)
  | VNone | VList _ | VDict _ => Raise TypeError
  end.

(** [v.split('.')]: only a [str] has it among the JSON values. *)
Definition str_split (v : value) : result (list string) :=
  match v with
  | VStr s => Ok (split "." s)
  | _ => Raise AttributeError
  end.

(** [base64.b64decode(v)] on a JSON value. *)
Definition b64decode_value (v : value) : result bytes :=
  match v with
  | VStr s => or_raise BinasciiError (b64decode s)
  | _ => Raise TypeError
  end.

(** *** decrypt_auth_response *)

Definition as_requested (asjson : bool) (depadded_data : bytes)
  : result plaintext :=
  if asjson
  then let* jdata := or_raise JSONDecodeError (json_loads depadded_data) in
       Ok (AsJson jdata)
  else Ok (AsBytes depadded_data).

Definition decrypt_auth_response
    (urandom : nat -> bytes)
    (responsedata : string) (sessionkey : bytes) (asjson : bool)
  : result plaintext :=
  if String.eqb (substring 0 2 responsedata) brace_quote
  then
    if asjson
    then let* jdata := or_raise JSONDecodeError (json_loads_str responsedata) in
         Ok (AsJson jdata)
    else Ok (AsStr responsedata)
  else
    let dataparts := split "." responsedata in
    let* part0 := index dataparts 0 in
    let* rawheader := get_data part0 in
    let* headers := or_raise JSONDecodeError (json_loads rawheader) in
    let* ctx := subscript headers "ctx" in
    let* context := b64decode_value ctx in
    let derived_key :=
      snd (calculate_derived_key urandom sessionkey (Some context)) in
    let* data := index dataparts 3 in
    let* iv := index dataparts 2 in
    let* authtag := index dataparts 4 in
    let* ivbytes := get_data iv in
    let* depadded_data :=
      if (length ivbytes =? 12)%nat
      then
        let* nonce := get_data iv in
        let* ct := get_data data in
        let* tag := get_data authtag in
        or_raise InvalidTag
          (aesgcm_decrypt derived_key nonce (ct ++ tag) (encode_utf8 part0))
      else
        let* cbciv := get_data iv in
        let* decryptor := or_raise ValueError (aes_cbc derived_key cbciv) in
        let* ct := get_data data in
        let* decrypted_data := or_raise ValueError (decryptor ct) in
        pkcs7_unpad decrypted_data
    in
    as_requested asjson depadded_data.

(** *** tokenreply_to_tokendata *)

Definition translate (tokenreply tokenobject : gmap string value)
  : gmap string value :=
  fold_left
    (fun obj names =>
       match tokenreply !! fst names with
       | Some v => <[snd names := v]> obj
       | None => obj
       end)
    translate_map tokenobject.

(** The [expiresOn] entry: lines 1045-1048. *)
Definition expires_on_string (now : datetime) (tokenreply : gmap string value)
  : result string :=
  except_KeyError
    (let* v := getitem tokenreply "expires_on" in
     let* n := py_int v in
     let* dt := or_raise TimestampError (fromtimestamp n) in
     Ok (strftime dt time_format))
    (let* v := getitem tokenreply "expires_in" in
     let* n := py_int v in
     let* dt := or_raise OverflowError (add_seconds now n) in
     Ok (strftime dt time_format)).

(** The claims of the access token: lines 1050-1051. *)
Definition access_token_claims (tokenreply : gmap string value)
  : result value :=
  let* access_token := getitem tokenreply "access_token" in
  let* tokenparts := str_split access_token in
  let* part1 := index tokenparts 1 in
  let* raw :=
    or_raise BinasciiError
      (b64decode (part1 +:+ str_repeat "=" (String.length part1 mod 4))) in
  or_raise JSONDecodeError (json_loads raw).

(** The [tenantId] entry: lines 1052-1055. *)
Definition add_tenant_id (inputdata : value) (tokenobject : gmap string value)
  : result (gmap string value) :=
  except_KeyError
    (let* tid := subscript inputdata "tid" in
     Ok (<["tenantId"%string := tid]> tokenobject))
    (Ok tokenobject).

(** The [_clientId] entry: lines 1056-1062. *)
Definition add_client_id (client_id : option string) (inputdata : value)
    (tokenobject : gmap string value) : result (gmap string value) :=
  match client_id with
  | Some (String c cs) =>
      Ok (<["_clientId"%string := VStr (String c cs)]> tokenobject)
  | Some EmptyString | None =>
      except_KeyError
        (let* appid := subscript inputdata "appid" in
         Ok (<["_clientId"%string := appid]> tokenobject))
        (Ok tokenobject)
  end.

Definition tokenreply_to_tokendata
    (now : datetime)
    (tokenreply : gmap string value) (client_id : option string)
  : result (gmap string value) :=
  let* token_type := getitem tokenreply "token_type" in
  let tokenobject : gmap string value := {[ "tokenType"%string := token_type ]} in
  let* expiresOn := expires_on_string now tokenreply in
  let tokenobject := <["expiresOn"%string := VStr expiresOn]> tokenobject in
  let* inputdata := access_token_claims tokenreply in
  let* tokenobject := add_tenant_id inputdata tokenobject in
  let* tokenobject := add_client_id client_id inputdata tokenobject in
  Ok (translate tokenreply tokenobject).

(** *** requests_get (lines 1147-1171)

    [keywords] are the keyword arguments of the call, the URL being
    positional; [reply] is what [await session.get(...)] gives, the
    response or the exception of the transport. With [restype] neither
    json nor content the code calls [response.text], a [str]. *)
Definition requests_get (keywords : list string) (restype : string)
    (reply : result response) : result (response * resdata) :=
  let* _ := bind_keywords requests_get_parameters keywords in
  let* response := reply in
  let* resdata :=
    if String.eqb restype "json"
    then let* parsed := or_raise JSONDecodeError (json_loads (body response)) in
         await_plain (Json parsed)
    else if String.eqb restype "content"
    then await_plain (Content (body response))
    else Raise TypeError in
  Ok (response, resdata).

(** *** authenticate_with_prt_cookie

    The function from the authorize request on (lines 811-897): the
    cookie has been decoded and re-signed without an early return, and
    [reply] is what the transport gives for the GET of line 856. The
    error page is reported from the body of the response. A
    [ReturnRedeem] is the coroutine of [coderedeemfunc], which line 864
    returns without awaiting it. *)

Definition default_redirect_uri : string :=
  "https://login.microsoftonline.com/common/oauth2/nativeclient".

Definition header (res : response) (name : string) : result string :=
  or_raise (KeyError name) (headers res !! name).

(** The test that guards the authorization-code branch. *)
Definition code_redirect (res : response) (redirect_uri : string)
  : result bool :=
  if status res =? 302
  then let* location := header res "Location" in
       Ok (contains (lower redirect_uri) (lower location))
  else Ok false.

Definition authenticate_with_prt_cookie
    (scope redirurl : option string) (return_code : bool)
    (reply : result response)
  : result cookie_result :=
  let coderedeemfunc :=
    match scope with
    | Some (String _ _) => CodeNativeV2
    | _ => CodeNative
    end in
  let redirect_uri :=
    match redirurl with
    | Some (String c cs) => String c cs
    | _ => default_redirect_uri
    end in
  let* got :=
    requests_get ["headers"; "cookies"; "follow_redirects"; "restype"]%string
      "content" reply in
  let res := fst got in
  let* taken := code_redirect res redirect_uri in
  if taken
  then
    let* location := header res "Location" in
    let qdata := parse_qs (urlparse_query location) in
    let* codes := or_raise (KeyError "code") (qdata !! "code"%string) in
    let* code := index codes 0 in
    if return_code
    then Ok (ReturnCode code)
    else Ok (ReturnRedeem coderedeemfunc code redirect_uri)
  else
    match report_error_page res with
    | Some e => Raise e
    | None => Ok ReturnFalse
    end.

(** *** get_bulk_enrollment_token *)

Definition stop (out : list printed) (n : nat) (r : result bulk_return)
  : bulk_run :=
  {| output := out; sleeps := n; finished := Some r |}.

Definition enrollment_client_id : string :=
  "b90d5b8f-5503-4153-b545-b31cecfaece2".

Definition complete_success (now : datetime) (data : value)
  : result bulk_return :=
  let* resultData := subscript data "resultData" in
  let* tokenresult :=
    match resultData with
    | VStr s => or_raise JSONDecodeError (json_loads_str s)
    | _ => Raise TypeError
    end in
  let* id_token := subscript tokenresult "id_token" in
  let* tokenresult :=
    match tokenresult with
    | VDict d => Ok (<["access_token"%string := id_token]> d)
    | _ => Raise TypeError
    end in
  let* tokendata :=
    tokenreply_to_tokendata now tokenresult (Some enrollment_client_id) in
  Ok (BulkTokendata tokendata).

(** [data.get(key)] on what [requests_get] returned: [bytes] and [str]
    have no [get]. *)
Definition resdata_get (data : resdata) (key : string) : result (value * value) :=
  match data with
  | Json v => let* found := dict_get v key in Ok (v, found)
  | Content _ | Text _ => Raise AttributeError
  end.

(** The loop of lines 493-508; [polls] are the replies of the transport
    to the successive GETs. *)
Fixpoint poll_loop (now : datetime) (polls : list (result response))
    (out : list printed) (n : nat) : bulk_run :=
  match polls with
  | [] => {| output := out; sleeps := n; finished := None |}
  | reply :: later =>
      match (let* got := requests_get ["headers"; "restype"]%string "json" reply in
             resdata_get (snd got) "state") with
      | Raise e => stop out n (Raise e)
      | Ok (data, state) =>
          if negb (truthy state)
          then stop (out ++ [LineWith "No state returned. Server said: " data])
                    n (Ok BulkFalse)
          else if is_str state "CompleteError"
          then match subscript data "resultData" with
               | Raise e => stop out n (Raise e)
               | Ok resultData =>
                   stop (out ++ [LineWith "Error occurred: " resultData])
                        n (Ok BulkFalse)
               end
          else if is_str state "CompleteSuccess"
          then stop out n (complete_success now data)
          else poll_loop now later out (S n)
      end
  end.

(** Lines 467-508; [begin] is the parsed reply [requests_post] returns
    for the begin request, or the exception it raises. *)
Definition get_bulk_enrollment_token
    (now : datetime) (begin : result value) (polls : list (result response))
  : bulk_run :=
  match (let* data := begin in
         let* state := dict_get data "state" in Ok (data, state)) with
  | Raise e => stop [] 0 (Raise e)
  | Ok (data, state) =>
      if negb (truthy state)
      then stop [LineWith "No state returned. Server said: " data]
                0 (Ok BulkFalse)
      else if is_str state "CompleteError"
      then match subscript data "resultData" with
           | Raise e => stop [] 0 (Raise e)
           | Ok resultData =>
               stop [LineWith "Error occurred: " resultData] 0 (Ok BulkFalse)
           end
      else
        match dict_get data "flowToken" with
        | Raise e => stop [] 0 (Raise e)
        | Ok flowtoken =>
            if negb (truthy flowtoken)
            then stop [LineWith "Error. No flow token found. Data: " data]
                      0 (Ok BulkFalse)
            else poll_loop now polls
                   [Line "Got flow token, polling for token creation"] 0
        end
  end.

End Libraries.

End Authentication.

(* ===================================================================== *)
(** ** Recorded library behaviour

    The values the Python libraries return on the inputs of the worked
    examples below (CPython 3.11 [base64], [json], [urllib.parse],
    [datetime] in the UTC zone; AES-256 from OpenSSL), as finite tables.
    An input that was not recorded is answered with the library's
    failure. *)
(* ===================================================================== *)

Module Recorded.

Definition at_str {B} (table : list (string * B)) (key : string) : option B :=
  snd <$> find (fun entry => String.eqb (fst entry) key) table.

Definition at_bytes {B} (table : list (list byte * B)) (key : list byte)
  : option B :=
  snd <$> find (fun entry => bool_decide (fst entry = key)) table.

(** Session key, KDF context and the key derived from them. *)
Definition sessionkey : list byte :=
  fromhex "000102030405060708090a0b0c0d0e0f101112131415161718191a1b1c1d1e1f".
Definition kdf_context : list byte :=
  fromhex "6465666768696a6b6c6d6e6f707172737475767778797a7b".
Definition derived_key : list byte :=
  fromhex "fd86b1821bd2effa68009dee12e23d90b6889712dc9ec3a625075817ca47f47a".

(** A JWE with a 12-byte IV and one with a 16-byte IV, both carrying the
    23 bytes of a small JSON object, and the second with another tag. *)
Definition jwe_gcm : string :=
  "eyJlbmMiOiJBMjU2R0NNIiwiY3R4IjoiWkdWbVoyaHBhbXRzYlc1dmNIRnljM1IxZG5kNGVYcDcifQ..yMnKy8zNzs_Q0dLT.X-yqc9nLvuk9EiXy2HX-Jm22dPTi0ZI.HllHzlDV5Q-g-SdYagVPRQ".
Definition jwe_cbc : string :=
  "eyJlbmMiOiJBMjU2Q0JDLUhTMjU2IiwiY3R4IjoiWkdWbVoyaHBhbXRzYlc1dmNIRnljM1IxZG5kNGVYcDcifQ..EBESExQVFhcYGRobHB0eHw.PRydLeeQ0r_9RYLWjpr1BMQfejAdIKYn9Gae7HG-ATs.AAAA".
Definition jwe_cbc_other_tag : string :=
  "eyJlbmMiOiJBMjU2Q0JDLUhTMjU2IiwiY3R4IjoiWkdWbVoyaHBhbXRzYlc1dmNIRnljM1IxZG5kNGVYcDcifQ..EBESExQVFhcYGRobHB0eHw.PRydLeeQ0r_9RYLWjpr1BMQfejAdIKYn9Gae7HG-ATs.not base64!".

Definition header_gcm : list byte :=
  fromhex "7b22656e63223a224132353647434d222c22637478223a225a47566d5a326870616d7473625735766348467963335231646e643465587037227d".
Definition header_cbc : list byte :=
  fromhex "7b22656e63223a22413235364342432d4853323536222c22637478223a225a47566d5a326870616d7473625735766348467963335231646e643465587037227d".
Definition token_json : list byte :=
  fromhex "7b22746f6b656e5f74797065223a22426561726572227d".
Definition token_value : value :=
  VDict {[ "token_type"%string := VStr "Bearer" ]}.

(** Access tokens: one whose payload has tid, appid and exp, one whose
    payload has neither tid nor appid. *)
Definition access_token : string :=
  "h.eyJ0aWQiOiJUMSIsImFwcGlkIjoiQTEiLCJleHAiOjE3MDAwMDM2MDB9.s".
Definition access_token_no_claims : string := "h.eyJzdWIiOiJzb21lb25lIn0.s".
Definition claims_json : list byte :=
  fromhex "7b22746964223a225431222c226170706964223a224131222c22657870223a313730303030333630307d".
Definition no_claims_json : list byte := fromhex "7b22737562223a22736f6d656f6e65227d".

(** The [resultData] of a finished bulk enrollment: a JSON object with
    id_token, token_type and expires_in. *)
Definition result_data : string :=
  string_of_bytes (fromhex
    "7b2269645f746f6b656e223a22682e65794a30615751694f694a554d534973496d467763476c6b496a6f69515445694c434a6c654841694f6a45334d4441774d444d324d4442392e73222c22746f6b656e5f74797065223a22426561726572222c22657870697265735f696e223a2233363030227d").

Definition urlsafe_b64decode : string -> option (list byte) :=
  at_str
    [ ("eyJlbmMiOiJBMjU2R0NNIiwiY3R4IjoiWkdWbVoyaHBhbXRzYlc1dmNIRnljM1IxZG5kNGVYcDcifQ==",
       header_gcm);
      ("yMnKy8zNzs_Q0dLT", fromhex "c8c9cacbcccdcecfd0d1d2d3");
      ("X-yqc9nLvuk9EiXy2HX-Jm22dPTi0ZI===",
       fromhex "5fecaa73d9cbbee93d1225f2d875fe266db674f4e2d192");
      ("HllHzlDV5Q-g-SdYagVPRQ==", fromhex "1e5947ce50d5e50fa0f927586a054f45");
      ("eyJlbmMiOiJBMjU2Q0JDLUhTMjU2IiwiY3R4IjoiWkdWbVoyaHBhbXRzYlc1dmNIRnljM1IxZG5kNGVYcDcifQ==",
       header_cbc);
      ("EBESExQVFhcYGRobHB0eHw==", fromhex "101112131415161718191a1b1c1d1e1f");
      ("PRydLeeQ0r_9RYLWjpr1BMQfejAdIKYn9Gae7HG-ATs===",
       fromhex "3d1c9d2de790d2bffd4582d68e9af504c41f7a301d20a627f4669eec71be013b");
      ("AAAA", fromhex "000000") ]%string.

Definition b64decode : string -> option (list byte) :=
  at_str
    [ ("ZGVmZ2hpamtsbW5vcHFyc3R1dnd4eXp7", kdf_context);
      ("eyJ0aWQiOiJUMSIsImFwcGlkIjoiQTEiLCJleHAiOjE3MDAwMDM2MDB9", claims_json);
      ("eyJzdWIiOiJzb21lb25lIn0===", no_claims_json) ]%string.

(** The body of a poll response of the bulk enrollment. *)
Definition poll_success_json : list byte :=
  fromhex
   ("7b227374617465223a22436f6d706c65746553756363657373222c2272657375"
    +:+ "6c7444617461223a227b5c2269645f746f6b656e5c223a5c22682e65794a3061"
    +:+ "5751694f694a554d534973496d467763476c6b496a6f69515445694c434a6c65"
    +:+ "4841694f6a45334d4441774d444d324d4442392e735c222c5c22746f6b656e5f"
    +:+ "747970655c223a5c224265617265725c222c5c22657870697265735f696e5c22"
    +:+ "3a5c22333630305c227d227d").

Definition json_loads : list byte -> option value :=
  at_bytes
    [ (header_gcm,
       VDict {[ "enc"%string := VStr "A256GCM";
                "ctx"%string := VStr "ZGVmZ2hpamtsbW5vcHFyc3R1dnd4eXp7" ]});
      (header_cbc,
       VDict {[ "enc"%string := VStr "A256CBC-HS256";
                "ctx"%string := VStr "ZGVmZ2hpamtsbW5vcHFyc3R1dnd4eXp7" ]});
      (token_json, token_value);
      (claims_json,
       VDict {[ "tid"%string := VStr "T1"; "appid"%string := VStr "A1";
                "exp"%string := VInt 1700003600 ]});
      (no_claims_json, VDict {[ "sub"%string := VStr "someone" ]});
      (poll_success_json,
       VDict {[ "state"%string := VStr "CompleteSuccess";
                "resultData"%string := VStr result_data ]}) ].

Definition json_loads_str : string -> option value :=
  at_str
    [ (string_of_bytes token_json, token_value);
      (result_data,
       VDict {[ "id_token"%string := VStr access_token;
                "token_type"%string := VStr "Bearer";
                "expires_in"%string := VStr "3600" ]}) ].

(** AES-256-GCM: the one ciphertext recorded; any other fails its tag. *)
Definition aesgcm_decrypt (key nonce data aad : list byte) : option (list byte) :=
  if bool_decide (key = derived_key)
     && bool_decide (nonce = fromhex "c8c9cacbcccdcecfd0d1d2d3")
     && bool_decide (data = fromhex
          "5fecaa73d9cbbee93d1225f2d875fe266db674f4e2d1921e5947ce50d5e50fa0f927586a054f45")
     && bool_decide (aad = Py.encode_utf8
          "eyJlbmMiOiJBMjU2R0NNIiwiY3R4IjoiWkdWbVoyaHBhbXRzYlc1dmNIRnljM1IxZG5kNGVYcDcifQ")
  then Some token_json else None.

(** AES-256-CBC: the cipher is built for a 16-byte IV only. *)
Definition aes_cbc (key iv : list byte)
  : option (list byte -> option (list byte)) :=
  if (length iv =? 16)%nat
  then Some (fun ct =>
         if bool_decide (key = derived_key)
            && bool_decide (iv = fromhex "101112131415161718191a1b1c1d1e1f")
            && bool_decide (ct = fromhex
                 "3d1c9d2de790d2bffd4582d68e9af504c41f7a301d20a627f4669eec71be013b")
         then Some (token_json ++ repeat x09 9) else None)
  else None.

Definition int_of_str : string -> option Z :=
  at_str [ ("1700000000", 1700000000); ("3600", 3600) ]%string.

Definition int_of_float (literal : string) : option Z := None.

(** Naive datetimes in the UTC zone, as seconds since 1970-01-01 00:00:00,
    within the years 1970..9999. *)
Definition in_range (t : Z) : option Z :=
  if (0 <=? t) && (t <? 253402300800) then Some t else None.

Definition fromtimestamp (t : Z) : option Z := in_range t.
Definition add_seconds (t n : Z) : option Z := in_range (t + n).

(** Year, month and day of a day count since 1970-01-01. *)
Definition civil (days : Z) : Z * Z * Z :=
  let z := days + 719468 in
  let era := z / 146097 in
  let doe := z mod 146097 in
  let yoe := (doe - doe / 1460 + doe / 36524 - doe / 146096) / 365 in
  let doy := doe - (365 * yoe + yoe / 4 - yoe / 100) in
  let mp := (5 * doy + 2) / 153 in
  let d := doy - (153 * mp + 2) / 5 + 1 in
  let m := if mp <? 10 then mp + 3 else mp - 9 in
  (yoe + era * 400 + (if m <=? 2 then 1 else 0), m, d).

Fixpoint decimal (width : nat) (n : Z) : string :=
  match width with
  | O => EmptyString
  | S w => decimal w (n / 10) +:+ String (ascii_of_nat (48 + Z.to_nat (n mod 10))) EmptyString
  end.

Definition strftime (t : Z) (format : string) : string :=
  if String.eqb format Authentication.time_format
  then
    let '(y, m, d) := civil (t / 86400) in
    let s := t mod 86400 in
    decimal 4 y +:+ "-" +:+ decimal 2 m +:+ "-" +:+ decimal 2 d +:+ " "
      +:+ decimal 2 (s / 3600) +:+ ":" +:+ decimal 2 (s / 60 mod 60)
      +:+ ":" +:+ decimal 2 (s mod 60)
  else EmptyString.

Definition urlparse_query : string -> string :=
  fun url =>
    default EmptyString
      (at_str
         [ ("https://login.microsoftonline.com/common/oauth2/nativeclient?code=ABC&state=S0",
            "code=ABC&state=S0");
           ("https://example.com/landing?back=https://login.microsoftonline.com/common/oauth2/nativeclient&code=XYZ",
            "back=https://login.microsoftonline.com/common/oauth2/nativeclient&code=XYZ");
           ("https://login.microsoftonline.com/common/reprocess?sso_nonce=N2&ctx=1",
            "sso_nonce=N2&ctx=1") ]%string
         url).

Definition parse_qs : string -> gmap string (list string) :=
  fun query =>
    default ∅
      (at_str
         [ ("code=ABC&state=S0",
            {[ "code" := ["ABC"]; "state" := ["S0"] ]});
           ("back=https://login.microsoftonline.com/common/oauth2/nativeclient&code=XYZ",
            {[ "back" := ["https://login.microsoftonline.com/common/oauth2/nativeclient"];
               "code" := ["XYZ"] ]});
           ("sso_nonce=N2&ctx=1",
            {[ "sso_nonce" := ["N2"]; "ctx" := ["1"] ]}) ]%string
         query).

(** No exception escapes while the error page is reported. *)
Definition report_error_page (res : Authentication.response) : option exn := None.

(** A /token reply with an [expires_on] epoch, and its normalized record. *)
Definition tokenreply : gmap string value :=
  {[ "token_type"%string := VStr "Bearer";
     "expires_on"%string := VStr "1700000000";
     "access_token"%string := VStr access_token;
     "refresh_token"%string := VStr "R" ]}.

Definition tokendata : gmap string value :=
  {[ "tokenType"%string := VStr "Bearer";
     "expiresOn"%string := VStr "2023-11-14 22:13:20";
     "tenantId"%string := VStr "T1";
     "_clientId"%string := VStr "A1";
     "accessToken"%string := VStr access_token;
     "refreshToken"%string := VStr "R" ]}.

(** Replies with [expires_in] only: one without an access token, one
    whose access token carries no tid and no appid. *)
Definition tokenreply_no_access_token : gmap string value :=
  {[ "token_type"%string := VStr "Bearer";
     "expires_in"%string := VInt 3600;
     "refresh_token"%string := VStr "R";
     "id_token"%string := VStr access_token ]}.

Definition tokenreply_bare : gmap string value :=
  {[ "token_type"%string := VStr "Bearer";
     "expires_in"%string := VInt 3600;
     "access_token"%string := VStr access_token_no_claims ]}.

(** The current local time of the examples: 2023-11-14 22:13:20. *)
Definition now : Z := 1700000000.

(** An authorize response: a redirect to the redirect URI with a code. *)
Definition redirect_with_code : Authentication.response :=
  {| Authentication.status := 302;
     Authentication.headers :=
       {[ "Location"%string :=
            "https://login.microsoftonline.com/common/oauth2/nativeclient?code=ABC&state=S0"%string ]};
     Authentication.body := [] |}.

(** Bulk enrollment replies. *)
Definition begin_error : value :=
  VDict {[ "state"%string := VStr "CompleteError";
           "resultData"%string := VStr "AADSTS50020: not allowed" ]}.
Definition begin_started : value :=
  VDict {[ "state"%string := VStr "Started"; "flowToken"%string := VStr "F1" ]}.

(** A poll response as the transport delivers it: status 200 and the
    JSON body of a finished enrollment. *)
Definition poll_success : Authentication.response :=
  {| Authentication.status := 200;
     Authentication.headers := {[ "Content-Type"%string := "application/json"%string ]};
     Authentication.body := poll_success_json |}.

(** The calls of the examples, with the recorded libraries plugged in. *)
Definition decrypt_auth_response :=
  Authentication.decrypt_auth_response
    b64decode urlsafe_b64decode json_loads json_loads_str aesgcm_decrypt aes_cbc.

Definition tokenreply_to_tokendata :=
  Authentication.tokenreply_to_tokendata
    b64decode json_loads int_of_str int_of_float Z fromtimestamp add_seconds strftime.

Definition authenticate_with_prt_cookie :=
  Authentication.authenticate_with_prt_cookie
    json_loads urlparse_query parse_qs report_error_page.

Definition get_bulk_enrollment_token :=
  Authentication.get_bulk_enrollment_token
    b64decode json_loads json_loads_str int_of_str int_of_float
    Z fromtimestamp add_seconds strftime.

End Recorded.


(* ===================================================================== *)
(** ** Library codecs: binascii hex, base64, PKCS#7 padding

    [binascii.hexlify] / [unhexlify], [base64.b64encode] /
    [urlsafe_b64encode] and the non-strict [binascii.a2b_base64] behind
    [base64.b64decode] / [urlsafe_b64decode] as CPython 3.11 has them,
    on [str] arguments. *)
(* ===================================================================== *)

Module Codec.

(** *** Strings *)

Fixpoint map_string (f : ascii -> ascii) (s : string) : string :=
  match s with
  | EmptyString => EmptyString
  | String c rest => String (f c) (map_string f rest)
  end.

Fixpoint all_chars (p : ascii -> bool) (s : string) : bool :=
  match s with
  | EmptyString => true
  | String c rest => p c && all_chars p rest
  end.

Definition is_ascii (c : ascii) : bool := (nat_of_ascii c <? 128)%nat.

(** [s.replace(old, '')] for a one-character [old]. *)
Fixpoint remove_char (old : ascii) (s : string) : string :=
  match s with
  | EmptyString => EmptyString
  | String c rest =>
      if Ascii.eqb c old then remove_char old rest
      else String c (remove_char old rest)
  end.

(** [c in s] for a character. *)
Fixpoint has_char (c : ascii) (s : string) : bool :=
  match s with
  | EmptyString => false
  | String c' rest => Ascii.eqb c' c || has_char c rest
  end.

(** Number of occurrences of a character. *)
Fixpoint count_char (c : ascii) (s : string) : nat :=
  match s with
  | EmptyString => 0
  | String c' rest => (if Ascii.eqb c' c then 1 else 0) + count_char c rest
  end.

(** [s.upper()] on ASCII text. *)
Definition upper_char (c : ascii) : ascii :=
  let n := nat_of_ascii c in
  if ((97 <=? n) && (n <=? 122))%nat then ascii_of_nat (n - 32) else c.

(** *** Hexadecimal *)

Definition hex_char (d : Z) : ascii :=
  ascii_of_nat (Z.to_nat (if d <? 10 then 48 + d else 87 + d)).

(** [binascii.hexlify(bs).decode()]: two lower-case digits per byte. *)
Fixpoint hexlify (bs : list byte) : string :=
  match bs with
  | [] => EmptyString
  | b :: rest =>
      String (hex_char (Z_of_byte b / 16))
        (String (hex_char (Z_of_byte b mod 16)) (hexlify rest))
  end.

Definition hex_value (c : ascii) : option Z :=
  let n := Z.of_nat (nat_of_ascii c) in
  if (48 <=? n) && (n <=? 57) then Some (n - 48)
  else if (97 <=? n) && (n <=? 102) then Some (n - 87)
  else if (65 <=? n) && (n <=? 70) then Some (n - 55)
  else None.

(** [binascii.unhexlify(s)]: [None] is [binascii.Error] (odd length or a
    character that is no hexadecimal digit) or, for a non-ASCII string,
    [ValueError]. *)
Fixpoint unhexlify (s : string) : option (list byte) :=
  match s with
  | EmptyString => Some []
  | String _ EmptyString => None
  | String hi (String lo rest) =>
      match hex_value hi, hex_value lo, unhexlify rest with
      | Some h, Some l, Some bs => Some (byte_of_Z (16 * h + l) :: bs)
      | _, _, _ => None
      end
  end.

(** *** Base64 *)

Definition alphabet : string :=
  "ABCDEFGHIJKLMNOPQRSTUVWXYZabcdefghijklmnopqrstuvwxyz0123456789+/".

Definition b64_char (sextet : Z) : ascii :=
  match String.get (Z.to_nat sextet) alphabet with
  | Some c => c
  | None => "A"%char
  end.

Fixpoint index_from (i : Z) (c : ascii) (s : string) : option Z :=
  match s with
  | EmptyString => None
  | String c' rest => if Ascii.eqb c' c then Some i else index_from (i + 1) c rest
  end.

Definition b64_value (c : ascii) : option Z := index_from 0 c alphabet.

(** The sextets of a group of three bytes. *)
Definition sextet1 (a : byte) : Z := Z.shiftr (Z_of_byte a) 2.
Definition sextet2 (a b : byte) : Z :=
  Z.lor (Z.shiftl (Z.land (Z_of_byte a) 3) 4) (Z.shiftr (Z_of_byte b) 4).
Definition sextet3 (b c : byte) : Z :=
  Z.lor (Z.shiftl (Z.land (Z_of_byte b) 15) 2) (Z.shiftr (Z_of_byte c) 6).
Definition sextet4 (c : byte) : Z := Z.land (Z_of_byte c) 63.

(** [base64.b64encode(bs).decode()] without its trailing [=] signs, and
    the number of those. *)
Fixpoint b64encode_nopad (bs : list byte) : string :=
  match bs with
  | a :: b :: c :: rest =>
      String (b64_char (sextet1 a)) (String (b64_char (sextet2 a b))
        (String (b64_char (sextet3 b c)) (String (b64_char (sextet4 c))
          (b64encode_nopad rest))))
  | [a; b] =>
      String (b64_char (sextet1 a)) (String (b64_char (sextet2 a b))
        (String (b64_char (sextet3 b x00)) EmptyString))
  | [a] =>
      String (b64_char (sextet1 a))
        (String (b64_char (sextet2 a x00)) EmptyString)
  | [] => EmptyString
  end.

Definition padding (bs : list byte) : nat := ((3 - length bs mod 3) mod 3)%nat.

Definition b64encode (bs : list byte) : string :=
  b64encode_nopad bs +:+ str_repeat "=" (padding bs).

(** The URL-safe alphabet writes [-] for [+] and [_] for [/]. *)
Definition to_urlsafe (c : ascii) : ascii :=
  if Ascii.eqb c "+" then "-"%char else if Ascii.eqb c "/" then "_"%char else c.
Definition from_urlsafe (c : ascii) : ascii :=
  if Ascii.eqb c "-" then "+"%char else if Ascii.eqb c "_" then "/"%char else c.

Definition urlsafe_b64encode_nopad (bs : list byte) : string :=
  map_string to_urlsafe (b64encode_nopad bs).
Definition urlsafe_b64encode (bs : list byte) : string :=
  map_string to_urlsafe (b64encode bs).

(** [binascii.a2b_base64] in its default, non-strict mode: characters
    outside the alphabet are skipped; a [=] that completes a quad of at
    least two data characters ends the decoding; data characters left in
    an unfinished quad are an error. [out] is the output so far, newest
    byte first. *)
Fixpoint a2b_base64 (s : string) (quad_pos : nat) (leftchar : Z) (pads : nat)
    (out : list byte) : option (list byte) :=
  match s with
  | EmptyString => if (quad_pos =? 0)%nat then Some (rev out) else None
  | String c rest =>
      if Ascii.eqb c "=" then
        if (2 <=? quad_pos)%nat then
          if (4 <=? quad_pos + S pads)%nat then Some (rev out)
          else a2b_base64 rest quad_pos leftchar (S pads) out
        else a2b_base64 rest quad_pos leftchar pads out
      else
        match b64_value c with
        | None => a2b_base64 rest quad_pos leftchar pads out
        | Some this_ch =>
            match quad_pos with
            | 0%nat => a2b_base64 rest 1 this_ch 0 out
            | 1%nat =>
                a2b_base64 rest 2 (Z.land this_ch 15) 0
                  (byte_of_Z (Z.lor (Z.shiftl leftchar 2) (Z.shiftr this_ch 4))
                     :: out)
            | 2%nat =>
                a2b_base64 rest 3 (Z.land this_ch 3) 0
                  (byte_of_Z (Z.lor (Z.shiftl leftchar 4) (Z.shiftr this_ch 2))
                     :: out)
            | _ =>
                a2b_base64 rest 0 0 0
                  (byte_of_Z (Z.lor (Z.shiftl leftchar 6) this_ch) :: out)
            end
        end
  end.

(** [base64.b64decode(s)] and [base64.urlsafe_b64decode(s)] for a [str]:
    [None] is the [ValueError] for a non-ASCII string or
    [binascii.Error]. *)
Definition b64decode (s : string) : option (list byte) :=
  if all_chars is_ascii s then a2b_base64 s 0 0 0 [] else None.

Definition urlsafe_b64decode (s : string) : option (list byte) :=
  if all_chars is_ascii s then b64decode (map_string from_urlsafe s) else None.

(** *** Percent-encoding *)

Definition always_safe (n : Z) : bool :=
  (65 <=? n) && (n <=? 90) || (97 <=? n) && (n <=? 122)
  || (48 <=? n) && (n <=? 57)
  || (n =? 95) || (n =? 46) || (n =? 45) || (n =? 126).

Definition upper_hex_char (d : Z) : ascii :=
  ascii_of_nat (Z.to_nat (if d <? 10 then 48 + d else 55 + d)).

Definition quote_byte (b : byte) : string :=
  let n := Z_of_byte b in
  if always_safe n then String (ascii_of_byte b) EmptyString
  else if n =? 32 then "+"
  else String "%" (String (upper_hex_char (n / 16))
                     (String (upper_hex_char (n mod 16)) EmptyString)).

(** [urllib.parse.quote_plus(s)]: the UTF-8 bytes of [s], letters,
    digits and [_.-~] kept, a space written [+], the rest as [%XX]. *)
Definition quote_plus (s : string) : string :=
  fold_right (fun b acc => quote_byte b +:+ acc) EmptyString (encode_utf8 s).

Definition quote_check (n : Z) : bool :=
  let q := quote_byte (byte_of_Z n) in
  (count_char "&" q =? 0)%nat && (count_char "?" q =? 0)%nat
  && (count_char "#" q =? 0)%nat && (count_char "=" q =? 0)%nat
  && (count_char "/" q =? 0)%nat && (count_char " " q =? 0)%nat.

(** A character the decoder takes as data. *)
Definition is_data (c : ascii) : bool :=
  match b64_value c with
  | Some _ => negb (Ascii.eqb c "=")
  | None => false
  end.

(** Number of characters of [s] the decoder takes as data. *)
Fixpoint count_data (s : string) : nat :=
  match s with
  | EmptyString => 0
  | String c rest => (if is_data c then 1 else 0) + count_data rest
  end.

(** *** Exhaustive checks on bytes and sextets, used by the proofs *)

Definition range (n : nat) : list Z := map Z.of_nat (seq 0 n).

Definition char_check (s : Z) : bool :=
  bool_decide (b64_value (b64_char s) = Some s)
  && negb (Ascii.eqb (b64_char s) "=")
  && is_ascii (b64_char s)
  && is_ascii (to_urlsafe (b64_char s))
  && Ascii.eqb (from_urlsafe (to_urlsafe (b64_char s))) (b64_char s)
  && negb (Ascii.eqb (b64_char s) ".")
  && negb (Ascii.eqb (to_urlsafe (b64_char s)) ".").

Definition hex_check (d : Z) : bool :=
  bool_decide (hex_value (hex_char d) = Some d)
  && bool_decide (b64_value (hex_char d) <> None)
  && is_data (hex_char d)
  && negb (Ascii.eqb (hex_char d) "=")
  && negb (Ascii.eqb (hex_char d) " ")
  && is_ascii (hex_char d).

Definition byte_check (a : Z) : bool :=
  (Z.lor (Z.shiftl (Z.shiftr a 2) 2) (Z.land a 3) =? a)
  && (Z.lor (Z.shiftl (Z.shiftr a 4) 4) (Z.land a 15) =? a)
  && (Z.lor (Z.shiftl (Z.shiftr a 6) 6) (Z.land a 63) =? a)
  && (0 <=? Z.shiftr a 2) && (Z.shiftr a 2 <? 64)
  && (0 <=? Z.land a 63) && (Z.land a 63 <? 64)
  && (0 <=? a / 16) && (a / 16 <? 16) && (16 * (a / 16) + a mod 16 =? a).

Definition pair_check (a b : Z) : bool :=
  let s2 := Z.lor (Z.shiftl (Z.land a 3) 4) (Z.shiftr b 4) in
  let s3 := Z.lor (Z.shiftl (Z.land a 15) 2) (Z.shiftr b 6) in
  (0 <=? s2) && (s2 <? 64) && (0 <=? s3) && (s3 <? 64)
  && (Z.shiftr s2 4 =? Z.land a 3) && (Z.land s2 15 =? Z.shiftr b 4)
  && (Z.shiftr s3 2 =? Z.land a 15) && (Z.land s3 3 =? Z.shiftr b 6).

(** The quad position the decoder is left in after the encoding of
    [bs]: 0 after whole groups, 2 after one spare byte, 3 after two. *)
Fixpoint pending (bs : list byte) : nat :=
  match bs with
  | _ :: _ :: _ :: rest => pending rest
  | [_; _] => 3
  | [_] => 2
  | [] => 0
  end.

(** *** PKCS#7 *)

(** [padding.PKCS7(128).padder()]: [update(data) + finalize()]. *)
Definition pkcs7_pad (data : list byte) : list byte :=
  let p := (16 - length data mod 16)%nat in
  data ++ repeat (byte_of_Z (Z.of_nat p)) p.

End Codec.

(* ===================================================================== *)
(** ** auth.py: the static helpers, the token parser and the URL builder *)
(* ===================================================================== *)

Module AuthenticationTools.

(** [get_data] (lines 30-31) over the library's decoder. *)
Definition get_data (data : string) : result (list byte) :=
  Authentication.get_data Codec.urlsafe_b64decode data.

(** Lines 990-996. An argument is [None] or a [str]. *)
Definition ensure_binary_derivedkey (derived_key : option string)
  : result (option (list byte)) :=
  match derived_key with
  | None | Some EmptyString => Ok None
  | Some derived_key =>
      let secret := Codec.remove_char " " derived_key in
      let* sdata := or_raise BinasciiError (Codec.unhexlify secret) in
      Ok (Some sdata)
  end.

(** Lines 998-1007. *)
Definition ensure_binary_sessionkey (sessionkey : option string)
  : result (option (list byte)) :=
  match sessionkey with
  | None | Some EmptyString => Ok None
  | Some sessionkey =>
      if (String.length sessionkey =? 44)%nat
      then
        let* keybytes := or_raise BinasciiError (Codec.b64decode sessionkey) in
        Ok (Some keybytes)
      else
        let sessionkey := Codec.remove_char " " sessionkey in
        let* keybytes := or_raise BinasciiError (Codec.unhexlify sessionkey) in
        Ok (Some keybytes)
  end.

(** Lines 1009-1013. *)
Definition ensure_binary_context (context : option string)
  : result (option (list byte)) :=
  match context with
  | None | Some EmptyString => Ok None
  | Some context =>
      let* raw := or_raise BinasciiError (Codec.unhexlify context) in
      Ok (Some raw)
  end.

Section Libraries.

(** [bs.decode('utf-8')]; [None] is [UnicodeDecodeError]. *)
Variable decode_utf8 : list byte -> option string.

(** [json.loads] on [bytes]. *)
Variable json_loads : list byte -> option value.

(** Naive local datetimes: [fromtimestamp] of an integer and of a float
    literal ([None] out of range), and [strftime]. *)
Variable datetime : Type.
Variable fromtimestamp : Z -> option datetime.
Variable fromtimestamp_float : string -> option datetime.
Variable strftime : datetime -> string -> string.

(** Lines 1015-1022. *)
Definition ensure_plain_prt (prt : option string) : result (option string) :=
  match prt with
  | None | Some EmptyString => Ok None
  | Some prt =>
      if negb (Codec.has_char "." prt)
      then
        let* raw :=
          or_raise BinasciiError
            (Codec.b64decode
               (prt +:+ str_repeat "=" (String.length prt mod 4))) in
        let* prt := or_raise ValueError (decode_utf8 raw) in
        Ok (Some prt)
      else Ok (Some prt)
  end.

(** [datetime.datetime.fromtimestamp(v)] on a JSON value. *)
Definition fromtimestamp_value (v : value) : result datetime :=
  match v with
  | VInt z => or_raise TimestampError (fromtimestamp z)
  | VBool b => or_raise TimestampError (fromtimestamp (if b then 1 else 0))
  | VFloat _ literal => or_raise TimestampError (fromtimestamp_float literal)
  | VNone | VStr _ | VList _ | VDict _ => Raise TypeError
  end.

(** Lines 1024-1035. *)
Definition parse_accesstoken (token : string)
  : result (gmap string value * value) :=
  let tokenparts := split "." token in
  let* part1 := index tokenparts 1 in
  let* raw := get_data part1 in
  let* tokendata := or_raise JSONDecodeError (json_loads raw) in
  let* exp := subscript tokendata "exp" in
  let* dt := fromtimestamp_value exp in
  let* tid := dict_get tokendata "tid" in
  let* appid := dict_get tokendata "appid" in
  let tokenobject : gmap string value :=
    {[ "accessToken"%string := VStr token;
       "tokenType"%string := VStr "Bearer";
       "expiresOn"%string := VStr (strftime dt "%Y-%m-%d %H:%M:%S");
       "tenantId"%string := tid;
       "_clientId"%string := appid ]} in
  Ok (tokenobject, tokendata).

(** Lines 1098-1108. *)
Definition parse_jwt (jwtoken : string) : result (value * value * list byte) :=
  let dataparts := split "." jwtoken in
  let* part0 := index dataparts 0 in
  let* raw0 := get_data part0 in
  let* header := or_raise JSONDecodeError (json_loads raw0) in
  let* part1 := index dataparts 1 in
  let* raw1 := get_data part1 in
  let* body := or_raise JSONDecodeError (json_loads raw1) in
  let* part2 := index dataparts 2 in
  let* signature := get_data part2 in
  Ok (header, body, signature).

End Libraries.

(** Lines 510-541. [fresh_state] is the [str(uuid.uuid4())] drawn when no
    state is passed; [tenant], [scope] and [state] may be [None]. *)
Definition build_auth_url (fresh_state : string)
    (client_id resource_uri : string) (tenant : option string)
    (redirurl response_type : string) (scope state : option string) : string :=
  let state :=
    match state with
    | Some (String c cs) => String c cs
    | _ => fresh_state
    end in
  let tenant :=
    match tenant with
    | Some (String c cs) => String c cs
    | _ => "common"%string
    end in
  match scope with
  | Some (String c cs) =>
      "https://login.microsoftonline.com/" +:+ Codec.quote_plus tenant
        +:+ "/oauth2/v2.0/authorize?response_type="
        +:+ Codec.quote_plus response_type
        +:+ "&client_id=" +:+ Codec.quote_plus client_id
        +:+ "&scope=" +:+ Codec.quote_plus (String c cs)
        +:+ "&redirect_uri=" +:+ Codec.quote_plus redirurl
        +:+ "&state=" +:+ Codec.quote_plus state
  | _ =>
      "https://login.microsoftonline.com/" +:+ Codec.quote_plus tenant
        +:+ "/oauth2/authorize?response_type="
        +:+ Codec.quote_plus response_type
        +:+ "&client_id=" +:+ Codec.quote_plus client_id
        +:+ "&resource=" +:+ Codec.quote_plus resource_uri
        +:+ "&redirect_uri=" +:+ Codec.quote_plus redirurl
        +:+ "&state=" +:+ Codec.quote_plus state
  end.

(** *** PRT cookie with the second key derivation (lines 543-574)

    [jwt_encode payload key headers] is [jwt.encode(payload, key,
    algorithm='HS256', headers=headers)]; [iat] is
    [str(int(time.time()))]. *)
Section Cookie.

Variable jwt_encode : gmap string value -> list byte -> gmap string value
                      -> result string.

Definition cookie_headers (context : list byte) : gmap string value :=
  {[ "ctx"%string := VStr (Codec.b64encode context);
     "kdf_ver"%string := VInt 2 ]}.

Definition cookie_payload (prt : string) (nonce : option string) (iat : string)
  : gmap string value :=
  match nonce with
  | Some (String c cs) =>
      {[ "refresh_token"%string := VStr prt;
         "is_primary"%string := VStr "true";
         "request_nonce"%string := VStr (String c cs) ]}
  | _ =>
      {[ "refresh_token"%string := VStr prt;
         "is_primary"%string := VStr "true";
         "iat"%string := VStr iat ]}
  end.

(** The bytes the code takes for the JWT body: lines 567-569. *)
Definition jwt_body_bytes (tempjwt : string) : result (list byte) :=
  let* jbody := index (split "." tempjwt) 1 in
  or_raise BinasciiError
    (Codec.b64decode (jbody +:+ str_repeat "=" (String.length jbody mod 4))).

Definition create_prt_cookie_kdf_ver_2 (urandom : nat -> list byte) (iat : string)
    (prt : string) (sessionkey : list byte) (nonce : option string)
  : result string :=
  let context := urandom 24%nat in
  let headers := cookie_headers context in
  let payload := cookie_payload prt nonce iat in
  let* tempjwt := jwt_encode payload (urandom 32%nat) headers in
  let* jwtbody := jwt_body_bytes tempjwt in
  let derived_key :=
    snd (Authentication.calculate_derived_key_v2
           urandom sessionkey context jwtbody) in
  jwt_encode payload derived_key headers.

End Cookie.

End AuthenticationTools.

(* ===================================================================== *)
(** ** deviceauth.py: key identifiers and JWKs *)
(* ===================================================================== *)

Module DeviceKeys.

(** Lines 183-194, for a key that is given. *)
Definition get_privkey_kid (key : DeviceAuthentication.RSAPublicKey)
  : result string :=
  let* pubkeycngblob := DeviceAuthentication.create_pubkey_blob_from_key key in
  let digest := SHA256.new in
  let digest := SHA256.update digest pubkeycngblob in
  let kid := Codec.b64encode (SHA256.finalize digest) in
  Ok kid.

(** The dictionary of lines 313-327; [fresh_uuid] is [str(uuid.uuid4())]. *)
Definition public_jwk (fresh_uuid : string)
    (key : DeviceAuthentication.RSAPublicKey) (for_registration : bool)
  : result (gmap string value) :=
  let e := DeviceAuthentication.pub_e key in
  let n := DeviceAuthentication.pub_n key in
  let* exponent_as_bytes := to_bytes_big e ((bit_length e + 7) / 8) in
  let* modulus_as_bytes := to_bytes_big n ((bit_length n + 7) / 8) in
  if for_registration
  then Ok {[ "kty"%string := VStr "RSA";
             "e"%string := VStr (Codec.b64encode exponent_as_bytes);
             "n"%string := VStr (Codec.b64encode modulus_as_bytes);
             "alg"%string := VStr "RS256";
             "kid"%string :=
               VStr (Codec.map_string Codec.upper_char fresh_uuid) ]}
  else Ok {[ "kty"%string := VStr "RSA";
             "e"%string := VStr (Codec.urlsafe_b64encode exponent_as_bytes);
             "n"%string := VStr (Codec.urlsafe_b64encode modulus_as_bytes) ]}.

(** Lines 300-328; [json_dumps] is [json.dumps(jwk, separators=(',', ':'))]. *)
Definition create_public_jwk_from_key
    (json_dumps : gmap string value -> string) (fresh_uuid : string)
    (key : DeviceAuthentication.RSAPublicKey) (for_registration : bool)
  : result string :=
  let* jwk := public_jwk fresh_uuid key for_registration in
  Ok (json_dumps jwk).

End DeviceKeys.

(* ===================================================================== *)
(** ** A sample signer

    The HS256 compact serialisation of RFC 7515,
    [BASE64URL(header).BASE64URL(payload).BASE64URL(signature)] without
    padding, on the JSON texts [json.dumps(..., separators=(',', ':'))]
    gives for the sample cookies: context of 24 zero bytes, nonce [n1],
    refresh token [0.AQ] or [0.~Q]. *)
(* ===================================================================== *)

Module RecordedJWT.

Definition compact_hs256 (header_json payload_json key : list byte) : string :=
  let signing_input :=
    Codec.urlsafe_b64encode_nopad header_json +:+ "."
      +:+ Codec.urlsafe_b64encode_nopad payload_json in
  signing_input +:+ "."
    +:+ Codec.urlsafe_b64encode_nopad
          (HMAC.hmac_sha256 key (of_string signing_input)).

Definition header_json : list byte :=
  fromhex ("7b22616c67223a224853323536222c22637478223a2241414141414141414141"
           +:+ "4141414141414141414141414141414141414141414141222c226b64665f7665"
           +:+ "72223a322c22747970223a224a5754227d").

Definition payload_plain : list byte :=
  fromhex ("7b22726566726573685f746f6b656e223a22302e4151222c2269735f7072696d"
           +:+ "617279223a2274727565222c22726571756573745f6e6f6e6365223a226e3122"
           +:+ "7d").

Definition payload_tilde : list byte :=
  fromhex ("7b22726566726573685f746f6b656e223a22302e7e51222c2269735f7072696d"
           +:+ "617279223a2274727565222c22726571756573745f6e6f6e6365223a226e3122"
           +:+ "7d").

Definition payload_json (prt : string) : option (list byte) :=
  if String.eqb prt "0.AQ" then Some payload_plain
  else if String.eqb prt "0.~Q" then Some payload_tilde
  else None.

Definition jwt_encode (payload : gmap string value) (key : list byte)
    (headers : gmap string value) : result string :=
  match payload !! "refresh_token"%string with
  | Some (VStr prt) =>
      let* body := or_raise TypeError (payload_json prt) in
      Ok (compact_hs256 header_json body key)
  | _ => Raise TypeError
  end.

End RecordedJWT.

(* ===================================================================== *)
(** ** A response whose header has an empty ctx

    A JWE with the header [{"enc":"A256GCM","ctx":""}], encrypted with
    AES-256-GCM under the key that [calculate_derived_key] derives from
    the session key of the examples and a context of 24 zero bytes. *)
(* ===================================================================== *)

Module RecordedEmptyContext.

Definition header : list byte :=
  fromhex "7b22656e63223a224132353647434d222c22637478223a22227d".

Definition jwe : string :=
  "eyJlbmMiOiJBMjU2R0NNIiwiY3R4IjoiIn0..yMnKy8zNzs_Q0dLT.4R3u8zvq0HX56VN3npIPet5bLoqQhqc.vrMby4pq4QEyi9U5Z2s2yg".

Definition json_loads : list byte -> option value :=
  Recorded.at_bytes
    [ (header,
       VDict {[ "enc"%string := VStr "A256GCM"; "ctx"%string := VStr "" ]}) ].

(** The key of a context of 24 zero bytes. *)
Definition key_of_zeros : list byte :=
  fromhex "4590464d708ea638476b16a95ff8972fe041838dd64760129f06d3269c2cadd3".

(** AES-256-GCM: the one ciphertext recorded. Under the key of a context
    of 24 bytes 0xff, and under the key of the empty context, the tag of
    this ciphertext is another one, so decryption fails there as for
    any other input. *)
Definition aesgcm_decrypt (key nonce data aad : list byte) : option (list byte) :=
  if bool_decide (key = key_of_zeros)
     && bool_decide (nonce = fromhex "c8c9cacbcccdcecfd0d1d2d3")
     && bool_decide (data = fromhex
          "e11deef33bead075f9e953779e920f7ade5b2e8a9086a7beb31bcb8a6ae101328bd539676b36ca")
     && bool_decide (aad = of_string "eyJlbmMiOiJBMjU2R0NNIiwiY3R4IjoiIn0")
  then Some Recorded.token_json else None.

Definition decrypt_auth_response :=
  Authentication.decrypt_auth_response
    Codec.b64decode Codec.urlsafe_b64decode json_loads Recorded.json_loads_str
    aesgcm_decrypt Recorded.aes_cbc.

End RecordedEmptyContext.

(* ===================================================================== *)
(** * Properties *)
(* ===================================================================== *)

(** ** Digits of fixed-width integers *)

Section Digits.

Lemma Z_of_byte_range (b : byte) : 0 <= Z_of_byte b < 256.
Proof.
  unfold Z_of_byte. pose proof (Byte.to_N_bounded b). lia.
Qed.

Lemma Z_of_byte_of_Z (z : Z) : Z_of_byte (byte_of_Z z) = z mod 256.
Proof.
  unfold Z_of_byte, byte_of_Z.
  pose proof (Z.mod_pos_bound z 256 ltac:(lia)) as Hr.
  destruct (Byte.of_N (Z.to_N (z mod 256))) as [b|] eqn:E.
  - apply Byte.to_of_N in E. rewrite E. lia.
  - apply Byte.of_N_None_iff in E. lia.
Qed.

Lemma byte_of_Z_of_byte (b : byte) : byte_of_Z (Z_of_byte b) = b.
Proof.
  unfold byte_of_Z. pose proof (Z_of_byte_range b).
  rewrite Z.mod_small by lia. unfold Z_of_byte. rewrite N2Z.id.
  now rewrite Byte.of_to_N.
Qed.

Lemma length_be_digits (len : nat) (x : Z) : length (be_digits len x) = len.
Proof.
  revert x. induction len as [|k IH]; intros x; simpl; [reflexivity|].
  rewrite length_app, IH. simpl. lia.
Qed.

Lemma length_le_digits (len : nat) (x : Z) : length (le_digits len x) = len.
Proof.
  revert x. induction len as [|k IH]; intros x; simpl; [reflexivity|].
  now rewrite IH.
Qed.

Lemma be_value_snoc (bs : list byte) (b : byte) :
  be_value (bs ++ [b]) = be_value bs * 256 + Z_of_byte b.
Proof. unfold be_value. now rewrite fold_left_app. Qed.

Lemma digits_step (x : Z) (k : nat) :
  (x / 256) mod 256 ^ Z.of_nat k * 256 + x mod 256 = x mod 256 ^ Z.of_nat (S k).
Proof.
  rewrite Nat2Z.inj_succ, Z.pow_succ_r by lia.
  assert (0 < 256 ^ Z.of_nat k) by (apply Z.pow_pos_nonneg; lia).
  rewrite Z.rem_mul_r by lia. lia.
Qed.

Lemma be_value_digits (len : nat) (x : Z) :
  be_value (be_digits len x) = x mod 256 ^ Z.of_nat len.
Proof.
  revert x. induction len as [|k IH]; intros x.
  - simpl. now rewrite Z.mod_1_r.
  - cbn [be_digits]. rewrite be_value_snoc, IH, Z_of_byte_of_Z.
    apply digits_step.
Qed.

Lemma le_value_digits (len : nat) (x : Z) :
  le_value (le_digits len x) = x mod 256 ^ Z.of_nat len.
Proof.
  revert x. induction len as [|k IH]; intros x.
  - simpl. now rewrite Z.mod_1_r.
  - cbn [le_digits le_value fold_right]. fold (le_value (le_digits k (x / 256))).
    rewrite IH, Z_of_byte_of_Z, <- digits_step. lia.
Qed.

End Digits.

(** ** The CNG public key blob *)

Section KeyBlob.
Import DeviceAuthentication.

Lemma be_value_bound (bs : list byte) :
  0 <= be_value bs < 256 ^ Z.of_nat (length bs).
Proof.
  induction bs as [|b bs IH] using rev_ind.
  - simpl. unfold be_value. simpl. lia.
  - rewrite be_value_snoc, length_app. simpl length.
    replace (Z.of_nat (length bs + 1)) with (Z.succ (Z.of_nat (length bs))) by lia.
    rewrite Z.pow_succ_r by lia.
    pose proof (Z_of_byte_range b). lia.
Qed.

Lemma pow256 (k : Z) : 0 <= k -> 256 ^ k = 2 ^ (8 * k).
Proof. intros Hk. rewrite Z.pow_mul_r by lia. reflexivity. Qed.

(** [(x.bit_length() + 7) // 8] is the exact base-256 length of [x]. *)
Lemma byte_length_spec (x : Z) :
  0 < x ->
  let L := (bit_length x + 7) / 8 in
  0 < L /\ 256 ^ (L - 1) <= x < 256 ^ L.
Proof.
  intros Hx L. subst L. unfold bit_length.
  destruct (Z.eqb_spec x 0) as [->|_]; [lia|].
  rewrite Z.abs_eq by lia.
  pose proof (Z.log2_nonneg x) as Hl.
  pose proof (Z.log2_spec x Hx) as [Hlo Hhi].
  set (l := Z.log2 x) in *.
  pose proof (Z.div_mod (l + 1 + 7) 8 ltac:(lia)) as Hdm.
  pose proof (Z.mod_pos_bound (l + 1 + 7) 8 ltac:(lia)) as Hm.
  set (L := (l + 1 + 7) / 8) in *.
  assert (0 < L) by lia.
  split; [assumption|].
  rewrite !pow256 by lia. split.
  - apply Z.le_trans with (2 ^ l); [|assumption].
    apply Z.pow_le_mono_r; lia.
  - apply Z.lt_le_trans with (2 ^ Z.succ l); [assumption|].
    apply Z.pow_le_mono_r; lia.
Qed.

Lemma to_bytes_big_minimal (x : Z) :
  0 < x ->
  exists bs, to_bytes_big x ((bit_length x + 7) / 8) = Ok bs
             /\ Z.of_nat (length bs) = (bit_length x + 7) / 8
             /\ min_big_endian x bs.
Proof.
  intros Hx. destruct (byte_length_spec x Hx) as [HL [Hlo Hhi]].
  set (L := (bit_length x + 7) / 8) in *.
  exists (be_digits (Z.to_nat L) x). unfold to_bytes_big.
  destruct (Z.ltb_spec L 0); [lia|].
  destruct (Z.ltb_spec x 0); [lia|].
  destruct (Z.leb_spec (256 ^ L) x); [lia|]. simpl.
  unfold min_big_endian. rewrite length_be_digits.
  split; [reflexivity|]. split; [lia|]. split.
  - rewrite be_value_digits, Z2Nat.id by lia. apply Z.mod_small. lia.
  - intros bs' Hbs'. pose proof (be_value_bound bs') as Hb. rewrite Hbs' in Hb.
    destruct (Nat.le_gt_cases (Z.to_nat L) (length bs')) as [|Hlt]; [assumption|].
    exfalso.
    assert (256 ^ Z.of_nat (length bs') <= 256 ^ (L - 1))
      by (apply Z.pow_le_mono_r; lia).
    lia.
Qed.

Lemma pack_u32_le_ok (x : Z) :
  0 <= x < 2 ^ 32 -> pack_u32_le x = Ok (le_digits 4 x).
Proof.
  intros Hx. unfold pack_u32_le.
  destruct (Z.ltb_spec x 0); [lia|].
  destruct (Z.leb_spec (2 ^ 32) x); [lia|]. reflexivity.
Qed.

Ltac four_bytes f H :=
  destruct f as [|? [|? [|? [|? [|? ?]]]]]; try discriminate H; clear H.

Lemma parse_rsa1_fields (f0 f1 f2 f3 f4 eb nb : list byte) :
  length f0 = 4%nat -> length f1 = 4%nat -> length f2 = 4%nat ->
  length f3 = 4%nat -> length f4 = 4%nat ->
  le_value f1 = Z.of_nat (length eb) ->
  le_value f2 = Z.of_nat (length nb) ->
  parse_rsa1_blob (of_string "RSA1" ++ f0 ++ f1 ++ f2 ++ f3 ++ f4 ++ eb ++ nb)
  = Some (be_value eb, be_value nb).
Proof.
  intros H0 H1 H2 H3 H4 He Hn.
  four_bytes f0 H0. four_bytes f1 H1. four_bytes f2 H2.
  four_bytes f3 H3. four_bytes f4 H4.
  unfold parse_rsa1_blob.
  cbn [of_string list_ascii_of_string map app firstn skipn Nat.add Nat.mul].
  rewrite He, Hn, !Nat2Z.id.
  rewrite bool_decide_eq_true_2 by reflexivity.
  cbn [length]. rewrite length_app.
  replace (S _ =? _)%nat with true by (symmetry; apply Nat.eqb_eq; lia).
  cbn [andb]. rewrite skipn_0, take_app_length, drop_app_length, firstn_all.
  reflexivity.
Qed.

Lemma parse_rsa1_layout (bits : Z) (eb nb : list byte) :
  Z.of_nat (length eb) < 2 ^ 32 -> Z.of_nat (length nb) < 2 ^ 32 ->
  parse_rsa1_blob (rsa1_layout bits eb nb) = Some (be_value eb, be_value nb).
Proof.
  intros He Hn. unfold rsa1_layout.
  assert (Hf : forall v, 0 <= v < 2 ^ 32 -> le_value (le_digits 4 v) = v).
  { intros v Hv. rewrite le_value_digits. apply Z.mod_small.
    change (256 ^ Z.of_nat 4) with (2 ^ 32). lia. }
  apply parse_rsa1_fields; try apply length_le_digits; apply Hf; lia.
Qed.

End KeyBlob.

(** C8. For an RSA public key (3 <= e < n, modulus bit length below 2^32)
    [create_pubkey_blob_from_key] returns "RSA1", the little-endian 32-bit
    key size in bits, exponent length, modulus length and two zero words,
    then the exponent and the modulus as shortest big-endian byte strings;
    reading the blob back yields the original public numbers (e, n). *)
Theorem create_pubkey_blob_roundtrip (key : DeviceAuthentication.RSAPublicKey) :
  3 <= DeviceAuthentication.pub_e key < DeviceAuthentication.pub_n key ->
  DeviceAuthentication.key_size key < 2 ^ 32 ->
  exists eb nb : list byte,
    DeviceAuthentication.create_pubkey_blob_from_key key
    = Ok (DeviceAuthentication.rsa1_layout (DeviceAuthentication.key_size key) eb nb)
    /\ DeviceAuthentication.min_big_endian (DeviceAuthentication.pub_e key) eb
    /\ DeviceAuthentication.min_big_endian (DeviceAuthentication.pub_n key) nb
    /\ DeviceAuthentication.parse_rsa1_blob
         (DeviceAuthentication.rsa1_layout (DeviceAuthentication.key_size key) eb nb)
       = Some (DeviceAuthentication.pub_e key, DeviceAuthentication.pub_n key).
Proof.
  destruct key as [e n]. unfold DeviceAuthentication.key_size. cbn [DeviceAuthentication.pub_e DeviceAuthentication.pub_n].
  intros He Hbits.
  destruct (to_bytes_big_minimal e ltac:(lia)) as (eb & Heb & Hel & Hem).
  destruct (to_bytes_big_minimal n ltac:(lia)) as (nb & Hnb & Hnl & Hnm).
  assert (Hmono : bit_length e <= bit_length n).
  { unfold bit_length.
    destruct (Z.eqb_spec e 0); [lia|]. destruct (Z.eqb_spec n 0); [lia|].
    rewrite !Z.abs_eq by lia. pose proof (Z.log2_le_mono e n ltac:(lia)). lia. }
  assert (0 <= bit_length e).
  { unfold bit_length. destruct (Z.eqb_spec e 0); [lia|].
    pose proof (Z.log2_nonneg (Z.abs e)). lia. }
  assert (Hle : Z.of_nat (length eb) < 2 ^ 32).
  { rewrite Hel. apply Z.div_lt_upper_bound; lia. }
  assert (Hln : Z.of_nat (length nb) < 2 ^ 32).
  { rewrite Hnl. apply Z.div_lt_upper_bound; lia. }
  exists eb, nb. repeat split; try apply Hem; try apply Hnm.
  - unfold DeviceAuthentication.create_pubkey_blob_from_key, DeviceAuthentication.key_size.
    cbn [DeviceAuthentication.pub_e DeviceAuthentication.pub_n].
    rewrite Heb, Hnb. cbn [bind].
    rewrite !pack_u32_le_ok by lia. cbn [bind].
    unfold DeviceAuthentication.rsa1_layout. cbn [concat].
    rewrite app_nil_r, <- !app_assoc. reflexivity.
  - rewrite parse_rsa1_layout by assumption.
    destruct Hem as [-> _], Hnm as [-> _]. reflexivity.
Qed.

(** A 32-bit key in miniature: e = 65537, n = 3390046209. *)
Lemma create_pubkey_blob_roundtrip_witness :
  exists eb nb : list byte,
    DeviceAuthentication.create_pubkey_blob_from_key
      {| DeviceAuthentication.pub_e := 65537; DeviceAuthentication.pub_n := 3390046209 |}
    = Ok (DeviceAuthentication.rsa1_layout 32 eb nb)
    /\ DeviceAuthentication.min_big_endian 65537 eb
    /\ DeviceAuthentication.min_big_endian 3390046209 nb
    /\ DeviceAuthentication.parse_rsa1_blob (DeviceAuthentication.rsa1_layout 32 eb nb)
       = Some (65537, 3390046209).
Proof.
  apply (create_pubkey_blob_roundtrip
           {| DeviceAuthentication.pub_e := 65537;
              DeviceAuthentication.pub_n := 3390046209 |}).
  - simpl. lia.
  - vm_compute. reflexivity.
Defined.

Example create_pubkey_blob_small_key :
  DeviceAuthentication.create_pubkey_blob_from_key
    {| DeviceAuthentication.pub_e := 65537; DeviceAuthentication.pub_n := 3390046209 |}
  = Ok [x52; x53; x41; x31;  x20; x00; x00; x00;  x03; x00; x00; x00;
        x04; x00; x00; x00;  x00; x00; x00; x00;  x00; x00; x00; x00;
        x01; x00; x01;  xca; x10; x00; x01].
Proof. vm_compute. reflexivity. Qed.

(** ** Key derivation *)

Section KeyDerivation.
Import Authentication.

Lemma length_sha256 (msg : list byte) : length (SHA256.sha256 msg) = 32%nat.
Proof.
  unfold SHA256.sha256, SHA256.regs_bytes.
  rewrite !length_app, !length_be_digits. reflexivity.
Qed.

Lemma sha256_nonempty (msg : list byte) :
  exists b bs, SHA256.sha256 msg = b :: bs.
Proof.
  pose proof (length_sha256 msg) as H.
  destruct (SHA256.sha256 msg) as [|b bs]; [discriminate H|eauto].
Qed.

Lemma length_hmac_sha256 (key msg : list byte) :
  length (HMAC.hmac_sha256 key msg) = 32%nat.
Proof. unfold HMAC.hmac_sha256. apply length_sha256. Qed.

Lemma length_derive_32 (rlen llen : nat) (label context key : list byte) :
  length (KBKDF.derive 32 rlen llen label context key) = 32%nat.
Proof.
  unfold KBKDF.derive.
  change ((32 + 31) / 32)%nat with 1%nat. cbn [KBKDF.rounds_from].
  rewrite app_nil_r, firstn_all2; rewrite length_hmac_sha256; reflexivity.
Qed.

Lemma length_derived_key (urandom : nat -> list byte) (sessionkey : list byte)
    (context : option (list byte)) :
  length (snd (calculate_derived_key urandom sessionkey context)) = 32%nat.
Proof. unfold calculate_derived_key. cbn [snd]. apply length_derive_32. Qed.

Lemma derived_key_supplied_context (urandom : nat -> list byte)
    (sessionkey context : list byte) :
  context <> [] ->
  calculate_derived_key urandom sessionkey (Some context)
  = (context,
     KBKDF.derive 32 4 4 (of_string "AzureAD-SecureConversation")
       context sessionkey).
Proof.
  intros Hne. unfold calculate_derived_key.
  destruct context as [|b bs]; [contradiction|reflexivity].
Qed.

End KeyDerivation.

(** Known-answer checks of the primitives. *)
Example sha256_abc :
  be_value (SHA256.sha256 (of_string "abc")) =
  0xba7816bf8f01cfea414140de5dae2223b00361a396177a9cb410ff61f20015ad.
Proof. vm_compute. reflexivity. Qed.

Example hmac_sha256_rfc4231_case2 :
  be_value (HMAC.hmac_sha256 (of_string "Jefe")
              (of_string "what do ya want for nothing?")) =
  0x5bdcc146bf60754e6a042426089575c75a003f089d2739839dec58b964ec3843.
Proof. vm_compute. reflexivity. Qed.

Example calculate_derived_key_known_answer :
  let sessionkey := map byte_of_Z (map Z.of_nat (seq 0 32)) in
  let context := map byte_of_Z (map Z.of_nat (seq 100 24)) in
  be_value (snd (Authentication.calculate_derived_key
                   (fun n => repeat x00 n) sessionkey (Some context))) =
  0xfd86b1821bd2effa68009dee12e23d90b6889712dc9ec3a625075817ca47f47a.
Proof. vm_compute. reflexivity. Qed.

(** C1. For every session key, context and JWT body,
    [calculate_derived_key_v2] returns what [calculate_derived_key]
    returns on the SHA-256 digest of context followed by body, whatever
    the entropy source of either call holds; the key has 32 bytes and the
    context returned is that digest. *)
Theorem calculate_derived_key_v2_is_v1_on_digest
    (urandom urandom' : nat -> list byte) (sessionkey context jwtbody : list byte) :
  Authentication.calculate_derived_key_v2 urandom sessionkey context jwtbody
  = Authentication.calculate_derived_key urandom' sessionkey
      (Some (SHA256.sha256 (context ++ jwtbody)))
  /\ fst (Authentication.calculate_derived_key_v2 urandom sessionkey context jwtbody)
     = SHA256.sha256 (context ++ jwtbody)
  /\ length (snd (Authentication.calculate_derived_key_v2
                    urandom sessionkey context jwtbody)) = 32%nat.
Proof.
  unfold Authentication.calculate_derived_key_v2.
  unfold SHA256.finalize, SHA256.update, SHA256.new. cbn [SHA256.fed app].
  assert (Hne : SHA256.sha256 (context ++ jwtbody) <> []).
  { destruct (sha256_nonempty (context ++ jwtbody)) as (b & bs & ->). discriminate. }
  rewrite !derived_key_supplied_context by assumption.
  cbn [fst snd].
  split; [reflexivity|split; [reflexivity|apply length_derive_32]].
Qed.

(** C9, as stated, fails: with an empty context the function draws 24
    bytes from [os.urandom], so two runs on the same session key and
    context return different contexts and different keys. *)
Lemma calculate_derived_key_empty_context_varies :
  let run1 := Authentication.calculate_derived_key
                (fun n => repeat x00 n) (of_string "k") (Some []) in
  let run2 := Authentication.calculate_derived_key
                (fun n => repeat xff n) (of_string "k") (Some []) in
  fst run1 <> fst run2 /\ snd run1 <> snd run2.
Proof. vm_compute. split; discriminate. Qed.

(** C9, amended. For every session key and every non-empty context,
    [calculate_derived_key] is deterministic: two runs return the same
    pair, the context returned is the one given, and the key has 32
    bytes. The key has 32 bytes for an empty or missing context too. *)
Theorem calculate_derived_key_deterministic
    (urandom urandom' : nat -> list byte) (sessionkey context : list byte) :
  context <> [] ->
  Authentication.calculate_derived_key urandom sessionkey (Some context)
  = Authentication.calculate_derived_key urandom' sessionkey (Some context)
  /\ fst (Authentication.calculate_derived_key urandom sessionkey (Some context))
     = context
  /\ forall c : option (list byte),
       length (snd (Authentication.calculate_derived_key urandom sessionkey c))
       = 32%nat.
Proof.
  intros Hne. rewrite !derived_key_supplied_context by assumption.
  cbn [fst].
  split; [reflexivity|split; [reflexivity|]].
  intros c. apply length_derived_key.
Qed.

Lemma calculate_derived_key_deterministic_witness :
  Authentication.calculate_derived_key
    (fun n => repeat x00 n) (of_string "k") (Some [x01; x02])
  = Authentication.calculate_derived_key
      (fun n => repeat xff n) (of_string "k") (Some [x01; x02])
  /\ fst (Authentication.calculate_derived_key
            (fun n => repeat x00 n) (of_string "k") (Some [x01; x02]))
     = [x01; x02]
  /\ forall c : option (list byte),
       length (snd (Authentication.calculate_derived_key
                      (fun n => repeat x00 n) (of_string "k") c)) = 32%nat.
Proof.
  apply (calculate_derived_key_deterministic
           (fun n => repeat x00 n) (fun n => repeat xff n)
           (of_string "k") [x01; x02]).
  discriminate.
Defined.

(** ** The result monad *)

Lemma bind_Ok {A B} (r : result A) (k : A -> result B) (b : B) :
  bind r k = Ok b -> exists a, r = Ok a /\ k a = Ok b.
Proof. destruct r as [a|e]; simpl; [eauto|discriminate]. Qed.

Lemma getitem_Ok (d : gmap string value) (key : string) (v : value) :
  getitem d key = Ok v <-> d !! key = Some v.
Proof. unfold getitem. destruct (d !! key); simpl; split; congruence. Qed.

Lemma getitem_missing (d : gmap string value) (key : string) :
  d !! key = None -> getitem d key = Raise (KeyError key).
Proof. unfold getitem. intros ->. reflexivity. Qed.

(** Breaks a hypothesis [let* x := e in k = Ok v] into its steps. *)
Ltac invert_bind H :=
  let a := fresh "a" in
  let Ha := fresh "Hstep" in
  apply bind_Ok in H; destruct H as (a & Ha & H).

(** ** decrypt_auth_response *)

Section DecryptAuthResponse.
Import Authentication.

Variable b64decode urlsafe_b64decode : string -> option (list byte).
Variable json_loads : list byte -> option value.
Variable json_loads_str : string -> option value.
Variable aesgcm_decrypt : list byte -> list byte -> list byte -> list byte
                          -> option (list byte).
Variable aes_cbc : list byte -> list byte -> option (list byte -> option (list byte)).

Local Abbreviation decrypt :=
  (decrypt_auth_response b64decode urlsafe_b64decode json_loads json_loads_str
     aesgcm_decrypt aes_cbc).

Lemma starts_brace_quote (rest : string) :
  String.eqb (substring 0 2 (brace_quote +:+ rest)) brace_quote = true.
Proof. destruct rest; reflexivity. Qed.

Lemma decrypt_plain (urandom : nat -> list byte) (rest : string)
    (sessionkey : list byte) (asjson : bool) :
  decrypt urandom (brace_quote +:+ rest) sessionkey asjson
  = if asjson
    then let* jdata := or_raise JSONDecodeError
                         (json_loads_str (brace_quote +:+ rest)) in
         Ok (AsJson jdata)
    else Ok (AsStr (brace_quote +:+ rest)).
Proof.
  unfold decrypt, decrypt_auth_response. now rewrite starts_brace_quote.
Qed.

(** The five segments of a JWE and the pieces the code reads off them. *)
Lemma decrypt_jwe (urandom : nat -> list byte) (responsedata : string)
    (sessionkey : list byte) (asjson : bool)
    (part0 enckey iv data authtag : string) (more : list string)
    (headers : value) (context ivbytes : list byte) :
  String.eqb (substring 0 2 responsedata) brace_quote = false ->
  split "." responsedata = part0 :: enckey :: iv :: data :: authtag :: more ->
  (let* raw := get_data urlsafe_b64decode part0 in
   or_raise JSONDecodeError (json_loads raw)) = Ok headers ->
  (let* ctx := subscript headers "ctx" in b64decode_value b64decode ctx)
  = Ok context ->
  get_data urlsafe_b64decode iv = Ok ivbytes ->
  decrypt urandom responsedata sessionkey asjson
  = let derived_key :=
      snd (calculate_derived_key urandom sessionkey (Some context)) in
    let* depadded_data :=
      if (length ivbytes =? 12)%nat
      then
        let* ct := get_data urlsafe_b64decode data in
        let* tag := get_data urlsafe_b64decode authtag in
        or_raise InvalidTag
          (aesgcm_decrypt derived_key ivbytes (ct ++ tag) (encode_utf8 part0))
      else
        let* decryptor := or_raise ValueError (aes_cbc derived_key ivbytes) in
        let* ct := get_data urlsafe_b64decode data in
        let* decrypted_data := or_raise ValueError (decryptor ct) in
        pkcs7_unpad decrypted_data
    in as_requested json_loads asjson depadded_data.
Proof.
  intros Hplain Hsplit Hheader Hctx Hiv.
  unfold decrypt, decrypt_auth_response. rewrite Hplain, Hsplit.
  cbn [index nth_error or_raise bind].
  invert_bind Hheader. rewrite Hstep. cbn [bind]. rewrite Hheader. cbn [bind].
  invert_bind Hctx. rewrite Hstep0. cbn [bind]. rewrite Hctx. cbn [bind].
  rewrite Hiv. cbn [bind]. reflexivity.
Qed.

End DecryptAuthResponse.

(** C10. A response that starts with an opening brace and a double quote
    is returned as it is: parsed by [json.loads] when [asjson] is set, the
    string itself otherwise. Neither the session key nor the entropy
    source, the base64 decoders or the ciphers have any part in it. *)
Theorem decrypt_auth_response_unencrypted :
  forall (b64decode urlsafe_b64decode : string -> option (list byte))
         (json_loads : list byte -> option value)
         (json_loads_str : string -> option value)
         (aesgcm_decrypt : list byte -> list byte -> list byte -> list byte
                           -> option (list byte))
         (aes_cbc : list byte -> list byte
                    -> option (list byte -> option (list byte)))
         (urandom : nat -> list byte) (rest : string)
         (sessionkey : list byte) (asjson : bool),
    let responsedata := (Authentication.brace_quote +:+ rest)%string in
    Authentication.decrypt_auth_response
      b64decode urlsafe_b64decode json_loads json_loads_str
      aesgcm_decrypt aes_cbc urandom responsedata sessionkey asjson
    = (if asjson
       then let* jdata := or_raise JSONDecodeError (json_loads_str responsedata) in
            Ok (Authentication.AsJson jdata)
       else Ok (Authentication.AsStr responsedata))
    /\ forall b64decode' urlsafe_b64decode' json_loads' aesgcm_decrypt' aes_cbc'
              urandom' sessionkey',
         Authentication.decrypt_auth_response
           b64decode' urlsafe_b64decode' json_loads' json_loads_str
           aesgcm_decrypt' aes_cbc' urandom' responsedata sessionkey' asjson
         = Authentication.decrypt_auth_response
             b64decode urlsafe_b64decode json_loads json_loads_str
             aesgcm_decrypt aes_cbc urandom responsedata sessionkey asjson.
Proof.
  intros. subst responsedata. split.
  - apply decrypt_plain.
  - intros. now rewrite !decrypt_plain.
Qed.

Example decrypt_auth_response_plain_reply :
  Recorded.decrypt_auth_response (fun n => repeat x00 n)
    (string_of_bytes Recorded.token_json) [] true
  = Ok (Authentication.AsJson Recorded.token_value).
Proof. vm_compute. reflexivity. Qed.

Example decrypt_auth_response_cbc :
  Recorded.decrypt_auth_response (fun n => repeat x00 n)
    Recorded.jwe_cbc Recorded.sessionkey true
  = Ok (Authentication.AsJson Recorded.token_value).
Proof. vm_compute. reflexivity. Qed.

Example decrypt_auth_response_cbc_tag_not_read :
  Recorded.decrypt_auth_response (fun n => repeat x00 n)
    Recorded.jwe_cbc_other_tag Recorded.sessionkey true
  = Ok (Authentication.AsJson Recorded.token_value)
  /\ Authentication.get_data Recorded.urlsafe_b64decode "not base64!"
     = Raise BinasciiError.
Proof. vm_compute. split; reflexivity. Qed.

(** ** tokenreply_to_tokendata *)

(** The keys [translate] writes are the four new names. *)
Lemma translate_lookup (tokenreply tokenobject : gmap string value)
    (newname oldname : string) (v : value) :
  In (newname, oldname) Authentication.translate_map ->
  tokenreply !! newname = Some v ->
  Authentication.translate tokenreply tokenobject !! oldname = Some v.
Proof.
  intros Hin Hv. unfold Authentication.translate, Authentication.translate_map in Hin |- *.
  cbn [fold_left fst snd].
  cbn [In] in Hin.
  destruct Hin as [H|[H|[H|[H|[]]]]]; injection H as <- <-; rewrite ?Hv;
    repeat case_match; simplify_map_eq; reflexivity.
Qed.

Lemma translate_lookup_other (tokenreply tokenobject : gmap string value)
    (key : string) :
  ~ In key (map snd Authentication.translate_map) ->
  Authentication.translate tokenreply tokenobject !! key = tokenobject !! key.
Proof.
  intros Hnot. unfold Authentication.translate, Authentication.translate_map in Hnot |- *.
  cbn [fold_left fst snd map In] in Hnot |- *.
  repeat case_match; rewrite ?lookup_insert_ne by naive_solver; reflexivity.
Qed.

(** A new name holds the reply's value, or what the record had before. *)
Lemma translate_lookup_new (tokenreply tokenobject : gmap string value)
    (newname oldname : string) :
  In (newname, oldname) Authentication.translate_map ->
  Authentication.translate tokenreply tokenobject !! oldname
  = match tokenreply !! newname with
    | Some v => Some v
    | None => tokenobject !! oldname
    end.
Proof.
  intros Hin. destruct (tokenreply !! newname) as [v|] eqn:Hv.
  - now apply translate_lookup with (newname := newname).
  - unfold Authentication.translate, Authentication.translate_map in Hin |- *.
    cbn [fold_left fst snd]. cbn [In] in Hin.
    destruct Hin as [H|[H|[H|[H|[]]]]]; injection H as <- <-; rewrite ?Hv;
      repeat case_match;
      repeat (rewrite lookup_insert_ne by (intro; discriminate));
      reflexivity.
Qed.

Section TokenCodec.
Import Authentication.

Variable b64decode : string -> option (list byte).
Variable json_loads : list byte -> option value.
Variable int_of_str int_of_float : string -> option Z.
Variable datetime : Type.
Variable fromtimestamp : Z -> option datetime.
Variable add_seconds : datetime -> Z -> option datetime.
Variable strftime : datetime -> string -> string.

Local Abbreviation to_tokendata :=
  (tokenreply_to_tokendata b64decode json_loads int_of_str int_of_float
     datetime fromtimestamp add_seconds strftime).
Local Abbreviation expiry :=
  (expires_on_string int_of_str int_of_float
     datetime fromtimestamp add_seconds strftime).
Local Abbreviation claims_of := (access_token_claims b64decode json_loads).
Local Abbreviation to_int := (py_int int_of_str int_of_float).

Lemma py_int_not_KeyError (v : value) (key : string) :
  to_int v <> Raise (KeyError key).
Proof.
  destruct v as [| | | nz lit | s | |]; simpl; try discriminate.
  - destruct (int_of_float lit), (String.eqb lit "NaN"); discriminate.
  - destruct (int_of_str s); discriminate.
Qed.

(** Where [expiresOn] comes from. *)
Lemma expires_on_string_Ok (now : datetime) (tokenreply : gmap string value)
    (text : string) :
  expiry now tokenreply = Ok text ->
  match tokenreply !! "expires_on"%string with
  | Some v =>
      exists n dt, to_int v = Ok n /\ fromtimestamp n = Some dt
                   /\ text = strftime dt time_format
  | None =>
      exists v n dt, tokenreply !! "expires_in"%string = Some v
                     /\ to_int v = Ok n /\ add_seconds now n = Some dt
                     /\ text = strftime dt time_format
  end.
Proof.
  unfold expires_on_string, getitem.
  destruct (tokenreply !! "expires_on"%string) as [v|]; cbn [or_raise bind].
  - pose proof (py_int_not_KeyError v) as Hnk.
    destruct (to_int v) as [n|e]; cbn [bind].
    + destruct (fromtimestamp n) as [dt|] eqn:Hdt; cbn; [|discriminate].
      intros [= <-]. eauto 10.
    + destruct e; cbn; try discriminate. exfalso. eapply Hnk. reflexivity.
  - cbn [except_KeyError].
    destruct (tokenreply !! "expires_in"%string) as [v|]; cbn; [|discriminate].
    destruct (to_int v) as [n|e] eqn:Hn; cbn; [|discriminate].
    destruct (add_seconds now n) as [dt|] eqn:Hdt; cbn; [|discriminate].
    intros [= <-]. eauto 10.
Qed.

Lemma add_tenant_id_dict (claims tokenobject : gmap string value) :
  add_tenant_id (VDict claims) tokenobject
  = Ok match claims !! "tid"%string with
       | Some tid => <["tenantId"%string := tid]> tokenobject
       | None => tokenobject
       end.
Proof.
  unfold add_tenant_id, subscript, getitem.
  destruct (claims !! "tid"%string); reflexivity.
Qed.

Lemma add_tenant_id_Ok (inputdata : value) (tokenobject obj : gmap string value) :
  add_tenant_id inputdata tokenobject = Ok obj ->
  exists claims, inputdata = VDict claims.
Proof. destruct inputdata; try discriminate. eauto. Qed.

Lemma add_client_id_dict (client_id : option string)
    (claims tokenobject : gmap string value) :
  add_client_id client_id (VDict claims) tokenobject
  = Ok match client_id with
       | Some (String c cs) =>
           <["_clientId"%string := VStr (String c cs)]> tokenobject
       | _ =>
           match claims !! "appid"%string with
           | Some appid => <["_clientId"%string := appid]> tokenobject
           | None => tokenobject
           end
       end.
Proof.
  unfold add_client_id, subscript, getitem.
  destruct client_id as [[|c cs]|]; try reflexivity;
    destruct (claims !! "appid"%string); reflexivity.
Qed.

(** An accepted reply, taken apart. *)
Lemma tokenreply_to_tokendata_Ok (now : datetime)
    (tokenreply : gmap string value) (client_id : option string)
    (tokendata : gmap string value) :
  to_tokendata now tokenreply client_id = Ok tokendata <->
  exists token_type text claims,
    tokenreply !! "token_type"%string = Some token_type
    /\ expiry now tokenreply = Ok text
    /\ claims_of tokenreply = Ok (VDict claims)
    /\ tokendata
       = translate tokenreply
           (let base : gmap string value :=
              <["expiresOn"%string := VStr text]>
                {[ "tokenType"%string := token_type ]} in
            let with_tenant :=
              match claims !! "tid"%string with
              | Some tid => <["tenantId"%string := tid]> base
              | None => base
              end in
            match client_id with
            | Some (String c cs) =>
                <["_clientId"%string := VStr (String c cs)]> with_tenant
            | _ =>
                match claims !! "appid"%string with
                | Some appid => <["_clientId"%string := appid]> with_tenant
                | None => with_tenant
                end
            end).
Proof.
  unfold tokenreply_to_tokendata. split.
  - intros H. invert_bind H. apply getitem_Ok in Hstep.
    invert_bind H. invert_bind H. invert_bind H.
    destruct (add_tenant_id_Ok _ _ _ Hstep2) as [claims ->].
    rewrite add_tenant_id_dict in Hstep2. injection Hstep2 as <-.
    invert_bind H. rewrite add_client_id_dict in Hstep2. injection Hstep2 as <-.
    injection H as <-. exists a, a0, claims. auto.
  - intros (token_type & text & claims & Htt & Htext & Hclaims & ->).
    apply getitem_Ok in Htt. rewrite Htt. cbn [bind].
    rewrite Htext. cbn [bind]. rewrite Hclaims. cbn [bind].
    rewrite add_tenant_id_dict. cbn [bind].
    rewrite add_client_id_dict. cbn [bind]. reflexivity.
Qed.

End TokenCodec.

(** Reads one key off a map built by successive insertions. *)
Ltac insert_lookup :=
  cbv zeta; repeat case_match;
  repeat first
    [ rewrite lookup_insert_eq
    | rewrite lookup_insert_ne by (intro; discriminate)
    | rewrite lookup_singleton_eq
    | rewrite lookup_singleton_ne by (intro; discriminate)
    | rewrite lookup_empty ];
  try reflexivity; try congruence.

(** Reads a key that [translate] leaves alone off an accepted record. *)
Ltac record_lookup :=
  cbv zeta;
  rewrite translate_lookup_other
    by (unfold Authentication.translate_map; cbn; intuition discriminate);
  insert_lookup.

(** C4. In the record of an accepted reply, [expiresOn] is the local time
    of the reply's [expires_on] epoch, formatted as year-month-day
    hour:minute:second, when the reply has that field, and otherwise the
    current local time plus [expires_in] seconds in the same format; and
    [accessToken], [refreshToken], [idToken] and [tokenType] hold what the
    reply has under [access_token], [refresh_token], [id_token] and
    [token_type]. *)
Theorem tokenreply_to_tokendata_fields :
  forall (b64decode : string -> option (list byte))
         (json_loads : list byte -> option value)
         (int_of_str int_of_float : string -> option Z)
         (datetime : Type) (fromtimestamp : Z -> option datetime)
         (add_seconds : datetime -> Z -> option datetime)
         (strftime : datetime -> string -> string)
         (now : datetime) (tokenreply : gmap string value)
         (client_id : option string) (tokendata : gmap string value),
    Authentication.tokenreply_to_tokendata
      b64decode json_loads int_of_str int_of_float
      datetime fromtimestamp add_seconds strftime
      now tokenreply client_id = Ok tokendata ->
    match tokenreply !! "expires_on"%string with
    | Some v =>
        exists n dt,
          Authentication.py_int int_of_str int_of_float v = Ok n
          /\ fromtimestamp n = Some dt
          /\ tokendata !! "expiresOn"%string
             = Some (VStr (strftime dt "%Y-%m-%d %H:%M:%S"))
    | None =>
        exists v n dt,
          tokenreply !! "expires_in"%string = Some v
          /\ Authentication.py_int int_of_str int_of_float v = Ok n
          /\ add_seconds now n = Some dt
          /\ tokendata !! "expiresOn"%string
             = Some (VStr (strftime dt "%Y-%m-%d %H:%M:%S"))
    end
    /\ tokendata !! "accessToken"%string = tokenreply !! "access_token"%string
    /\ tokendata !! "refreshToken"%string = tokenreply !! "refresh_token"%string
    /\ tokendata !! "idToken"%string = tokenreply !! "id_token"%string
    /\ tokendata !! "tokenType"%string = tokenreply !! "token_type"%string
    /\ is_Some (tokenreply !! "access_token"%string)
    /\ is_Some (tokenreply !! "token_type"%string).
Proof.
  intros until tokendata. intros Hok.
  apply tokenreply_to_tokendata_Ok in Hok.
  destruct Hok as (token_type & text & claims & Htt & Htext & Hclaims & ->).
  assert (Hat : is_Some (tokenreply !! "access_token"%string)).
  { unfold Authentication.access_token_claims in Hclaims.
    invert_bind Hclaims. apply getitem_Ok in Hstep. eauto. }
  apply expires_on_string_Ok in Htext.
  match goal with
  | |- context [Authentication.translate tokenreply ?obj] =>
      assert (Hexp : Authentication.translate tokenreply obj !! "expiresOn"%string
                     = Some (VStr text)) by record_lookup
  end.
  split; [|split; [|split; [|split; [|split; [|split; [assumption|eauto]]]]]].
  - destruct (tokenreply !! "expires_on"%string) as [v|].
    + destruct Htext as (n & dt & Hn & Hdt & ->).
      exists n, dt. rewrite Hexp. auto.
    + destruct Htext as (v & n & dt & Hv & Hn & Hdt & ->).
      exists v, n, dt. rewrite Hexp. auto.
  - destruct Hat as [at_ Hat]. rewrite Hat.
    apply translate_lookup with (newname := "access_token"%string);
      [cbn; tauto|assumption].
  - rewrite (translate_lookup_new _ _ "refresh_token" "refreshToken")
      by (cbn; tauto).
    destruct (tokenreply !! "refresh_token"%string); [reflexivity|insert_lookup].
  - rewrite (translate_lookup_new _ _ "id_token" "idToken") by (cbn; tauto).
    destruct (tokenreply !! "id_token"%string); [reflexivity|insert_lookup].
  - rewrite Htt.
    apply translate_lookup with (newname := "token_type"%string);
      [cbn; tauto|assumption].
Qed.

Lemma tokenreply_to_tokendata_fields_witness :
  (exists n dt,
      Authentication.py_int Recorded.int_of_str Recorded.int_of_float
        (VStr "1700000000") = Ok n
      /\ Recorded.fromtimestamp n = Some dt
      /\ Recorded.tokendata !! "expiresOn"%string
         = Some (VStr (Recorded.strftime dt "%Y-%m-%d %H:%M:%S")))
  /\ Recorded.tokendata !! "accessToken"%string
     = Recorded.tokenreply !! "access_token"%string
  /\ Recorded.tokendata !! "refreshToken"%string
     = Recorded.tokenreply !! "refresh_token"%string
  /\ Recorded.tokendata !! "idToken"%string
     = Recorded.tokenreply !! "id_token"%string
  /\ Recorded.tokendata !! "tokenType"%string
     = Recorded.tokenreply !! "token_type"%string
  /\ is_Some (Recorded.tokenreply !! "access_token"%string)
  /\ is_Some (Recorded.tokenreply !! "token_type"%string).
Proof.
  apply (tokenreply_to_tokendata_fields
           Recorded.b64decode Recorded.json_loads
           Recorded.int_of_str Recorded.int_of_float
           Z Recorded.fromtimestamp Recorded.add_seconds Recorded.strftime
           Recorded.now Recorded.tokenreply None Recorded.tokendata).
  vm_compute. reflexivity.
Defined.

Example tokenreply_to_tokendata_expires_in :
  Recorded.tokenreply_to_tokendata Recorded.now Recorded.tokenreply_bare None
  = Ok {[ "tokenType"%string := VStr "Bearer";
          "expiresOn"%string := VStr "2023-11-14 23:13:20";
          "accessToken"%string := VStr Recorded.access_token_no_claims ]}.
Proof. vm_compute. reflexivity. Qed.

(** C6, as stated, fails: applied to the record it produced, the
    translation raises instead of succeeding. *)
Lemma tokenreply_to_tokendata_twice_raises :
  Recorded.tokenreply_to_tokendata Recorded.now Recorded.tokenreply None
  = Ok Recorded.tokendata
  /\ Recorded.tokenreply_to_tokendata Recorded.now Recorded.tokendata None
     = Raise (KeyError "token_type").
Proof. split; vm_compute; reflexivity. Qed.

(** C6, amended. The translation is not idempotent: a normalized record
    has no [token_type] key, so applying [tokenreply_to_tokendata] to the
    record of any accepted reply raises KeyError for that key. *)
Theorem tokenreply_to_tokendata_not_idempotent :
  forall (b64decode : string -> option (list byte))
         (json_loads : list byte -> option value)
         (int_of_str int_of_float : string -> option Z)
         (datetime : Type) (fromtimestamp : Z -> option datetime)
         (add_seconds : datetime -> Z -> option datetime)
         (strftime : datetime -> string -> string)
         (now : datetime) (tokenreply : gmap string value)
         (client_id : option string) (tokendata : gmap string value),
    Authentication.tokenreply_to_tokendata
      b64decode json_loads int_of_str int_of_float
      datetime fromtimestamp add_seconds strftime
      now tokenreply client_id = Ok tokendata ->
    tokendata !! "token_type"%string = None
    /\ forall (now' : datetime) (client_id' : option string),
         Authentication.tokenreply_to_tokendata
           b64decode json_loads int_of_str int_of_float
           datetime fromtimestamp add_seconds strftime
           now' tokendata client_id' = Raise (KeyError "token_type").
Proof.
  intros until tokendata. intros Hok.
  apply tokenreply_to_tokendata_Ok in Hok.
  destruct Hok as (token_type & text & claims & _ & _ & _ & ->).
  match goal with
  | |- ?record !! _ = None /\ _ =>
      assert (Hnone : record !! "token_type"%string = None) by record_lookup;
      revert Hnone; generalize record
  end.
  intros record Hnone. split; [exact Hnone|].
  intros now' client_id'. unfold Authentication.tokenreply_to_tokendata.
  rewrite (getitem_missing _ _ Hnone). reflexivity.
Qed.

Lemma tokenreply_to_tokendata_not_idempotent_witness :
  Recorded.tokendata !! "token_type"%string = None
  /\ forall (now' : Z) (client_id' : option string),
       Authentication.tokenreply_to_tokendata
         Recorded.b64decode Recorded.json_loads
         Recorded.int_of_str Recorded.int_of_float
         Z Recorded.fromtimestamp Recorded.add_seconds Recorded.strftime
         now' Recorded.tokendata client_id' = Raise (KeyError "token_type").
Proof.
  apply (tokenreply_to_tokendata_not_idempotent
           Recorded.b64decode Recorded.json_loads
           Recorded.int_of_str Recorded.int_of_float
           Z Recorded.fromtimestamp Recorded.add_seconds Recorded.strftime
           Recorded.now Recorded.tokenreply None Recorded.tokendata).
  vm_compute. reflexivity.
Defined.

(** C7, as stated, fails: a reply with a refresh token and an id token
    but no access token is rejected with KeyError. *)
Lemma tokenreply_to_tokendata_needs_access_token :
  Recorded.tokenreply_no_access_token !! "access_token"%string = None
  /\ Recorded.tokenreply_to_tokendata
       Recorded.now Recorded.tokenreply_no_access_token None
     = Raise (KeyError "access_token").
Proof. split; vm_compute; reflexivity. Qed.

(** C7, amended. [tokenreply_to_tokendata] needs an access token: a reply
    without one is never turned into a record, and raises KeyError for
    [access_token] once [token_type] and the expiry were read. A reply
    with a [token_type], a readable expiry and an access token whose
    payload decodes to a JSON object yields a record whether or not it has
    a refresh token or an id token; there [tenantId] is the payload's tid
    and absent without one, and [_clientId] is the client id passed in,
    else the payload's appid, and absent without either. *)
Theorem tokenreply_to_tokendata_access_token :
  forall (b64decode : string -> option (list byte))
         (json_loads : list byte -> option value)
         (int_of_str int_of_float : string -> option Z)
         (datetime : Type) (fromtimestamp : Z -> option datetime)
         (add_seconds : datetime -> Z -> option datetime)
         (strftime : datetime -> string -> string)
         (now : datetime) (tokenreply : gmap string value)
         (client_id : option string) (token_type : value) (text : string),
    let to_tokendata :=
      Authentication.tokenreply_to_tokendata
        b64decode json_loads int_of_str int_of_float
        datetime fromtimestamp add_seconds strftime in
    tokenreply !! "token_type"%string = Some token_type ->
    Authentication.expires_on_string int_of_str int_of_float
      datetime fromtimestamp add_seconds strftime now tokenreply = Ok text ->
    (tokenreply !! "access_token"%string = None ->
     to_tokendata now tokenreply client_id = Raise (KeyError "access_token"))
    /\ (forall claims : gmap string value,
          Authentication.access_token_claims b64decode json_loads tokenreply
          = Ok (VDict claims) ->
          exists tokendata,
            to_tokendata now tokenreply client_id = Ok tokendata
            /\ tokendata !! "tenantId"%string = claims !! "tid"%string
            /\ tokendata !! "_clientId"%string
               = match client_id with
                 | Some (String c cs) => Some (VStr (String c cs))
                 | _ => claims !! "appid"%string
                 end
            /\ tokendata !! "refreshToken"%string
               = tokenreply !! "refresh_token"%string
            /\ tokendata !! "idToken"%string = tokenreply !! "id_token"%string).
Proof.
  intros until text. intros to_tokendata Htt Htext. subst to_tokendata. split.
  - intros Hnone. unfold Authentication.tokenreply_to_tokendata.
    apply getitem_Ok in Htt. rewrite Htt. cbn [bind]. rewrite Htext. cbn [bind].
    unfold Authentication.access_token_claims.
    rewrite (getitem_missing _ _ Hnone). reflexivity.
  - intros claims Hclaims.
    assert (Hok : exists tokendata,
               Authentication.tokenreply_to_tokendata
                 b64decode json_loads int_of_str int_of_float
                 datetime fromtimestamp add_seconds strftime
                 now tokenreply client_id = Ok tokendata).
    { eexists. apply tokenreply_to_tokendata_Ok. eauto 10. }
    destruct Hok as [tokendata Hok]. exists tokendata.
    split; [exact Hok|].
    apply tokenreply_to_tokendata_Ok in Hok.
    destruct Hok as (tt' & text' & claims' & _ & _ & Hclaims' & ->).
    rewrite Hclaims in Hclaims'. injection Hclaims' as <-.
    split; [record_lookup|split; [record_lookup|split]].
    + rewrite (translate_lookup_new _ _ "refresh_token" "refreshToken")
        by (cbn; tauto).
      destruct (tokenreply !! "refresh_token"%string); [reflexivity|insert_lookup].
    + rewrite (translate_lookup_new _ _ "id_token" "idToken") by (cbn; tauto).
      destruct (tokenreply !! "id_token"%string); [reflexivity|insert_lookup].
Qed.

(** A reply with an access token only, whose payload has no tid and no
    appid: accepted, with neither [tenantId] nor [_clientId]. *)
Lemma tokenreply_to_tokendata_access_token_witness :
  (Recorded.tokenreply_bare !! "access_token"%string = None ->
   Recorded.tokenreply_to_tokendata Recorded.now Recorded.tokenreply_bare None
   = Raise (KeyError "access_token"))
  /\ (forall claims : gmap string value,
        Authentication.access_token_claims
          Recorded.b64decode Recorded.json_loads Recorded.tokenreply_bare
        = Ok (VDict claims) ->
        exists tokendata,
          Recorded.tokenreply_to_tokendata
            Recorded.now Recorded.tokenreply_bare None = Ok tokendata
          /\ tokendata !! "tenantId"%string = claims !! "tid"%string
          /\ tokendata !! "_clientId"%string = claims !! "appid"%string
          /\ tokendata !! "refreshToken"%string
             = Recorded.tokenreply_bare !! "refresh_token"%string
          /\ tokendata !! "idToken"%string
             = Recorded.tokenreply_bare !! "id_token"%string).
Proof.
  apply (tokenreply_to_tokendata_access_token
           Recorded.b64decode Recorded.json_loads
           Recorded.int_of_str Recorded.int_of_float
           Z Recorded.fromtimestamp Recorded.add_seconds Recorded.strftime
           Recorded.now Recorded.tokenreply_bare None
           (VStr "Bearer") "2023-11-14 23:13:20").
  - vm_compute. reflexivity.
  - vm_compute. reflexivity.
Defined.

(** ** authenticate_with_prt_cookie *)

(** The keywords of the poll request of line 494 are parameters of
    [requests_get]; [cookies], which line 856 passes, is not. *)
Example requests_get_keywords :
  Authentication.bind_keywords Authentication.requests_get_parameters
    ["headers"; "restype"]%string = Ok tt
  /\ Authentication.bind_keywords Authentication.requests_get_parameters
       ["headers"; "cookies"; "follow_redirects"; "restype"]%string
     = Raise TypeError.
Proof. split; reflexivity. Qed.

(** C2. The authorize request of line 856 passes [cookies] to
    [requests_get], a keyword that function does not declare, so the call
    raises TypeError: whatever the scope, the redirect URL, [return_code]
    and the answer of the server are, no Location header is read and no
    code is returned or redeemed. *)
Theorem authenticate_with_prt_cookie_raises_TypeError :
  forall (json_loads : list byte -> option value)
         (urlparse_query : string -> string)
         (parse_qs : string -> gmap string (list string))
         (report_error_page : Authentication.response -> option exn)
         (scope redirurl : option string) (return_code : bool)
         (reply : result Authentication.response),
    Authentication.authenticate_with_prt_cookie
      json_loads urlparse_query parse_qs report_error_page
      scope redirurl return_code reply
    = Raise TypeError.
Proof. intros. reflexivity. Qed.

(** A 302 to the redirect URI that carries a code, with [return_code]
    set: TypeError, not the code. *)
Example authorize_redirect_with_code_raises :
  Recorded.authenticate_with_prt_cookie None None true
    (Ok Recorded.redirect_with_code)
  = Raise TypeError.
Proof. vm_compute. reflexivity. Qed.

(** ** get_bulk_enrollment_token *)

Section BulkEnrollment.
Import Authentication.

Variable b64decode : string -> option (list byte).
Variable json_loads : list byte -> option value.
Variable json_loads_str : string -> option value.
Variable int_of_str int_of_float : string -> option Z.
Variable datetime : Type.
Variable fromtimestamp : Z -> option datetime.
Variable add_seconds : datetime -> Z -> option datetime.
Variable strftime : datetime -> string -> string.

Local Abbreviation polling :=
  (poll_loop b64decode json_loads json_loads_str int_of_str int_of_float
     datetime fromtimestamp add_seconds strftime).

(** The poll request never hands a reply back. *)
Lemma requests_get_json_raises (reply : result response) :
  requests_get json_loads ["headers"; "restype"]%string "json" reply
  = Raise match reply with
          | Raise e => e
          | Ok response =>
              match json_loads (body response) with
              | Some _ => TypeError
              | None => JSONDecodeError
              end
          end.
Proof.
  unfold requests_get. cbn [bind_keywords forallb existsb bind].
  destruct reply as [response|e]; [|reflexivity].
  cbn [bind String.eqb Ascii.eqb Bool.eqb andb].
  destruct (json_loads (body response)); reflexivity.
Qed.

(** So the loop ends in its first round. *)
Lemma poll_loop_first (now : datetime) (reply : result response)
    (later : list (result response)) (out : list printed) (n : nat) :
  polling now (reply :: later) out n
  = {| output := out; sleeps := n;
       finished :=
         Some (Raise match reply with
                     | Raise e => e
                     | Ok response =>
                         match json_loads (body response) with
                         | Some _ => TypeError
                         | None => JSONDecodeError
                         end
                     end) |}.
Proof.
  cbn [poll_loop]. rewrite requests_get_json_raises. reflexivity.
Qed.

End BulkEnrollment.

(** C5, as stated, fails: on a begin reply in state CompleteError the
    function prints the result data and returns False; nothing is
    raised. *)
Lemma bulk_enrollment_error_returns_false :
  Recorded.get_bulk_enrollment_token Recorded.now (Ok Recorded.begin_error) []
  = {| Authentication.output :=
         [Authentication.LineWith "Error occurred: "
            (VStr "AADSTS50020: not allowed")];
       Authentication.sleeps := 0;
       Authentication.finished := Some (Ok Authentication.BulkFalse) |}.
Proof. vm_compute. reflexivity. Qed.

(** C5, amended. When the begin reply carries state CompleteError and a
    resultData entry, [get_bulk_enrollment_token] prints "Error
    occurred: " followed by that result data and returns False; it
    raises nothing, sleeps never and sends no poll request. *)
Theorem get_bulk_enrollment_token_complete_error :
  forall (b64decode : string -> option (list byte))
         (json_loads : list byte -> option value)
         (json_loads_str : string -> option value)
         (int_of_str int_of_float : string -> option Z)
         (datetime : Type) (fromtimestamp : Z -> option datetime)
         (add_seconds : datetime -> Z -> option datetime)
         (strftime : datetime -> string -> string)
         (now : datetime) (data : gmap string value) (resultData : value)
         (polls : list (result Authentication.response)),
    data !! "state"%string = Some (VStr "CompleteError") ->
    data !! "resultData"%string = Some resultData ->
    Authentication.get_bulk_enrollment_token
      b64decode json_loads json_loads_str int_of_str int_of_float
      datetime fromtimestamp add_seconds strftime now (Ok (VDict data)) polls
    = {| Authentication.output :=
           [Authentication.LineWith "Error occurred: " resultData];
         Authentication.sleeps := 0;
         Authentication.finished := Some (Ok Authentication.BulkFalse) |}.
Proof.
  intros until polls. intros Hstate Hdata.
  unfold Authentication.get_bulk_enrollment_token.
  cbn [bind dict_get]. rewrite Hstate. cbn [from_option id truthy].
  cbn. unfold getitem. rewrite Hdata. reflexivity.
Qed.

Lemma get_bulk_enrollment_token_complete_error_witness :
  Recorded.get_bulk_enrollment_token Recorded.now (Ok Recorded.begin_error)
    [Ok Recorded.poll_success]
  = {| Authentication.output :=
         [Authentication.LineWith "Error occurred: "
            (VStr "AADSTS50020: not allowed")];
       Authentication.sleeps := 0;
       Authentication.finished := Some (Ok Authentication.BulkFalse) |}.
Proof.
  unfold Recorded.get_bulk_enrollment_token.
  apply (get_bulk_enrollment_token_complete_error
           Recorded.b64decode Recorded.json_loads Recorded.json_loads_str
           Recorded.int_of_str Recorded.int_of_float
           Z Recorded.fromtimestamp Recorded.add_seconds Recorded.strftime
           Recorded.now
           {[ "state"%string := VStr "CompleteError";
              "resultData"%string := VStr "AADSTS50020: not allowed" ]}
           (VStr "AADSTS50020: not allowed") [Ok Recorded.poll_success]).
  - vm_compute. reflexivity.
  - vm_compute. reflexivity.
Defined.

(* ===================================================================== *)
(** * Further properties of the modelled functions *)
(* ===================================================================== *)

(** ** tokenreply_to_tokendata: shape of the record, reading of the expiry *)

(** X1. The record of an accepted reply always has [tokenType],
    [expiresOn] and [accessToken], and has no key besides these and
    [tenantId], [_clientId], [refreshToken], [idToken]: none of the
    reply's own keys, nor any other field of it, gets into the record. *)
Theorem tokenreply_to_tokendata_keys :
  forall (b64decode : string -> option (list byte))
         (json_loads : list byte -> option value)
         (int_of_str int_of_float : string -> option Z)
         (datetime : Type) (fromtimestamp : Z -> option datetime)
         (add_seconds : datetime -> Z -> option datetime)
         (strftime : datetime -> string -> string)
         (now : datetime) (tokenreply : gmap string value)
         (client_id : option string) (tokendata : gmap string value),
    Authentication.tokenreply_to_tokendata
      b64decode json_loads int_of_str int_of_float
      datetime fromtimestamp add_seconds strftime
      now tokenreply client_id = Ok tokendata ->
    is_Some (tokendata !! "tokenType"%string)
    /\ is_Some (tokendata !! "expiresOn"%string)
    /\ is_Some (tokendata !! "accessToken"%string)
    /\ forall key : string,
         is_Some (tokendata !! key) ->
         In key ["tokenType"; "expiresOn"; "accessToken"; "tenantId";
                 "_clientId"; "refreshToken"; "idToken"]%string.
Proof.
  intros until tokendata. intros Hok.
  apply tokenreply_to_tokendata_Ok in Hok.
  destruct Hok as (token_type & text & claims & Htt & Htext & Hclaims & ->).
  assert (Hat : is_Some (tokenreply !! "access_token"%string)).
  { unfold Authentication.access_token_claims in Hclaims.
    invert_bind Hclaims. apply getitem_Ok in Hstep. eauto. }
  split; [|split; [|split]].
  - rewrite (translate_lookup_new _ _ "token_type" "tokenType") by (cbn; tauto).
    rewrite Htt. eauto.
  - assert (Hexp : forall obj : gmap string value,
               Authentication.translate tokenreply obj !! "expiresOn"%string
               = obj !! "expiresOn"%string).
    { intros obj. apply translate_lookup_other.
      unfold Authentication.translate_map; cbn; intuition discriminate. }
    rewrite Hexp. insert_lookup; eauto.
  - rewrite (translate_lookup_new _ _ "access_token" "accessToken")
      by (cbn; tauto).
    destruct Hat as [v ->]. eauto.
  - intros key Hkey.
    destruct (decide (In key ["tokenType"; "expiresOn"; "accessToken"; "tenantId";
                              "_clientId"; "refreshToken"; "idToken"]%string))
      as [Hin|Hout]; [exact Hin|exfalso].
    assert (Hne : forall name,
               In name ["tokenType"; "expiresOn"; "accessToken"; "tenantId";
                        "_clientId"; "refreshToken"; "idToken"]%string ->
               name <> key).
    { intros name Hname ->. contradiction. }
    rewrite translate_lookup_other in Hkey.
    2:{ unfold Authentication.translate_map. cbn [map snd In].
        intros [H|[H|[H|[H|[]]]]]; revert H; apply Hne; cbn; auto 10. }
    cbv zeta in Hkey. destruct Hkey as [v Hv]. revert Hv.
    repeat case_match;
      repeat (rewrite lookup_insert_ne by (apply Hne; cbn; auto 10));
      rewrite lookup_singleton_ne by (apply Hne; cbn; auto 10);
      discriminate.
Qed.

Lemma tokenreply_to_tokendata_keys_witness :
  is_Some (Recorded.tokendata !! "tokenType"%string)
  /\ is_Some (Recorded.tokendata !! "expiresOn"%string)
  /\ is_Some (Recorded.tokendata !! "accessToken"%string)
  /\ forall key : string,
       is_Some (Recorded.tokendata !! key) ->
       In key ["tokenType"; "expiresOn"; "accessToken"; "tenantId";
               "_clientId"; "refreshToken"; "idToken"]%string.
Proof.
  apply (tokenreply_to_tokendata_keys
           Recorded.b64decode Recorded.json_loads
           Recorded.int_of_str Recorded.int_of_float
           Z Recorded.fromtimestamp Recorded.add_seconds Recorded.strftime
           Recorded.now Recorded.tokenreply None Recorded.tokendata).
  vm_compute. reflexivity.
Defined.

(** ** Hexadecimal and base64 *)

Section Exhaustive.

Lemma range_forall (n : nat) (P : Z -> bool) :
  forallb P (Codec.range n) = true ->
  forall z, 0 <= z < Z.of_nat n -> P z = true.
Proof.
  intros Hall z Hz. rewrite forallb_forall in Hall. apply Hall.
  unfold Codec.range. apply in_map_iff. exists (Z.to_nat z). split; [lia|].
  apply in_seq. lia.
Qed.

Lemma char_checked (s : Z) : 0 <= s < 64 -> Codec.char_check s = true.
Proof. apply (range_forall 64 Codec.char_check). vm_compute. reflexivity. Qed.

Lemma hex_checked (d : Z) : 0 <= d < 16 -> Codec.hex_check d = true.
Proof. apply (range_forall 16 Codec.hex_check). vm_compute. reflexivity. Qed.

Lemma byte_checked (a : byte) : Codec.byte_check (Z_of_byte a) = true.
Proof.
  apply (range_forall 256 Codec.byte_check); [vm_compute; reflexivity|].
  apply Z_of_byte_range.
Qed.

Lemma pair_checked (a b : byte) :
  Codec.pair_check (Z_of_byte a) (Z_of_byte b) = true.
Proof.
  apply (range_forall 256 (fun x => Codec.pair_check x (Z_of_byte b)));
    [|apply Z_of_byte_range].
  apply forallb_forall. intros x Hx.
  apply (range_forall 256 (Codec.pair_check x)); [|apply Z_of_byte_range].
  revert x Hx. apply forallb_forall. vm_compute. reflexivity.
Qed.

End Exhaustive.

(** Splits a conjunction of boolean checks into its facts. *)
Ltac split_checks H :=
  repeat match type of H with
         | (_ && _)%bool = true =>
             let H1 := fresh "Hc" in
             apply andb_prop in H; destruct H as [H H1]
         end;
  repeat match goal with
         | Hc : bool_decide _ = true |- _ => apply bool_decide_eq_true in Hc
         | Hc : negb _ = true |- _ => apply negb_true_iff in Hc
         | Hc : (_ =? _) = true |- _ => apply Z.eqb_eq in Hc
         | Hc : (_ <=? _) = true |- _ => apply Z.leb_le in Hc
         | Hc : (_ <? _) = true |- _ => apply Z.ltb_lt in Hc
         end.

Section Hex.

Lemma unhexlify_hexlify (bs : list byte) :
  Codec.unhexlify (Codec.hexlify bs) = Some bs.
Proof.
  induction bs as [|b bs IH]; [reflexivity|].
  cbn [Codec.hexlify Codec.unhexlify].
  pose proof (byte_checked b) as Hb. unfold Codec.byte_check in Hb.
  split_checks Hb.
  pose proof (Z.mod_pos_bound (Z_of_byte b) 16 ltac:(lia)) as Hm.
  pose proof (hex_checked (Z_of_byte b / 16) ltac:(lia)) as Hhi.
  pose proof (hex_checked (Z_of_byte b mod 16) ltac:(lia)) as Hlo.
  unfold Codec.hex_check in Hhi, Hlo. split_checks Hhi. split_checks Hlo.
  rewrite Hhi, Hlo, IH.
  match goal with H : 16 * _ + _ = _ |- _ => rewrite H end.
  now rewrite byte_of_Z_of_byte.
Qed.

Lemma length_hexlify (bs : list byte) :
  String.length (Codec.hexlify bs) = (2 * length bs)%nat.
Proof. induction bs as [|b bs IH]; cbn; [reflexivity|]. rewrite IH. lia. Qed.

Lemma remove_space_hexlify (bs : list byte) :
  Codec.remove_char " " (Codec.hexlify bs) = Codec.hexlify bs.
Proof.
  induction bs as [|b bs IH]; [reflexivity|].
  cbn [Codec.hexlify Codec.remove_char].
  pose proof (byte_checked b) as Hb. unfold Codec.byte_check in Hb.
  split_checks Hb.
  pose proof (Z.mod_pos_bound (Z_of_byte b) 16 ltac:(lia)) as Hm.
  pose proof (hex_checked (Z_of_byte b / 16) ltac:(lia)) as Hhi.
  pose proof (hex_checked (Z_of_byte b mod 16) ltac:(lia)) as Hlo.
  unfold Codec.hex_check in Hhi, Hlo. split_checks Hhi. split_checks Hlo.
  repeat match goal with H : Ascii.eqb _ " " = false |- _ => rewrite H; clear H end.
  now rewrite IH.
Qed.

End Hex.

Section Base64.

Lemma append_cons (c : ascii) (s t : string) :
  String c s +:+ t = String c (s +:+ t).
Proof. reflexivity. Qed.

Lemma append_nil (t : string) : EmptyString +:+ t = t.
Proof. reflexivity. Qed.

(** Induction over a byte string three bytes at a time. *)
Lemma list_ind3 {A} (P : list A -> Prop) :
  P [] -> (forall a, P [a]) -> (forall a b, P [a; b]) ->
  (forall a b c l, P l -> P (a :: b :: c :: l)) ->
  forall l, P l.
Proof.
  intros H0 H1 H2 H3 l.
  assert (H : P l /\ (forall a, P (a :: l)) /\ (forall a b, P (a :: b :: l))).
  { induction l as [|x l (IH0 & IH1 & IH2)]; [auto|].
    split; [apply IH1|]. split; [intros a; apply (IH2 a x)|].
    intros a b. now apply H3. }
  apply H.
Qed.

Lemma sextet_ranges (a b c : byte) :
  0 <= Codec.sextet1 a < 64 /\ 0 <= Codec.sextet2 a b < 64
  /\ 0 <= Codec.sextet3 b c < 64 /\ 0 <= Codec.sextet4 c < 64.
Proof.
  pose proof (byte_checked a) as Ha. pose proof (byte_checked c) as Hc.
  pose proof (pair_checked a b) as Hab. pose proof (pair_checked b c) as Hbc.
  unfold Codec.byte_check in Ha, Hc. unfold Codec.pair_check in Hab, Hbc.
  cbv zeta in Hab, Hbc.
  split_checks Ha. split_checks Hc. split_checks Hab. split_checks Hbc.
  unfold Codec.sextet1, Codec.sextet2, Codec.sextet3, Codec.sextet4. lia.
Qed.

(** What the decoder does with one character of the alphabet. *)
Lemma a2b_data_char (s : Z) (rest : string) (quad_pos : nat) (leftchar : Z)
    (pads : nat) (out : list byte) :
  0 <= s < 64 ->
  Codec.a2b_base64 (String (Codec.b64_char s) rest) quad_pos leftchar pads out
  = match quad_pos with
    | 0%nat => Codec.a2b_base64 rest 1 s 0 out
    | 1%nat =>
        Codec.a2b_base64 rest 2 (Z.land s 15) 0
          (byte_of_Z (Z.lor (Z.shiftl leftchar 2) (Z.shiftr s 4)) :: out)
    | 2%nat =>
        Codec.a2b_base64 rest 3 (Z.land s 3) 0
          (byte_of_Z (Z.lor (Z.shiftl leftchar 4) (Z.shiftr s 2)) :: out)
    | _ =>
        Codec.a2b_base64 rest 0 0 0
          (byte_of_Z (Z.lor (Z.shiftl leftchar 6) s) :: out)
    end.
Proof.
  intros Hs. pose proof (char_checked s Hs) as Hc.
  unfold Codec.char_check in Hc. split_checks Hc.
  cbn [Codec.a2b_base64].
  repeat match goal with
         | H : Ascii.eqb (Codec.b64_char s) "=" = false |- _ => rewrite H
         | H : Codec.b64_value (Codec.b64_char s) = Some s |- _ => rewrite H
         end.
  reflexivity.
Qed.

Lemma decoded_first (a b : byte) :
  byte_of_Z (Z.lor (Z.shiftl (Codec.sextet1 a) 2)
               (Z.shiftr (Codec.sextet2 a b) 4)) = a.
Proof.
  pose proof (byte_checked a) as Ha. pose proof (pair_checked a b) as Hab.
  unfold Codec.byte_check in Ha. unfold Codec.pair_check in Hab.
  cbv zeta in Hab. split_checks Ha. split_checks Hab.
  unfold Codec.sextet1, Codec.sextet2.
  repeat match goal with H : Z.shiftr (Z.lor _ _) 4 = _ |- _ => rewrite H end.
  repeat match goal with H : Z.lor (Z.shiftl (Z.shiftr _ 2) 2) _ = _ |- _ =>
                           rewrite H end.
  apply byte_of_Z_of_byte.
Qed.

Lemma decoded_second (a b c : byte) :
  byte_of_Z (Z.lor (Z.shiftl (Z.land (Codec.sextet2 a b) 15) 4)
               (Z.shiftr (Codec.sextet3 b c) 2)) = b.
Proof.
  pose proof (byte_checked b) as Hb.
  pose proof (pair_checked a b) as Hab. pose proof (pair_checked b c) as Hbc.
  unfold Codec.byte_check in Hb. unfold Codec.pair_check in Hab, Hbc.
  cbv zeta in Hab, Hbc. split_checks Hb. split_checks Hab. split_checks Hbc.
  unfold Codec.sextet2, Codec.sextet3.
  repeat match goal with
         | H : Z.land (Z.lor _ _) 15 = _ |- _ => rewrite H
         | H : Z.shiftr (Z.lor _ _) 2 = _ |- _ => rewrite H
         end.
  repeat match goal with H : Z.lor (Z.shiftl (Z.shiftr _ 4) 4) _ = _ |- _ =>
                           rewrite H end.
  apply byte_of_Z_of_byte.
Qed.

Lemma decoded_third (b c : byte) :
  byte_of_Z (Z.lor (Z.shiftl (Z.land (Codec.sextet3 b c) 3) 6)
               (Codec.sextet4 c)) = c.
Proof.
  pose proof (byte_checked c) as Hc. pose proof (pair_checked b c) as Hbc.
  unfold Codec.byte_check in Hc. unfold Codec.pair_check in Hbc.
  cbv zeta in Hbc. split_checks Hc. split_checks Hbc.
  unfold Codec.sextet3, Codec.sextet4.
  repeat match goal with H : Z.land (Z.lor _ _) 3 = _ |- _ => rewrite H end.
  repeat match goal with H : Z.lor (Z.shiftl (Z.shiftr _ 6) 6) _ = _ |- _ =>
                           rewrite H end.
  apply byte_of_Z_of_byte.
Qed.

(** The decoder reads an unpadded encoding back, byte for byte, and
    stops in the quad position [pending] tells. *)
Lemma a2b_encoded (bs : list byte) :
  forall (tail : string) (leftchar : Z) (out : list byte),
  exists leftchar',
    Codec.a2b_base64 (Codec.b64encode_nopad bs +:+ tail) 0 leftchar 0 out
    = Codec.a2b_base64 tail (Codec.pending bs) leftchar' 0 (rev bs ++ out).
Proof.
  induction bs as [|a|a b|a b c rest IH] using list_ind3;
    intros tail leftchar out.
  - exists leftchar. reflexivity.
  - destruct (sextet_ranges a x00 x00) as (H1 & H2 & _).
    eexists. cbn [Codec.b64encode_nopad Codec.pending]. rewrite ?append_cons, ?append_nil.
    rewrite !a2b_data_char by assumption. cbn [rev app].
    rewrite decoded_first. reflexivity.
  - destruct (sextet_ranges a b x00) as (H1 & H2 & H3 & _).
    eexists. cbn [Codec.b64encode_nopad Codec.pending]. rewrite ?append_cons, ?append_nil.
    rewrite !a2b_data_char by assumption. cbn [rev app].
    rewrite decoded_first, decoded_second. reflexivity.
  - destruct (sextet_ranges a b c) as (H1 & H2 & H3 & H4).
    cbn [Codec.b64encode_nopad Codec.pending]. rewrite ?append_cons, ?append_nil.
    rewrite !a2b_data_char by assumption.
    rewrite decoded_first, decoded_second, decoded_third.
    destruct (IH tail 0 (c :: b :: a :: out)) as [leftchar' ->].
    exists leftchar'. cbn [rev]. rewrite <- !app_assoc. reflexivity.
Qed.

Lemma pending_padding (bs : list byte) :
  Codec.pending bs = 0%nat /\ Codec.padding bs = 0%nat
  \/ Codec.pending bs = 2%nat /\ Codec.padding bs = 2%nat
  \/ Codec.pending bs = 3%nat /\ Codec.padding bs = 1%nat.
Proof.
  unfold Codec.padding.
  induction bs as [|a|a b|a b c rest IH] using list_ind3;
    [cbn; auto | cbn; auto | cbn; auto |].
  cbn [Codec.pending length].
  replace (S (S (S (length rest)))) with (length rest + 1 * 3)%nat by lia.
  rewrite Nat.Div0.mod_add. exact IH.
Qed.

(** Enough [=] signs finish the decoding. *)
Lemma a2b_padding (bs : list byte) (m : nat) (leftchar : Z) (out : list byte) :
  (Codec.padding bs <= m)%nat ->
  Codec.a2b_base64 (str_repeat "=" m) (Codec.pending bs) leftchar 0 out
  = Some (rev out).
Proof.
  pose proof (pending_padding bs) as Hpad.
  intros Hm. destruct Hpad as [[-> Hp]|[[-> Hp]|[-> Hp]]]; rewrite Hp in Hm.
  - clear Hm. induction m as [|m IH]; [reflexivity|].
    cbn [str_repeat]. rewrite append_cons, append_nil. cbn. exact IH.
  - destruct m as [|[|m]]; try lia.
    cbn [str_repeat]. rewrite !append_cons, !append_nil. reflexivity.
  - destruct m as [|m]; try lia.
    cbn [str_repeat]. rewrite !append_cons, !append_nil. reflexivity.
Qed.

Lemma append_assoc (a b c : string) : (a +:+ b) +:+ c = a +:+ (b +:+ c).
Proof.
  induction a as [|x a IH]; [reflexivity|]. rewrite !append_cons. now rewrite IH.
Qed.

Lemma str_repeat_add (s : string) (n m : nat) :
  str_repeat s (n + m) = str_repeat s n +:+ str_repeat s m.
Proof.
  induction n as [|n IH]; [reflexivity|]. cbn [Nat.add str_repeat]. rewrite IH.
  symmetry. apply append_assoc.
Qed.

Lemma length_append (a b : string) :
  String.length (a +:+ b) = (String.length a + String.length b)%nat.
Proof.
  induction a as [|x a IH]; [reflexivity|]. rewrite append_cons. cbn. now rewrite IH.
Qed.

Lemma length_pad (m : nat) : String.length (str_repeat "=" m) = m.
Proof.
  induction m as [|m IH]; [reflexivity|].
  cbn [str_repeat]. rewrite append_cons, append_nil. cbn. now rewrite IH.
Qed.

Lemma all_chars_append (p : ascii -> bool) (a b : string) :
  Codec.all_chars p (a +:+ b) = Codec.all_chars p a && Codec.all_chars p b.
Proof.
  induction a as [|x a IH]; [reflexivity|].
  rewrite append_cons. cbn. rewrite IH. apply andb_assoc.
Qed.

Lemma map_string_append (f : ascii -> ascii) (a b : string) :
  Codec.map_string f (a +:+ b) = Codec.map_string f a +:+ Codec.map_string f b.
Proof.
  induction a as [|x a IH]; [reflexivity|].
  rewrite append_cons. cbn. rewrite append_cons. now rewrite IH.
Qed.

Lemma pad_ascii (m : nat) :
  Codec.all_chars Codec.is_ascii (str_repeat "=" m) = true.
Proof.
  induction m as [|m IH]; [reflexivity|].
  cbn [str_repeat]. rewrite append_cons, append_nil. cbn. exact IH.
Qed.

Lemma pad_urlsafe (f : ascii -> ascii) (m : nat) :
  f "="%char = "="%char ->
  Codec.map_string f (str_repeat "=" m) = str_repeat "=" m.
Proof.
  intros Hf. induction m as [|m IH]; [reflexivity|].
  cbn [str_repeat]. rewrite append_cons, append_nil. cbn. now rewrite Hf, IH.
Qed.

(** The characters of an encoding: ASCII, none of them a dot, and the
    URL-safe respelling undone by the URL-safe decoder. *)
Lemma nopad_chars (bs : list byte) :
  Codec.all_chars Codec.is_ascii (Codec.b64encode_nopad bs) = true
  /\ Codec.all_chars Codec.is_ascii (Codec.urlsafe_b64encode_nopad bs) = true
  /\ Codec.map_string Codec.from_urlsafe (Codec.urlsafe_b64encode_nopad bs)
     = Codec.b64encode_nopad bs
  /\ Codec.has_char "." (Codec.b64encode_nopad bs) = false
  /\ Codec.has_char "." (Codec.urlsafe_b64encode_nopad bs) = false.
Proof.
  unfold Codec.urlsafe_b64encode_nopad.
  assert (Hchar : forall s rest,
             0 <= s < 64 ->
             (Codec.all_chars Codec.is_ascii rest = true
              /\ Codec.all_chars Codec.is_ascii
                   (Codec.map_string Codec.to_urlsafe rest) = true
              /\ Codec.map_string Codec.from_urlsafe
                   (Codec.map_string Codec.to_urlsafe rest) = rest
              /\ Codec.has_char "." rest = false
              /\ Codec.has_char "." (Codec.map_string Codec.to_urlsafe rest)
                 = false) ->
             let s' := String (Codec.b64_char s) rest in
             Codec.all_chars Codec.is_ascii s' = true
             /\ Codec.all_chars Codec.is_ascii
                  (Codec.map_string Codec.to_urlsafe s') = true
             /\ Codec.map_string Codec.from_urlsafe
                  (Codec.map_string Codec.to_urlsafe s') = s'
             /\ Codec.has_char "." s' = false
             /\ Codec.has_char "." (Codec.map_string Codec.to_urlsafe s')
                = false).
  { intros s rest Hs (R1 & R2 & R3 & R4 & R5).
    pose proof (char_checked s Hs) as Hc.
    unfold Codec.char_check in Hc. split_checks Hc.
    cbn [Codec.all_chars Codec.map_string Codec.has_char].
    repeat match goal with
           | H : Codec.is_ascii _ = true |- _ => rewrite H; clear H
           | H : Ascii.eqb _ "." = false |- _ => rewrite H; clear H
           end.
    rewrite R1, R2, R3, R4, R5.
    match goal with H : Ascii.eqb _ _ = true |- _ =>
                      apply Ascii.eqb_eq in H; rewrite H end.
    auto. }
  induction bs as [|a|a b|a b c rest IH] using list_ind3.
  - cbn. auto.
  - destruct (sextet_ranges a x00 x00) as (H1 & H2 & _).
    cbn [Codec.b64encode_nopad]. apply Hchar; [assumption|].
    apply Hchar; [assumption|]. cbn. auto.
  - destruct (sextet_ranges a b x00) as (H1 & H2 & H3 & _).
    cbn [Codec.b64encode_nopad]. apply Hchar; [assumption|].
    apply Hchar; [assumption|]. apply Hchar; [assumption|]. cbn. auto.
  - destruct (sextet_ranges a b c) as (H1 & H2 & H3 & H4).
    cbn [Codec.b64encode_nopad]. apply Hchar; [assumption|].
    apply Hchar; [assumption|]. apply Hchar; [assumption|].
    apply Hchar; assumption.
Qed.

(** Decoding an encoding that ends in at least its own padding. *)
Lemma b64decode_encoded (bs : list byte) (m : nat) :
  (Codec.padding bs <= m)%nat ->
  Codec.b64decode (Codec.b64encode_nopad bs +:+ str_repeat "=" m) = Some bs.
Proof.
  intros Hm. unfold Codec.b64decode.
  destruct (nopad_chars bs) as (Hascii & _).
  rewrite all_chars_append, Hascii, pad_ascii. cbn [andb].
  destruct (a2b_encoded bs (str_repeat "=" m) 0 []) as [leftchar' ->].
  rewrite a2b_padding by assumption.
  now rewrite app_nil_r, rev_involutive.
Qed.

Lemma urlsafe_b64decode_encoded (bs : list byte) (m : nat) :
  (Codec.padding bs <= m)%nat ->
  Codec.urlsafe_b64decode
    (Codec.urlsafe_b64encode_nopad bs +:+ str_repeat "=" m) = Some bs.
Proof.
  intros Hm. unfold Codec.urlsafe_b64decode.
  destruct (nopad_chars bs) as (_ & Hascii & Hback & _).
  rewrite all_chars_append, Hascii, pad_ascii. cbn [andb].
  rewrite map_string_append, Hback, pad_urlsafe by reflexivity.
  now apply b64decode_encoded.
Qed.

Lemma length_nopad_mod4 (bs : list byte) :
  (String.length (Codec.b64encode_nopad bs) mod 4 = Codec.pending bs)%nat
  /\ (String.length (Codec.urlsafe_b64encode_nopad bs) mod 4
      = Codec.pending bs)%nat.
Proof.
  assert (Hlen : forall f s, String.length (Codec.map_string f s)
                             = String.length s).
  { intros f s. induction s as [|c s IH]; cbn; [reflexivity|]. now rewrite IH. }
  unfold Codec.urlsafe_b64encode_nopad. rewrite Hlen.
  assert (H : (String.length (Codec.b64encode_nopad bs) mod 4
               = Codec.pending bs)%nat); [|auto].
  induction bs as [|a|a b|a b c rest IH] using list_ind3; try reflexivity.
  cbn [Codec.b64encode_nopad String.length Codec.pending].
  replace (S (S (S (S (String.length (Codec.b64encode_nopad rest))))))
    with (String.length (Codec.b64encode_nopad rest) + 1 * 4)%nat by lia.
  rewrite Nat.Div0.mod_add. exact IH.
Qed.

End Base64.

(** X2. [expires_on] takes precedence and is not forgiving: when the reply
    has an [expires_on] that [int] rejects, the error of [int] escapes,
    and when [datetime.fromtimestamp] cannot represent its epoch, the
    error of [fromtimestamp] escapes, even if a usable [expires_in] is
    present; only a missing [expires_on] key falls back to
    [expires_in]. *)
Theorem tokenreply_to_tokendata_bad_expires_on :
  forall (b64decode : string -> option (list byte))
         (json_loads : list byte -> option value)
         (int_of_str int_of_float : string -> option Z)
         (datetime : Type) (fromtimestamp : Z -> option datetime)
         (add_seconds : datetime -> Z -> option datetime)
         (strftime : datetime -> string -> string)
         (now : datetime) (tokenreply : gmap string value)
         (client_id : option string) (token_type v : value),
    let to_tokendata :=
      Authentication.tokenreply_to_tokendata
        b64decode json_loads int_of_str int_of_float
        datetime fromtimestamp add_seconds strftime in
    tokenreply !! "token_type"%string = Some token_type ->
    tokenreply !! "expires_on"%string = Some v ->
    (forall e, Authentication.py_int int_of_str int_of_float v = Raise e ->
               to_tokendata now tokenreply client_id = Raise e)
    /\ (forall n, Authentication.py_int int_of_str int_of_float v = Ok n ->
                  fromtimestamp n = None ->
                  to_tokendata now tokenreply client_id = Raise TimestampError).
Proof.
  intros until v. intros to_tokendata Htt Hv. subst to_tokendata.
  unfold Authentication.tokenreply_to_tokendata.
  rewrite (proj2 (getitem_Ok _ _ _) Htt). cbn [bind].
  unfold Authentication.expires_on_string.
  rewrite (proj2 (getitem_Ok _ _ _) Hv). cbn [bind]. split.
  - intros e He. rewrite He. cbn [bind].
    destruct e; try reflexivity.
    exfalso. eapply py_int_not_KeyError. exact He.
  - intros n Hn Hnone. rewrite Hn. cbn [bind]. rewrite Hnone. reflexivity.
Qed.

(** With a usable [expires_in] of 3600 in the reply: an [expires_on] of
    "soon" raises the ValueError of [int], and one of 253402300800, the
    first second of the year 10000, the error of [fromtimestamp]. *)
Lemma tokenreply_to_tokendata_bad_expires_on_witness :
  Recorded.tokenreply_to_tokendata Recorded.now
    (<["expires_on"%string := VStr "soon"]> Recorded.tokenreply_bare) None
  = Raise ValueError
  /\ Recorded.tokenreply_to_tokendata Recorded.now
       (<["expires_on"%string := VInt 253402300800]> Recorded.tokenreply_bare)
       None
     = Raise TimestampError.
Proof.
  unfold Recorded.tokenreply_to_tokendata. split.
  - refine (proj1 (tokenreply_to_tokendata_bad_expires_on
                     Recorded.b64decode Recorded.json_loads
                     Recorded.int_of_str Recorded.int_of_float
                     Z Recorded.fromtimestamp Recorded.add_seconds
                     Recorded.strftime Recorded.now
                     (<["expires_on"%string := VStr "soon"]>
                        Recorded.tokenreply_bare)
                     None (VStr "Bearer") (VStr "soon") _ _) ValueError _);
      vm_compute; reflexivity.
  - refine (proj2 (tokenreply_to_tokendata_bad_expires_on
                     Recorded.b64decode Recorded.json_loads
                     Recorded.int_of_str Recorded.int_of_float
                     Z Recorded.fromtimestamp Recorded.add_seconds
                     Recorded.strftime Recorded.now
                     (<["expires_on"%string := VInt 253402300800]>
                        Recorded.tokenreply_bare)
                     None (VStr "Bearer") (VInt 253402300800) _ _)
                  253402300800 _ _);
      vm_compute; reflexivity.
Defined.

(** ** decrypt_auth_response: malformed input *)

(** X3. A response that does not start like plain JSON and whose first
    segment decodes to a JSON header: without a [ctx] entry in the header
    it raises KeyError for [ctx]; with a base64 [ctx] but fewer than five
    dot-separated segments it raises IndexError, whatever the iv length
    would have selected. *)
Theorem decrypt_auth_response_malformed :
  forall (b64decode urlsafe_b64decode : string -> option (list byte))
         (json_loads : list byte -> option value)
         (json_loads_str : string -> option value)
         (aesgcm_decrypt : list byte -> list byte -> list byte -> list byte
                           -> option (list byte))
         (aes_cbc : list byte -> list byte
                    -> option (list byte -> option (list byte)))
         (urandom : nat -> list byte) (responsedata : string)
         (sessionkey : list byte) (asjson : bool)
         (part0 : string) (more : list string) (raw : list byte)
         (headers : gmap string value),
    let decrypt :=
      Authentication.decrypt_auth_response
        b64decode urlsafe_b64decode json_loads json_loads_str
        aesgcm_decrypt aes_cbc urandom in
    String.eqb (substring 0 2 responsedata) Authentication.brace_quote = false ->
    split "." responsedata = part0 :: more ->
    Authentication.get_data urlsafe_b64decode part0 = Ok raw ->
    json_loads raw = Some (VDict headers) ->
    (headers !! "ctx"%string = None ->
     decrypt responsedata sessionkey asjson = Raise (KeyError "ctx"))
    /\ (forall ctx context,
          headers !! "ctx"%string = Some (VStr ctx) ->
          b64decode ctx = Some context ->
          (length more < 4)%nat ->
          decrypt responsedata sessionkey asjson = Raise IndexError).
Proof.
  intros until headers. intros decrypt Hplain Hsplit Hraw Hjson. subst decrypt.
  unfold Authentication.decrypt_auth_response.
  rewrite Hplain, Hsplit. cbn [index nth_error or_raise bind].
  rewrite Hraw. cbn [bind]. rewrite Hjson. cbn [or_raise bind subscript].
  split.
  - intros Hnone. rewrite (getitem_missing _ _ Hnone). reflexivity.
  - intros ctx context Hctx Hdec Hlen.
    rewrite (proj2 (getitem_Ok _ _ _) Hctx). cbn [bind].
    cbn [Authentication.b64decode_value]. rewrite Hdec. cbn [or_raise bind].
    destruct more as [|enckey [|iv [|data [|authtag rest]]]];
      cbn [length] in Hlen; try lia; reflexivity.
Qed.

Lemma decrypt_auth_response_malformed_witness :
  Recorded.decrypt_auth_response (fun n => repeat x00 n)
    "eyJlbmMiOiJBMjU2R0NNIiwiY3R4IjoiWkdWbVoyaHBhbXRzYlc1dmNIRnljM1IxZG5kNGVYcDcifQ..yMnKy8zNzs_Q0dLT.X-yqc9nLvuk9EiXy2HX-Jm22dPTi0ZI"
    Recorded.sessionkey false
  = Raise IndexError.
Proof.
  unfold Recorded.decrypt_auth_response.
  refine (proj2 (decrypt_auth_response_malformed
                   Recorded.b64decode Recorded.urlsafe_b64decode
                   Recorded.json_loads Recorded.json_loads_str
                   Recorded.aesgcm_decrypt Recorded.aes_cbc
                   (fun n => repeat x00 n) _ Recorded.sessionkey false
                   "eyJlbmMiOiJBMjU2R0NNIiwiY3R4IjoiWkdWbVoyaHBhbXRzYlc1dmNIRnljM1IxZG5kNGVYcDcifQ"
                   [""; "yMnKy8zNzs_Q0dLT"; "X-yqc9nLvuk9EiXy2HX-Jm22dPTi0ZI"]%string
                   Recorded.header_gcm
                   {[ "enc"%string := VStr "A256GCM";
                      "ctx"%string := VStr "ZGVmZ2hpamtsbW5vcHFyc3R1dnd4eXp7" ]}
                   _ _ _ _)
                "ZGVmZ2hpamtsbW5vcHFyc3R1dnd4eXp7"%string Recorded.kdf_context _ _ _);
    first [vm_compute; reflexivity | cbn; lia].
Defined.

(** ** get_bulk_enrollment_token: the poll request *)

(** X5. After a begin reply that starts the polling (a state other than
    CompleteError and a flow token), the first poll request ends the
    call with an exception: the transport's own when it raises, the JSON
    decoder's when the body of the response is no JSON, and TypeError
    when it is, because [requests_get] awaits the value it parsed. The
    function has then printed that it got a flow token and has not
    slept. *)
Theorem get_bulk_enrollment_token_first_poll_raises :
  forall (b64decode : string -> option (list byte))
         (json_loads : list byte -> option value)
         (json_loads_str : string -> option value)
         (int_of_str int_of_float : string -> option Z)
         (datetime : Type) (fromtimestamp : Z -> option datetime)
         (add_seconds : datetime -> Z -> option datetime)
         (strftime : datetime -> string -> string)
         (now : datetime) (begin : gmap string value)
         (state flowtoken : value)
         (reply : result Authentication.response)
         (later : list (result Authentication.response)),
    begin !! "state"%string = Some state ->
    truthy state = true ->
    Authentication.is_str state "CompleteError" = false ->
    begin !! "flowToken"%string = Some flowtoken ->
    truthy flowtoken = true ->
    Authentication.get_bulk_enrollment_token
      b64decode json_loads json_loads_str int_of_str int_of_float
      datetime fromtimestamp add_seconds strftime
      now (Ok (VDict begin)) (reply :: later)
    = {| Authentication.output :=
           [Authentication.Line "Got flow token, polling for token creation"];
         Authentication.sleeps := 0;
         Authentication.finished :=
           Some (Raise match reply with
                       | Raise e => e
                       | Ok response =>
                           match json_loads (Authentication.body response) with
                           | Some _ => TypeError
                           | None => JSONDecodeError
                           end
                       end) |}.
Proof.
  intros until later. intros Hst Htruthy Hnoerr Hft Hfttruthy.
  unfold Authentication.get_bulk_enrollment_token.
  cbn [bind dict_get]. rewrite Hst. cbn [from_option id].
  rewrite Htruthy, Hnoerr. cbn [negb]. rewrite Hft. cbn [from_option id].
  rewrite Hfttruthy. cbn [negb].
  apply poll_loop_first.
Qed.

Lemma get_bulk_enrollment_token_first_poll_raises_witness :
  Recorded.get_bulk_enrollment_token Recorded.now (Ok Recorded.begin_started)
    [Ok Recorded.poll_success]
  = {| Authentication.output :=
         [Authentication.Line "Got flow token, polling for token creation"];
       Authentication.sleeps := 0;
       Authentication.finished := Some (Raise TypeError) |}.
Proof.
  unfold Recorded.get_bulk_enrollment_token.
  etransitivity.
  - apply (get_bulk_enrollment_token_first_poll_raises
             Recorded.b64decode Recorded.json_loads Recorded.json_loads_str
             Recorded.int_of_str Recorded.int_of_float
             Z Recorded.fromtimestamp Recorded.add_seconds Recorded.strftime
             Recorded.now
             {[ "state"%string := VStr "Started";
                "flowToken"%string := VStr "F1" ]}
             (VStr "Started") (VStr "F1") (Ok Recorded.poll_success) []);
      vm_compute; reflexivity.
  - vm_compute. reflexivity.
Defined.

(** X6. Whatever the begin reply and the replies to the poll requests
    are, [get_bulk_enrollment_token] never returns token data and never
    sleeps: it returns False or raises, and it has done so once one poll
    reply is in. *)
Theorem get_bulk_enrollment_token_no_tokendata :
  forall (b64decode : string -> option (list byte))
         (json_loads : list byte -> option value)
         (json_loads_str : string -> option value)
         (int_of_str int_of_float : string -> option Z)
         (datetime : Type) (fromtimestamp : Z -> option datetime)
         (add_seconds : datetime -> Z -> option datetime)
         (strftime : datetime -> string -> string)
         (now : datetime) (begin : result value)
         (polls : list (result Authentication.response)),
    let run :=
      Authentication.get_bulk_enrollment_token
        b64decode json_loads json_loads_str int_of_str int_of_float
        datetime fromtimestamp add_seconds strftime now begin polls in
    (forall tokendata,
        Authentication.finished run
        <> Some (Ok (Authentication.BulkTokendata tokendata)))
    /\ Authentication.sleeps run = 0%nat
    /\ (polls <> [] -> Authentication.finished run <> None).
Proof.
  intros until polls. cbv zeta.
  unfold Authentication.get_bulk_enrollment_token.
  destruct (let* data := begin in
            let* state := dict_get data "state" in Ok (data, state))
    as [[data state]|e]; [|repeat split; discriminate].
  destruct (negb (truthy state)); [repeat split; discriminate|].
  destruct (Authentication.is_str state "CompleteError").
  { destruct (subscript data "resultData"); repeat split; discriminate. }
  destruct (dict_get data "flowToken") as [flowtoken|e];
    [|repeat split; discriminate].
  destruct (negb (truthy flowtoken)); [repeat split; discriminate|].
  destruct polls as [|reply later].
  - repeat split; [discriminate|]. intros Hne. now contradiction Hne.
  - rewrite poll_loop_first. repeat split; discriminate.
Qed.

(** ** get_data and the key normalizers *)

Lemma urlsafe_b64encode_split (bs : list byte) :
  Codec.urlsafe_b64encode bs
  = Codec.urlsafe_b64encode_nopad bs +:+ str_repeat "=" (Codec.padding bs).
Proof.
  unfold Codec.urlsafe_b64encode, Codec.b64encode, Codec.urlsafe_b64encode_nopad.
  now rewrite map_string_append, pad_urlsafe.
Qed.

(** The padding [get_data] and its siblings add, [len % 4] signs, is
    enough for the decoder whatever part of the real padding is there. *)
Lemma quirk_padding_suffices (bs : list byte) (len j : nat) :
  (len mod 4 = Codec.pending bs)%nat ->
  (j <= Codec.padding bs)%nat ->
  (Codec.padding bs <= j + (len + j) mod 4)%nat.
Proof.
  intros Hlen Hj.
  assert (Hmod : ((len + j) mod 4 = (Codec.pending bs + j) mod 4)%nat).
  { rewrite <- Hlen. now rewrite Nat.Div0.add_mod_idemp_l. }
  rewrite Hmod.
  destruct (pending_padding bs) as [[-> Hp]|[[-> Hp]|[-> Hp]]];
    rewrite Hp in *.
  - lia.
  - destruct j as [|[|[|j]]]; cbn; lia.
  - destruct j as [|[|j]]; cbn; lia.
Qed.

Lemma get_data_encoded (bs : list byte) (j : nat) :
  (j <= Codec.padding bs)%nat ->
  AuthenticationTools.get_data
    (Codec.urlsafe_b64encode_nopad bs +:+ str_repeat "=" j) = Ok bs.
Proof.
  intros Hj.
  unfold AuthenticationTools.get_data, Authentication.get_data.
  rewrite append_assoc, <- str_repeat_add.
  rewrite urlsafe_b64decode_encoded; [reflexivity|].
  rewrite length_append, length_pad.
  apply quirk_padding_suffices; [|assumption].
  apply length_nopad_mod4.
Qed.

(** X7. [get_data] undoes URL-safe base64: for every byte string, its
    encoding is read back whether its [=] padding is complete, partly
    stripped or stripped altogether (as in JWT and JWE segments), although
    the function pads with [len % 4] signs rather than up to a multiple
    of four. *)
Theorem get_data_decodes_encoding (bs : list byte) (j : nat) :
  (j <= Codec.padding bs)%nat ->
  AuthenticationTools.get_data
    (Codec.urlsafe_b64encode_nopad bs +:+ str_repeat "=" j) = Ok bs
  /\ Codec.urlsafe_b64encode bs
     = Codec.urlsafe_b64encode_nopad bs +:+ str_repeat "=" (Codec.padding bs).
Proof.
  intros Hj. split.
  - now apply get_data_encoded.
  - apply urlsafe_b64encode_split.
Qed.

Lemma get_data_decodes_encoding_witness :
  AuthenticationTools.get_data
    (Codec.urlsafe_b64encode_nopad (of_string "any carnal pleas")
       +:+ str_repeat "=" 1) = Ok (of_string "any carnal pleas")
  /\ Codec.urlsafe_b64encode (of_string "any carnal pleas")
     = Codec.urlsafe_b64encode_nopad (of_string "any carnal pleas")
         +:+ str_repeat "=" (Codec.padding (of_string "any carnal pleas")).
Proof.
  apply (get_data_decodes_encoding (of_string "any carnal pleas") 1).
  vm_compute. lia.
Defined.

Lemma b64encode_length (bs : list byte) :
  String.length (Codec.b64encode bs) = (4 * ((length bs + 2) / 3))%nat.
Proof.
  unfold Codec.b64encode. rewrite length_append, length_pad.
  unfold Codec.padding.
  induction bs as [|a|a b|a b c rest IH] using list_ind3; try reflexivity.
  cbn [Codec.b64encode_nopad String.length length].
  replace (S (S (S (length rest)))) with (length rest + 1 * 3)%nat by lia.
  rewrite Nat.Div0.mod_add.
  replace (length rest + 1 * 3 + 2)%nat with (length rest + 2 + 1 * 3)%nat by lia.
  rewrite Nat.div_add by lia. lia.
Qed.

Lemma b64decode_b64encode (bs : list byte) :
  Codec.b64decode (Codec.b64encode bs) = Some bs.
Proof. unfold Codec.b64encode. now apply b64decode_encoded. Qed.

(** X8. A 32-byte session key is read back from both spellings the
    callers store: its base64 text, which has 44 characters, and its
    hexadecimal text, also with spaces between the digits as long as the
    whole is not 44 characters long. *)
Theorem ensure_binary_sessionkey_reads_key (key : list byte) (spaced : string) :
  length key = 32%nat ->
  Codec.remove_char " " spaced = Codec.hexlify key ->
  String.length spaced <> 44%nat ->
  AuthenticationTools.ensure_binary_sessionkey (Some (Codec.b64encode key))
  = Ok (Some key)
  /\ AuthenticationTools.ensure_binary_sessionkey (Some (Codec.hexlify key))
     = Ok (Some key)
  /\ AuthenticationTools.ensure_binary_sessionkey (Some spaced) = Ok (Some key).
Proof.
  intros Hlen Hspaced Hnot44.
  assert (Hhex : forall s,
             Codec.remove_char " " s = Codec.hexlify key ->
             String.length s <> 44%nat ->
             AuthenticationTools.ensure_binary_sessionkey (Some s)
             = Ok (Some key)).
  { intros s Hs Hs44. unfold AuthenticationTools.ensure_binary_sessionkey.
    destruct s as [|c s].
    - exfalso. cbn in Hs. destruct key; [discriminate Hlen|discriminate Hs].
    - apply Nat.eqb_neq in Hs44. rewrite Hs44, Hs, unhexlify_hexlify.
      reflexivity. }
  split; [|split].
  - unfold AuthenticationTools.ensure_binary_sessionkey.
    pose proof (b64encode_length key) as Hl. rewrite Hlen in Hl.
    change (4 * ((32 + 2) / 3))%nat with 44%nat in Hl.
    destruct (Codec.b64encode key) as [|c s] eqn:He; [discriminate Hl|].
    rewrite Hl. cbn [Nat.eqb]. rewrite <- He, b64decode_b64encode. reflexivity.
  - apply Hhex; [apply remove_space_hexlify|].
    rewrite length_hexlify, Hlen. discriminate.
  - now apply Hhex.
Qed.

Lemma ensure_binary_sessionkey_reads_key_witness :
  AuthenticationTools.ensure_binary_sessionkey
    (Some (Codec.b64encode Recorded.sessionkey)) = Ok (Some Recorded.sessionkey)
  /\ AuthenticationTools.ensure_binary_sessionkey
       (Some (Codec.hexlify Recorded.sessionkey)) = Ok (Some Recorded.sessionkey)
  /\ AuthenticationTools.ensure_binary_sessionkey
       (Some "00010203 04050607 08090a0b 0c0d0e0f 10111213 14151617 18191a1b 1c1d1e1f")
     = Ok (Some Recorded.sessionkey).
Proof.
  apply (ensure_binary_sessionkey_reads_key Recorded.sessionkey
           "00010203 04050607 08090a0b 0c0d0e0f 10111213 14151617 18191a1b 1c1d1e1f");
    vm_compute; [reflexivity|reflexivity|discriminate].
Defined.

Lemma a2b_data_quad (c1 c2 c3 c4 : ascii) (rest : string) (leftchar : Z)
    (out : list byte) :
  Codec.is_data c1 = true -> Codec.is_data c2 = true ->
  Codec.is_data c3 = true -> Codec.is_data c4 = true ->
  exists o1 o2 o3,
    Codec.a2b_base64 (String c1 (String c2 (String c3 (String c4 rest))))
      0 leftchar 0 out
    = Codec.a2b_base64 rest 0 0 0 (o3 :: o2 :: o1 :: out).
Proof.
  unfold Codec.is_data. intros H1 H2 H3 H4.
  destruct (Codec.b64_value c1) as [v1|] eqn:E1; [|discriminate].
  destruct (Codec.b64_value c2) as [v2|] eqn:E2; [|discriminate].
  destruct (Codec.b64_value c3) as [v3|] eqn:E3; [|discriminate].
  destruct (Codec.b64_value c4) as [v4|] eqn:E4; [|discriminate].
  apply negb_true_iff in H1, H2, H3, H4.
  cbn [Codec.a2b_base64]. rewrite H1, E1. cbn [Codec.a2b_base64].
  rewrite H2, E2. cbn [Codec.a2b_base64]. rewrite H3, E3.
  cbn [Codec.a2b_base64]. rewrite H4, E4. eauto.
Qed.

Lemma a2b_data_length (m : nat) :
  forall (s : string) (leftchar : Z) (out : list byte),
    String.length s = (4 * m)%nat ->
    Codec.all_chars Codec.is_data s = true ->
    exists bs, Codec.a2b_base64 s 0 leftchar 0 out = Some bs
               /\ length bs = (length out + 3 * m)%nat.
Proof.
  induction m as [|m IH]; intros s leftchar out Hlen Hdata.
  - destruct s; [|discriminate Hlen]. exists (rev out). split; [reflexivity|].
    rewrite length_rev. lia.
  - destruct s as [|c1 [|c2 [|c3 [|c4 rest]]]];
      cbn [String.length] in Hlen; try lia.
    cbn [Codec.all_chars] in Hdata.
    apply andb_prop in Hdata as [D1 Hdata]. apply andb_prop in Hdata as [D2 Hdata].
    apply andb_prop in Hdata as [D3 Hdata]. apply andb_prop in Hdata as [D4 Hdata].
    destruct (a2b_data_quad c1 c2 c3 c4 rest leftchar out D1 D2 D3 D4)
      as (o1 & o2 & o3 & ->).
    destruct (IH rest 0 (o3 :: o2 :: o1 :: out)) as (bs & Hbs & Hl);
      [lia|assumption|].
    exists bs. split; [assumption|]. cbn [length] in Hl. lia.
Qed.

Lemma hexlify_chars (bs : list byte) :
  Codec.all_chars Codec.is_data (Codec.hexlify bs) = true
  /\ Codec.all_chars Codec.is_ascii (Codec.hexlify bs) = true.
Proof.
  induction bs as [|b bs [IH1 IH2]]; [split; reflexivity|].
  cbn [Codec.hexlify Codec.all_chars].
  pose proof (byte_checked b) as Hb. unfold Codec.byte_check in Hb.
  split_checks Hb.
  pose proof (Z.mod_pos_bound (Z_of_byte b) 16 ltac:(lia)) as Hm.
  pose proof (hex_checked (Z_of_byte b / 16) ltac:(lia)) as Hhi.
  pose proof (hex_checked (Z_of_byte b mod 16) ltac:(lia)) as Hlo.
  unfold Codec.hex_check in Hhi, Hlo.
  repeat match goal with
         | H : (_ && _)%bool = true |- _ =>
             let H1 := fresh "Hc" in apply andb_prop in H; destruct H as [H H1]
         end.
  repeat match goal with
         | H : Codec.is_data _ = true |- _ => rewrite H; clear H
         | H : Codec.is_ascii _ = true |- _ => rewrite H; clear H
         end.
  rewrite IH1, IH2. split; reflexivity.
Qed.

(** X9. The 44-character test of [ensure_binary_sessionkey] also catches
    hexadecimal text: the hex spelling of a 22-byte key has 44 characters,
    is decoded as base64 and comes back as 33 bytes, not as the key. *)
Theorem ensure_binary_sessionkey_misreads_hex (key : list byte) :
  length key = 22%nat ->
  exists keybytes,
    AuthenticationTools.ensure_binary_sessionkey (Some (Codec.hexlify key))
    = Ok (Some keybytes)
    /\ length keybytes = 33%nat
    /\ keybytes <> key.
Proof.
  intros Hlen. unfold AuthenticationTools.ensure_binary_sessionkey.
  pose proof (length_hexlify key) as Hl. rewrite Hlen in Hl.
  change (2 * 22)%nat with 44%nat in Hl.
  destruct (hexlify_chars key) as [Hdata Hascii].
  destruct (a2b_data_length 11 (Codec.hexlify key) 0 [] Hl Hdata)
    as (bs & Hbs & Hbl).
  exists bs.
  destruct (Codec.hexlify key) as [|c s] eqn:He; [discriminate Hl|].
  rewrite Hl. cbn [Nat.eqb]. unfold Codec.b64decode. rewrite Hascii, Hbs.
  cbn [length] in Hbl. split; [reflexivity|]. split; [lia|].
  intros ->. lia.
Qed.

Lemma ensure_binary_sessionkey_misreads_hex_witness :
  exists keybytes,
    AuthenticationTools.ensure_binary_sessionkey
      (Some (Codec.hexlify (repeat xab 22)))
    = Ok (Some keybytes)
    /\ length keybytes = 33%nat
    /\ keybytes <> repeat xab 22.
Proof.
  apply (ensure_binary_sessionkey_misreads_hex (repeat xab 22)). reflexivity.
Defined.

(** X10. [ensure_binary_derivedkey] reads a non-empty key back from its
    hexadecimal text, spaces between digits ignored;
    [ensure_binary_context] does the same for a context without spaces,
    and turns an empty or missing context into [None], for which the key
    derivation draws a random one. *)
Theorem ensure_binary_hex_reads_bytes (data : list byte) (spaced : string) :
  data <> [] ->
  Codec.remove_char " " spaced = Codec.hexlify data ->
  AuthenticationTools.ensure_binary_derivedkey (Some spaced) = Ok (Some data)
  /\ AuthenticationTools.ensure_binary_context (Some (Codec.hexlify data))
     = Ok (Some data)
  /\ AuthenticationTools.ensure_binary_context (Some EmptyString) = Ok None
  /\ forall urandom sessionkey,
       fst (Authentication.calculate_derived_key urandom sessionkey None)
       = urandom 24%nat.
Proof.
  intros Hne Hspaced. split; [|split; [|split]].
  - unfold AuthenticationTools.ensure_binary_derivedkey.
    destruct spaced as [|c s].
    + exfalso. cbn in Hspaced. destruct data; [contradiction|discriminate].
    + rewrite Hspaced, unhexlify_hexlify. reflexivity.
  - unfold AuthenticationTools.ensure_binary_context.
    destruct (Codec.hexlify data) as [|c s] eqn:He.
    + exfalso. destruct data; [contradiction|discriminate].
    + rewrite <- He, unhexlify_hexlify. reflexivity.
  - reflexivity.
  - reflexivity.
Qed.

Lemma ensure_binary_hex_reads_bytes_witness :
  AuthenticationTools.ensure_binary_derivedkey (Some "fd86 b182 1bd2")
  = Ok (Some (fromhex "fd86b1821bd2"))
  /\ AuthenticationTools.ensure_binary_context
       (Some (Codec.hexlify (fromhex "fd86b1821bd2")))
     = Ok (Some (fromhex "fd86b1821bd2"))
  /\ AuthenticationTools.ensure_binary_context (Some EmptyString) = Ok None
  /\ forall urandom sessionkey,
       fst (Authentication.calculate_derived_key urandom sessionkey None)
       = urandom 24%nat.
Proof.
  apply (ensure_binary_hex_reads_bytes (fromhex "fd86b1821bd2") "fd86 b182 1bd2").
  - discriminate.
  - vm_compute. reflexivity.
Defined.

(** ** Key blobs, key identifiers and JWKs *)

Section PublicKeys.
Import DeviceAuthentication.

(** What the blob of a well-formed key is made of. *)
Lemma pubkey_blob_parts (key : RSAPublicKey) :
  3 <= pub_e key < pub_n key -> key_size key < 2 ^ 32 ->
  exists eb nb : list byte,
    to_bytes_big (pub_e key) ((bit_length (pub_e key) + 7) / 8) = Ok eb
    /\ to_bytes_big (pub_n key) ((bit_length (pub_n key) + 7) / 8) = Ok nb
    /\ be_value eb = pub_e key /\ be_value nb = pub_n key
    /\ create_pubkey_blob_from_key key = Ok (rsa1_layout (key_size key) eb nb)
    /\ parse_rsa1_blob (rsa1_layout (key_size key) eb nb)
       = Some (pub_e key, pub_n key).
Proof.
  destruct key as [e n]. unfold key_size. cbn [pub_e pub_n]. intros He Hbits.
  destruct (to_bytes_big_minimal e ltac:(lia)) as (eb & Heb & Hel & Hem & _).
  destruct (to_bytes_big_minimal n ltac:(lia)) as (nb & Hnb & Hnl & Hnm & _).
  assert (Hmono : bit_length e <= bit_length n).
  { unfold bit_length.
    destruct (Z.eqb_spec e 0); [lia|]. destruct (Z.eqb_spec n 0); [lia|].
    rewrite !Z.abs_eq by lia. pose proof (Z.log2_le_mono e n ltac:(lia)). lia. }
  assert (0 <= bit_length e).
  { unfold bit_length. destruct (Z.eqb_spec e 0); [lia|].
    pose proof (Z.log2_nonneg (Z.abs e)). lia. }
  assert (Hle : Z.of_nat (length eb) < 2 ^ 32).
  { rewrite Hel. apply Z.div_lt_upper_bound; lia. }
  assert (Hln : Z.of_nat (length nb) < 2 ^ 32).
  { rewrite Hnl. apply Z.div_lt_upper_bound; lia. }
  exists eb, nb. repeat split; try assumption.
  - unfold create_pubkey_blob_from_key, key_size. cbn [pub_e pub_n].
    rewrite Heb, Hnb. cbn [bind].
    rewrite !pack_u32_le_ok by lia. cbn [bind].
    unfold rsa1_layout. cbn [concat].
    rewrite app_nil_r, <- !app_assoc. reflexivity.
  - rewrite parse_rsa1_layout by assumption. now rewrite Hem, Hnm.
Qed.

End PublicKeys.

(** X11. For a well-formed key [get_privkey_kid] returns a string of
    exactly 44 characters: the base64 text of the SHA-256 digest of the
    key's CNG blob, which decodes back to those 32 bytes. *)
Theorem get_privkey_kid_shape (key : DeviceAuthentication.RSAPublicKey) :
  3 <= DeviceAuthentication.pub_e key < DeviceAuthentication.pub_n key ->
  DeviceAuthentication.key_size key < 2 ^ 32 ->
  exists blob kid,
    DeviceAuthentication.create_pubkey_blob_from_key key = Ok blob
    /\ DeviceKeys.get_privkey_kid key = Ok kid
    /\ String.length kid = 44%nat
    /\ Codec.b64decode kid = Some (SHA256.sha256 blob).
Proof.
  intros He Hbits.
  destruct (pubkey_blob_parts key He Hbits)
    as (eb & nb & _ & _ & _ & _ & Hblob & _).
  eexists. eexists. split; [exact Hblob|].
  unfold DeviceKeys.get_privkey_kid. rewrite Hblob. cbn [bind].
  unfold SHA256.finalize, SHA256.update, SHA256.new. cbn [SHA256.fed app].
  split; [reflexivity|]. split.
  - rewrite b64encode_length, length_sha256. reflexivity.
  - apply b64decode_b64encode.
Qed.

Lemma get_privkey_kid_shape_witness :
  exists blob kid,
    DeviceAuthentication.create_pubkey_blob_from_key
      {| DeviceAuthentication.pub_e := 65537;
         DeviceAuthentication.pub_n := 3390046209 |} = Ok blob
    /\ DeviceKeys.get_privkey_kid
         {| DeviceAuthentication.pub_e := 65537;
            DeviceAuthentication.pub_n := 3390046209 |} = Ok kid
    /\ String.length kid = 44%nat
    /\ Codec.b64decode kid = Some (SHA256.sha256 blob).
Proof.
  apply (get_privkey_kid_shape
           {| DeviceAuthentication.pub_e := 65537;
              DeviceAuthentication.pub_n := 3390046209 |}).
  - simpl. lia.
  - vm_compute. reflexivity.
Defined.

(** X12. The [e] and [n] of the JWK of a well-formed key carry its public
    numbers: in the registration form they are standard base64, in the
    general form URL-safe base64 that [get_data] reads, and either way
    the bytes read back are the big-endian exponent and modulus. The
    registration form also has [alg] RS256 and the upper-cased UUID as
    [kid]; the general form has neither. *)
Theorem public_jwk_numbers (fresh_uuid : string)
    (key : DeviceAuthentication.RSAPublicKey) (for_registration : bool) :
  3 <= DeviceAuthentication.pub_e key < DeviceAuthentication.pub_n key ->
  DeviceAuthentication.key_size key < 2 ^ 32 ->
  exists (jwk : gmap string value) (e_text n_text : string) (eb nb : list byte),
    DeviceKeys.public_jwk fresh_uuid key for_registration = Ok jwk
    /\ jwk !! "kty"%string = Some (VStr "RSA")
    /\ jwk !! "e"%string = Some (VStr e_text)
    /\ jwk !! "n"%string = Some (VStr n_text)
    /\ be_value eb = DeviceAuthentication.pub_e key
    /\ be_value nb = DeviceAuthentication.pub_n key
    /\ (if for_registration
        then Codec.b64decode e_text = Some eb
             /\ Codec.b64decode n_text = Some nb
             /\ jwk !! "alg"%string = Some (VStr "RS256")
             /\ jwk !! "kid"%string
                = Some (VStr (Codec.map_string Codec.upper_char fresh_uuid))
        else AuthenticationTools.get_data e_text = Ok eb
             /\ AuthenticationTools.get_data n_text = Ok nb
             /\ jwk !! "alg"%string = None
             /\ jwk !! "kid"%string = None).
Proof.
  intros He Hbits.
  destruct (pubkey_blob_parts key He Hbits)
    as (eb & nb & Heb & Hnb & Hev & Hnv & _ & _).
  unfold DeviceKeys.public_jwk. rewrite Heb, Hnb. cbn [bind].
  destruct for_registration.
  - eexists. exists (Codec.b64encode eb), (Codec.b64encode nb), eb, nb.
    split; [reflexivity|].
    split; [insert_lookup|]. split; [insert_lookup|]. split; [insert_lookup|].
    split; [assumption|]. split; [assumption|].
    split; [apply b64decode_b64encode|].
    split; [apply b64decode_b64encode|].
    split; insert_lookup.
  - eexists.
    exists (Codec.urlsafe_b64encode eb), (Codec.urlsafe_b64encode nb), eb, nb.
    split; [reflexivity|].
    split; [insert_lookup|]. split; [insert_lookup|]. split; [insert_lookup|].
    split; [assumption|]. split; [assumption|].
    rewrite !urlsafe_b64encode_split.
    split; [apply get_data_encoded; lia|].
    split; [apply get_data_encoded; lia|].
    split; insert_lookup.
Qed.

Lemma public_jwk_numbers_witness :
  exists (jwk : gmap string value) (e_text n_text : string) (eb nb : list byte),
    DeviceKeys.public_jwk "7e980ad9-b86d-4306-9425-9ac066fb014a"
      {| DeviceAuthentication.pub_e := 65537;
         DeviceAuthentication.pub_n := 3390046209 |} true = Ok jwk
    /\ jwk !! "kty"%string = Some (VStr "RSA")
    /\ jwk !! "e"%string = Some (VStr e_text)
    /\ jwk !! "n"%string = Some (VStr n_text)
    /\ be_value eb = 65537
    /\ be_value nb = 3390046209
    /\ (Codec.b64decode e_text = Some eb
        /\ Codec.b64decode n_text = Some nb
        /\ jwk !! "alg"%string = Some (VStr "RS256")
        /\ jwk !! "kid"%string
           = Some (VStr (Codec.map_string Codec.upper_char
                           "7e980ad9-b86d-4306-9425-9ac066fb014a"))).
Proof.
  apply (public_jwk_numbers "7e980ad9-b86d-4306-9425-9ac066fb014a"
           {| DeviceAuthentication.pub_e := 65537;
              DeviceAuthentication.pub_n := 3390046209 |} true).
  - simpl. lia.
  - vm_compute. reflexivity.
Defined.

(** X13. The CNG blob determines the key: two well-formed keys with the
    same blob have the same exponent and modulus. *)
Theorem create_pubkey_blob_injective
    (key1 key2 : DeviceAuthentication.RSAPublicKey) :
  3 <= DeviceAuthentication.pub_e key1 < DeviceAuthentication.pub_n key1 ->
  DeviceAuthentication.key_size key1 < 2 ^ 32 ->
  3 <= DeviceAuthentication.pub_e key2 < DeviceAuthentication.pub_n key2 ->
  DeviceAuthentication.key_size key2 < 2 ^ 32 ->
  DeviceAuthentication.create_pubkey_blob_from_key key1
  = DeviceAuthentication.create_pubkey_blob_from_key key2 ->
  key1 = key2.
Proof.
  intros He1 Hb1 He2 Hb2 Hsame.
  destruct (pubkey_blob_parts key1 He1 Hb1)
    as (eb1 & nb1 & _ & _ & _ & _ & Hblob1 & Hparse1).
  destruct (pubkey_blob_parts key2 He2 Hb2)
    as (eb2 & nb2 & _ & _ & _ & _ & Hblob2 & Hparse2).
  assert (Hlayout : DeviceAuthentication.rsa1_layout
                      (DeviceAuthentication.key_size key1) eb1 nb1
                    = DeviceAuthentication.rsa1_layout
                        (DeviceAuthentication.key_size key2) eb2 nb2)
    by congruence.
  rewrite Hlayout, Hparse2 in Hparse1. injection Hparse1 as He Hn.
  destruct key1, key2. cbn in He, Hn. congruence.
Qed.

Lemma create_pubkey_blob_injective_witness :
  {| DeviceAuthentication.pub_e := 65537; DeviceAuthentication.pub_n := 3390046209 |}
  = {| DeviceAuthentication.pub_e := 65537;
       DeviceAuthentication.pub_n := 3390046208 + 1 |}.
Proof.
  apply create_pubkey_blob_injective.
  - simpl. lia.
  - vm_compute. reflexivity.
  - simpl. lia.
  - vm_compute. reflexivity.
  - vm_compute. reflexivity.
Defined.

(** ** The body bytes of the PRT cookie *)

Section DecoderBound.

(** The decoder never yields more than three bytes per four data
    characters. *)
Lemma a2b_length_bound (s : string) :
  forall (quad_pos : nat) (leftchar : Z) (pads : nat) (out r : list byte),
    (quad_pos <= 3)%nat ->
    Codec.a2b_base64 s quad_pos leftchar pads out = Some r ->
    (4 * length r + 4 * (quad_pos - 1)
     <= 3 * (Codec.count_data s + quad_pos) + 4 * length out)%nat.
Proof.
  induction s as [|c s IH]; intros q l p out r Hq Hr.
  - cbn [Codec.a2b_base64] in Hr.
    destruct (Nat.eqb_spec q 0); [|discriminate].
    injection Hr as <-. rewrite length_rev. subst q. cbn. lia.
  - cbn [Codec.a2b_base64 Codec.count_data] in Hr |- *.
    unfold Codec.is_data.
    destruct (Ascii.eqb c "=") eqn:Epad.
    + assert (Hdata : (if match Codec.b64_value c with
                          | Some _ => negb true
                          | None => false
                          end then 1 else 0)%nat = 0%nat)
        by (destruct (Codec.b64_value c); reflexivity).
      rewrite Hdata.
      destruct (Nat.leb_spec 2 q).
      * destruct (Nat.leb_spec 4 (q + S p)).
        -- injection Hr as <-. rewrite length_rev. lia.
        -- specialize (IH _ _ _ _ _ Hq Hr). lia.
      * specialize (IH _ _ _ _ _ Hq Hr). lia.
    + destruct (Codec.b64_value c) as [v|].
      * cbn [negb].
        destruct q as [|[|[|q]]].
        -- specialize (IH 1%nat _ _ _ _ ltac:(lia) Hr). cbn [length] in IH. lia.
        -- specialize (IH 2%nat _ _ _ _ ltac:(lia) Hr). cbn [length] in IH. lia.
        -- specialize (IH 3%nat _ _ _ _ ltac:(lia) Hr). cbn [length] in IH. lia.
        -- specialize (IH 0%nat _ _ _ _ ltac:(lia) Hr). cbn [length] in IH. lia.
      * specialize (IH _ _ _ _ _ Hq Hr). lia.
Qed.

Lemma count_data_append (a b : string) :
  Codec.count_data (a +:+ b) = (Codec.count_data a + Codec.count_data b)%nat.
Proof.
  induction a as [|x a IH]; [reflexivity|].
  rewrite append_cons. cbn [Codec.count_data]. rewrite IH. lia.
Qed.

Lemma count_data_pad (m : nat) : Codec.count_data (str_repeat "=" m) = 0%nat.
Proof.
  induction m as [|m IH]; [reflexivity|].
  cbn [str_repeat]. rewrite append_cons, append_nil. cbn [Codec.count_data].
  rewrite IH. reflexivity.
Qed.

Lemma count_data_le (s : string) : (Codec.count_data s <= String.length s)%nat.
Proof.
  induction s as [|c s IH]; [cbn; lia|].
  cbn [Codec.count_data String.length]. destruct (Codec.is_data c); lia.
Qed.

Lemma count_data_lt (c : ascii) (s : string) :
  Codec.is_data c = false -> Codec.has_char c s = true ->
  (Codec.count_data s < String.length s)%nat.
Proof.
  intros Hc. induction s as [|x s IH]; [discriminate|].
  cbn [Codec.has_char Codec.count_data String.length].
  destruct (Ascii.eqb_spec x c) as [->|_].
  - intros _. rewrite Hc. pose proof (count_data_le s). lia.
  - cbn [orb]. intros Hs. specialize (IH Hs). destruct (Codec.is_data x); lia.
Qed.

Lemma length_map_string (f : ascii -> ascii) (s : string) :
  String.length (Codec.map_string f s) = String.length s.
Proof. induction s as [|c s IH]; cbn; [reflexivity|]. now rewrite IH. Qed.

Lemma length_nopad_bound (bs : list byte) :
  (3 * String.length (Codec.b64encode_nopad bs) <= 4 * length bs + 2)%nat.
Proof.
  induction bs as [|a|a b|a b c rest IH] using list_ind3;
    cbn [Codec.b64encode_nopad String.length length]; lia.
Qed.

(** Text in the URL-safe alphabet that has neither [-] nor [_] is the
    same in the standard alphabet. *)
Lemma to_urlsafe_fixed (s : string) :
  Codec.has_char "-" (Codec.map_string Codec.to_urlsafe s) = false ->
  Codec.has_char "_" (Codec.map_string Codec.to_urlsafe s) = false ->
  Codec.map_string Codec.to_urlsafe s = s.
Proof.
  induction s as [|c s IH]; [reflexivity|].
  cbn [Codec.map_string Codec.has_char]. intros Hm Hu.
  apply orb_false_iff in Hm as [Hm1 Hm2]. apply orb_false_iff in Hu as [Hu1 Hu2].
  rewrite (IH Hm2 Hu2). f_equal.
  unfold Codec.to_urlsafe in Hm1, Hu1 |- *.
  destruct (Ascii.eqb c "+"); [discriminate Hm1|].
  destruct (Ascii.eqb c "/"); [discriminate Hu1|]. reflexivity.
Qed.

(** Read with the standard decoder, padded the way the cookie code pads,
    a URL-safe segment without [-] and [_] gives its bytes back. *)
Lemma standard_decode_of_urlsafe (body : list byte) :
  let jbody := Codec.urlsafe_b64encode_nopad body in
  Codec.has_char "-" jbody = false -> Codec.has_char "_" jbody = false ->
  Codec.b64decode (jbody +:+ str_repeat "=" (String.length jbody mod 4))
  = Some body.
Proof.
  cbv zeta. unfold Codec.urlsafe_b64encode_nopad. intros Hm Hu.
  rewrite (to_urlsafe_fixed _ Hm Hu).
  apply b64decode_encoded.
  pose proof (quirk_padding_suffices body
                (String.length (Codec.b64encode_nopad body)) 0) as Hq.
  rewrite Nat.add_0_r in Hq. cbn [Nat.add] in Hq.
  apply Hq; [apply length_nopad_mod4 | lia].
Qed.

(** With a [-] or a [_] in it, the standard decoder skips those
    characters, and what it returns, if anything, is too short. *)
Lemma standard_decode_of_urlsafe_short (body r : list byte) (m : nat) :
  let jbody := Codec.urlsafe_b64encode_nopad body in
  Codec.has_char "-" jbody || Codec.has_char "_" jbody = true ->
  Codec.b64decode (jbody +:+ str_repeat "=" m) = Some r ->
  (length r < length body)%nat.
Proof.
  cbv zeta. intros Hhas Hr.
  unfold Codec.b64decode in Hr.
  destruct (Codec.all_chars Codec.is_ascii _); [|discriminate].
  apply a2b_length_bound in Hr; [|lia].
  rewrite count_data_append, count_data_pad in Hr. cbn [length] in Hr.
  assert (Hlt : (Codec.count_data (Codec.urlsafe_b64encode_nopad body)
                 < String.length (Codec.urlsafe_b64encode_nopad body))%nat).
  { apply orb_true_iff in Hhas as [Hhas|Hhas].
    - now apply (count_data_lt "-").
    - now apply (count_data_lt "_"). }
  unfold Codec.urlsafe_b64encode_nopad in Hlt at 2.
  rewrite length_map_string in Hlt.
  pose proof (length_nopad_bound body). lia.
Qed.

End DecoderBound.

(** X14. The PRT cookie of [create_prt_cookie_kdf_ver_2] carries its key
    derivation context as the base64 [ctx] header, and when the body
    segment of the trial JWT (the unpadded URL-safe base64 of the body
    bytes) has no [-] and no [_], the cookie is the JWT signed with the
    version 2 derived key of the session key, that context and exactly
    those body bytes. *)
Theorem create_prt_cookie_kdf_ver_2_signs_body
    (jwt_encode : gmap string value -> list byte -> gmap string value
                  -> result string)
    (urandom : nat -> list byte) (iat prt : string) (sessionkey : list byte)
    (nonce : option string) (tempjwt : string) (body : list byte) :
  let context := urandom 24%nat in
  let payload := AuthenticationTools.cookie_payload prt nonce iat in
  let headers := AuthenticationTools.cookie_headers context in
  jwt_encode payload (urandom 32%nat) headers = Ok tempjwt ->
  index (split "." tempjwt) 1 = Ok (Codec.urlsafe_b64encode_nopad body) ->
  Codec.has_char "-" (Codec.urlsafe_b64encode_nopad body) = false ->
  Codec.has_char "_" (Codec.urlsafe_b64encode_nopad body) = false ->
  AuthenticationTools.create_prt_cookie_kdf_ver_2
    jwt_encode urandom iat prt sessionkey nonce
  = jwt_encode payload
      (snd (Authentication.calculate_derived_key_v2
              urandom sessionkey context body))
      headers
  /\ exists ctx : string,
       headers !! "ctx"%string = Some (VStr ctx)
       /\ Codec.b64decode ctx = Some context.
Proof.
  cbv zeta. intros Htemp Hseg Hm Hu. split.
  - unfold AuthenticationTools.create_prt_cookie_kdf_ver_2.
    rewrite Htemp. cbn [bind].
    unfold AuthenticationTools.jwt_body_bytes. rewrite Hseg. cbn [bind].
    rewrite (standard_decode_of_urlsafe body Hm Hu). reflexivity.
  - exists (Codec.b64encode (urandom 24%nat)). split.
    + unfold AuthenticationTools.cookie_headers. insert_lookup.
    + apply b64decode_b64encode.
Qed.

(** X15. When that body segment does have a [-] or a [_], the standard
    decoder the code uses skips them: building the cookie either fails
    with [binascii.Error] or signs with a key derived from bytes that
    are fewer than the body bytes, never from the body itself. *)
Theorem create_prt_cookie_kdf_ver_2_other_body
    (jwt_encode : gmap string value -> list byte -> gmap string value
                  -> result string)
    (urandom : nat -> list byte) (iat prt : string) (sessionkey : list byte)
    (nonce : option string) (tempjwt : string) (body : list byte) :
  let context := urandom 24%nat in
  let payload := AuthenticationTools.cookie_payload prt nonce iat in
  let headers := AuthenticationTools.cookie_headers context in
  jwt_encode payload (urandom 32%nat) headers = Ok tempjwt ->
  index (split "." tempjwt) 1 = Ok (Codec.urlsafe_b64encode_nopad body) ->
  Codec.has_char "-" (Codec.urlsafe_b64encode_nopad body)
  || Codec.has_char "_" (Codec.urlsafe_b64encode_nopad body) = true ->
  AuthenticationTools.create_prt_cookie_kdf_ver_2
    jwt_encode urandom iat prt sessionkey nonce
  = Raise BinasciiError
  \/ exists other : list byte,
       (length other < length body)%nat
       /\ AuthenticationTools.create_prt_cookie_kdf_ver_2
            jwt_encode urandom iat prt sessionkey nonce
          = jwt_encode payload
              (snd (Authentication.calculate_derived_key_v2
                      urandom sessionkey context other))
              headers.
Proof.
  cbv zeta. intros Htemp Hseg Hhas.
  unfold AuthenticationTools.create_prt_cookie_kdf_ver_2.
  rewrite Htemp. cbn [bind].
  unfold AuthenticationTools.jwt_body_bytes. rewrite Hseg. cbn [bind].
  destruct (Codec.b64decode _) as [other|] eqn:Hother.
  - right. exists other. split; [|reflexivity].
    exact (standard_decode_of_urlsafe_short body other _ Hhas Hother).
  - left. reflexivity.
Qed.

Lemma create_prt_cookie_kdf_ver_2_signs_body_witness :
  AuthenticationTools.create_prt_cookie_kdf_ver_2
    RecordedJWT.jwt_encode (fun n => repeat x00 n) "1700000000" "0.AQ"
    Recorded.sessionkey (Some "n1"%string)
  = RecordedJWT.jwt_encode
      (AuthenticationTools.cookie_payload "0.AQ" (Some "n1"%string) "1700000000")
      (snd (Authentication.calculate_derived_key_v2
              (fun n => repeat x00 n) Recorded.sessionkey (repeat x00 24)
              RecordedJWT.payload_plain))
      (AuthenticationTools.cookie_headers (repeat x00 24))
  /\ exists ctx : string,
       AuthenticationTools.cookie_headers (repeat x00 24) !! "ctx"%string
       = Some (VStr ctx)
       /\ Codec.b64decode ctx = Some (repeat x00 24).
Proof.
  apply (create_prt_cookie_kdf_ver_2_signs_body
           RecordedJWT.jwt_encode (fun n => repeat x00 n) "1700000000" "0.AQ"
           Recorded.sessionkey (Some "n1"%string)
           (RecordedJWT.compact_hs256 RecordedJWT.header_json
              RecordedJWT.payload_plain (repeat x00 32))
           RecordedJWT.payload_plain).
  - vm_compute. reflexivity.
  - vm_compute. reflexivity.
  - vm_compute. reflexivity.
  - vm_compute. reflexivity.
Defined.

Lemma create_prt_cookie_kdf_ver_2_other_body_witness :
  AuthenticationTools.create_prt_cookie_kdf_ver_2
    RecordedJWT.jwt_encode (fun n => repeat x00 n) "1700000000" "0.~Q"
    Recorded.sessionkey (Some "n1"%string)
  = Raise BinasciiError
  \/ exists other : list byte,
       (length other < length RecordedJWT.payload_tilde)%nat
       /\ AuthenticationTools.create_prt_cookie_kdf_ver_2
            RecordedJWT.jwt_encode (fun n => repeat x00 n) "1700000000" "0.~Q"
            Recorded.sessionkey (Some "n1"%string)
          = RecordedJWT.jwt_encode
              (AuthenticationTools.cookie_payload
                 "0.~Q" (Some "n1"%string) "1700000000")
              (snd (Authentication.calculate_derived_key_v2
                      (fun n => repeat x00 n) Recorded.sessionkey
                      (repeat x00 24) other))
              (AuthenticationTools.cookie_headers (repeat x00 24)).
Proof.
  apply (create_prt_cookie_kdf_ver_2_other_body
           RecordedJWT.jwt_encode (fun n => repeat x00 n) "1700000000" "0.~Q"
           Recorded.sessionkey (Some "n1"%string)
           (RecordedJWT.compact_hs256 RecordedJWT.header_json
              RecordedJWT.payload_tilde (repeat x00 32))
           RecordedJWT.payload_tilde).
  - vm_compute. reflexivity.
  - vm_compute. reflexivity.
  - vm_compute. reflexivity.
Defined.

(** ** The authorize URL *)

Section AuthorizeUrl.

Lemma quote_checked (b : byte) : Codec.quote_check (Z_of_byte b) = true.
Proof.
  apply (range_forall 256 Codec.quote_check); [vm_compute; reflexivity|].
  apply Z_of_byte_range.
Qed.

Lemma count_char_append (c : ascii) (a b : string) :
  Codec.count_char c (a +:+ b)
  = (Codec.count_char c a + Codec.count_char c b)%nat.
Proof.
  induction a as [|x a IH]; [reflexivity|].
  rewrite append_cons. cbn [Codec.count_char]. rewrite IH. lia.
Qed.

(** [quote_plus] leaves none of the characters that structure a URL. *)
Lemma quote_plus_reserved (c : ascii) (s : string) :
  In c ["&"; "?"; "#"; "="; "/"; " "]%char ->
  Codec.count_char c (Codec.quote_plus s) = 0%nat.
Proof.
  intros Hc. unfold Codec.quote_plus.
  induction (encode_utf8 s) as [|b bs IH]; [reflexivity|].
  cbn [fold_right]. rewrite count_char_append, IH, Nat.add_0_r.
  pose proof (quote_checked b) as Hb. unfold Codec.quote_check in Hb.
  rewrite byte_of_Z_of_byte in Hb. cbv zeta in Hb.
  repeat (apply andb_prop in Hb; destruct Hb as [Hb ?]).
  repeat match goal with
         | H : (_ =? _)%nat = true |- _ => apply Nat.eqb_eq in H
         end.
  cbn [In] in Hc.
  repeat (destruct Hc as [<-|Hc]; [assumption|]). destruct Hc.
Qed.

End AuthorizeUrl.

Ltac count_url c :=
  rewrite !count_char_append;
  rewrite !(quote_plus_reserved c) by (cbn [In]; tauto);
  reflexivity.

(** X16. Whatever the client id, tenant, resource, scope, redirect URL,
    response type and state are, the URL of [build_auth_url] has exactly
    one [?], four [&] and five [=] (five parameters), no [#] and no
    space, and the slashes of its fixed path only: six on the v2
    endpoint, chosen when a scope is given, five on the v1 endpoint. *)
Theorem build_auth_url_shape (fresh_state client_id resource_uri : string)
    (tenant : option string) (redirurl response_type : string)
    (scope state : option string) :
  let url :=
    AuthenticationTools.build_auth_url fresh_state client_id resource_uri
      tenant redirurl response_type scope state in
  Codec.count_char "?" url = 1%nat
  /\ Codec.count_char "&" url = 4%nat
  /\ Codec.count_char "=" url = 5%nat
  /\ Codec.count_char "#" url = 0%nat
  /\ Codec.count_char " " url = 0%nat
  /\ Codec.count_char "/" url
     = match scope with
       | Some (String _ _) => 6%nat
       | _ => 5%nat
       end.
Proof.
  cbv zeta. unfold AuthenticationTools.build_auth_url.
  destruct scope as [[|c cs]|];
    (split; [count_url "?"%char|]); (split; [count_url "&"%char|]);
    (split; [count_url "="%char|]); (split; [count_url "#"%char|]);
    (split; [count_url " "%char | count_url "/"%char]).
Qed.

(** ** Reading tokens *)

Section Segments.

Lemma split_no_sep (s : string) :
  Codec.has_char "." s = false -> split "." s = [s].
Proof.
  induction s as [|c s IH]; [reflexivity|].
  cbn [Codec.has_char split]. intros H.
  apply orb_false_iff in H as [Hc Hs]. rewrite Hc, (IH Hs). reflexivity.
Qed.

Lemma split_sep (a rest : string) :
  Codec.has_char "." a = false ->
  split "." (a +:+ String "." rest) = a :: split "." rest.
Proof.
  induction a as [|c a IH].
  - intros _. rewrite append_nil. reflexivity.
  - cbn [Codec.has_char]. intros H. apply orb_false_iff in H as [Hc Ha].
    rewrite append_cons. cbn [split]. rewrite Hc, (IH Ha). reflexivity.
Qed.

Lemma has_char_append (c : ascii) (a b : string) :
  Codec.has_char c (a +:+ b) = Codec.has_char c a || Codec.has_char c b.
Proof.
  induction a as [|x a IH]; [reflexivity|].
  rewrite append_cons. cbn [Codec.has_char]. rewrite IH. apply orb_assoc.
Qed.

Lemma has_dot_pad (m : nat) : Codec.has_char "." (str_repeat "=" m) = false.
Proof.
  induction m as [|m IH]; [reflexivity|].
  cbn [str_repeat]. rewrite append_cons, append_nil. exact IH.
Qed.

Lemma append_empty_r (s : string) : s +:+ EmptyString = s.
Proof.
  induction s as [|c s IH]; [reflexivity|]. rewrite append_cons. now rewrite IH.
Qed.

Lemma get_data_nopad (bs : list byte) :
  AuthenticationTools.get_data (Codec.urlsafe_b64encode_nopad bs) = Ok bs.
Proof.
  pose proof (get_data_encoded bs 0 ltac:(lia)) as H.
  cbn [str_repeat] in H. now rewrite append_empty_r in H.
Qed.

End Segments.

(** X17. [parse_accesstoken] reads the claims of any token whose second
    segment is the URL-safe base64 of a JSON object, padded or not. With
    an [exp] claim in range the record has the token itself, the type
    Bearer, the expiry as local time text, and [tenantId] and [_clientId]
    from [tid] and [appid], present with the value [None] when the claim
    is absent; without an [exp] claim the call raises [KeyError]. *)
Theorem parse_accesstoken_reads_claims
    (json_loads : list byte -> option value) (datetime : Type)
    (fromtimestamp : Z -> option datetime)
    (fromtimestamp_float : string -> option datetime)
    (strftime : datetime -> string -> string)
    (token : string) (raw : list byte) (j : nat) (claims : gmap string value) :
  index (split "." token) 1
  = Ok (Codec.urlsafe_b64encode_nopad raw +:+ str_repeat "=" j) ->
  (j <= Codec.padding raw)%nat ->
  json_loads raw = Some (VDict claims) ->
  (claims !! "exp"%string = None ->
   AuthenticationTools.parse_accesstoken
     json_loads datetime fromtimestamp fromtimestamp_float strftime token
   = Raise (KeyError "exp"))
  /\ (forall (exp : Z) (dt : datetime),
        claims !! "exp"%string = Some (VInt exp) ->
        fromtimestamp exp = Some dt ->
        AuthenticationTools.parse_accesstoken
          json_loads datetime fromtimestamp fromtimestamp_float strftime token
        = Ok ({[ "accessToken"%string := VStr token;
                 "tokenType"%string := VStr "Bearer";
                 "expiresOn"%string := VStr (strftime dt "%Y-%m-%d %H:%M:%S");
                 "tenantId"%string := default VNone (claims !! "tid"%string);
                 "_clientId"%string := default VNone (claims !! "appid"%string) ]},
              VDict claims)).
Proof.
  intros Hseg Hj Hjson.
  unfold AuthenticationTools.parse_accesstoken.
  rewrite Hseg. cbn [bind].
  rewrite (get_data_encoded raw j Hj). cbn [bind].
  rewrite Hjson. cbn [or_raise bind subscript].
  split.
  - intros Hexp. unfold getitem. rewrite Hexp. reflexivity.
  - intros exp dt Hexp Hdt. unfold getitem. rewrite Hexp.
    cbn [or_raise bind AuthenticationTools.fromtimestamp_value].
    rewrite Hdt. reflexivity.
Qed.

Lemma parse_accesstoken_reads_claims_witness :
  (({[ "tid"%string := VStr "T1"; "appid"%string := VStr "A1";
       "exp"%string := VInt 1700003600 ]} : gmap string value) !! "exp"%string
   = None ->
   AuthenticationTools.parse_accesstoken
     Recorded.json_loads Z Recorded.fromtimestamp (fun _ => None)
     Recorded.strftime Recorded.access_token
   = Raise (KeyError "exp"))
  /\ (forall (exp : Z) (dt : Z),
        ({[ "tid"%string := VStr "T1"; "appid"%string := VStr "A1";
            "exp"%string := VInt 1700003600 ]} : gmap string value)
          !! "exp"%string = Some (VInt exp) ->
        Recorded.fromtimestamp exp = Some dt ->
        AuthenticationTools.parse_accesstoken
          Recorded.json_loads Z Recorded.fromtimestamp (fun _ => None)
          Recorded.strftime Recorded.access_token
        = Ok ({[ "accessToken"%string := VStr Recorded.access_token;
                 "tokenType"%string := VStr "Bearer";
                 "expiresOn"%string
                   := VStr (Recorded.strftime dt "%Y-%m-%d %H:%M:%S");
                 "tenantId"%string
                   := default VNone
                        (({[ "tid"%string := VStr "T1";
                             "appid"%string := VStr "A1";
                             "exp"%string := VInt 1700003600 ]}
                          : gmap string value) !! "tid"%string);
                 "_clientId"%string
                   := default VNone
                        (({[ "tid"%string := VStr "T1";
                             "appid"%string := VStr "A1";
                             "exp"%string := VInt 1700003600 ]}
                          : gmap string value) !! "appid"%string) ]},
              VDict {[ "tid"%string := VStr "T1"; "appid"%string := VStr "A1";
                       "exp"%string := VInt 1700003600 ]})).
Proof.
  apply (parse_accesstoken_reads_claims
           Recorded.json_loads Z Recorded.fromtimestamp (fun _ => None)
           Recorded.strftime Recorded.access_token Recorded.claims_json 0).
  - vm_compute. reflexivity.
  - vm_compute. lia.
  - vm_compute. reflexivity.
Defined.

(** X18. [tokenreply_to_tokendata] reads the claims of the access token
    with the standard base64 decoder. When the payload segment has no
    [-] and no [_] it reads the payload bytes; when it has one, those
    characters are skipped, and the call either raises [binascii.Error]
    or parses fewer bytes than the payload has. *)
Theorem access_token_claims_standard_alphabet
    (json_loads : list byte -> option value)
    (tokenreply : gmap string value) (token : string) (raw : list byte) :
  tokenreply !! "access_token"%string = Some (VStr token) ->
  index (split "." token) 1 = Ok (Codec.urlsafe_b64encode_nopad raw) ->
  (Codec.has_char "-" (Codec.urlsafe_b64encode_nopad raw) = false ->
   Codec.has_char "_" (Codec.urlsafe_b64encode_nopad raw) = false ->
   Authentication.access_token_claims Codec.b64decode json_loads tokenreply
   = or_raise JSONDecodeError (json_loads raw))
  /\ (Codec.has_char "-" (Codec.urlsafe_b64encode_nopad raw)
      || Codec.has_char "_" (Codec.urlsafe_b64encode_nopad raw) = true ->
      Authentication.access_token_claims Codec.b64decode json_loads tokenreply
      = Raise BinasciiError
      \/ exists other : list byte,
           (length other < length raw)%nat
           /\ Authentication.access_token_claims
                Codec.b64decode json_loads tokenreply
              = or_raise JSONDecodeError (json_loads other)).
Proof.
  intros Htoken Hseg.
  unfold Authentication.access_token_claims, getitem.
  rewrite Htoken. cbn [or_raise bind Authentication.str_split].
  rewrite Hseg. cbn [bind].
  split.
  - intros Hm Hu. rewrite (standard_decode_of_urlsafe raw Hm Hu). reflexivity.
  - intros Hhas.
    destruct (Codec.b64decode _) as [other|] eqn:Hother.
    + right. exists other. split; [|reflexivity].
      exact (standard_decode_of_urlsafe_short raw other _ Hhas Hother).
    + left. reflexivity.
Qed.

Lemma access_token_claims_standard_alphabet_witness :
  (Codec.has_char "-" (Codec.urlsafe_b64encode_nopad RecordedJWT.payload_tilde)
   = false ->
   Codec.has_char "_" (Codec.urlsafe_b64encode_nopad RecordedJWT.payload_tilde)
   = false ->
   Authentication.access_token_claims Codec.b64decode Recorded.json_loads
     {[ "access_token"%string :=
          VStr ("h." +:+ Codec.urlsafe_b64encode_nopad RecordedJWT.payload_tilde
                +:+ ".s") ]}
   = or_raise JSONDecodeError (Recorded.json_loads RecordedJWT.payload_tilde))
  /\ (Codec.has_char "-" (Codec.urlsafe_b64encode_nopad RecordedJWT.payload_tilde)
      || Codec.has_char "_"
           (Codec.urlsafe_b64encode_nopad RecordedJWT.payload_tilde) = true ->
      Authentication.access_token_claims Codec.b64decode Recorded.json_loads
        {[ "access_token"%string :=
             VStr ("h." +:+ Codec.urlsafe_b64encode_nopad
                              RecordedJWT.payload_tilde +:+ ".s") ]}
      = Raise BinasciiError
      \/ exists other : list byte,
           (length other < length RecordedJWT.payload_tilde)%nat
           /\ Authentication.access_token_claims
                Codec.b64decode Recorded.json_loads
                {[ "access_token"%string :=
                     VStr ("h." +:+ Codec.urlsafe_b64encode_nopad
                                      RecordedJWT.payload_tilde +:+ ".s") ]}
              = or_raise JSONDecodeError (Recorded.json_loads other)).
Proof.
  apply (access_token_claims_standard_alphabet Recorded.json_loads
           {[ "access_token"%string :=
                VStr ("h." +:+ Codec.urlsafe_b64encode_nopad
                                 RecordedJWT.payload_tilde +:+ ".s") ]}
           ("h." +:+ Codec.urlsafe_b64encode_nopad RecordedJWT.payload_tilde
            +:+ ".s")
           RecordedJWT.payload_tilde).
  - vm_compute. reflexivity.
  - vm_compute. reflexivity.
Defined.

(** X19. [ensure_plain_prt] gives [None] for no PRT and for the empty
    string, leaves a PRT that has a [.] as it is, and decodes any other
    one: the standard base64 of non-empty UTF-8 text, with all, some or
    none of its padding, comes back as that text. *)
Theorem ensure_plain_prt_decodes (decode_utf8 : list byte -> option string)
    (bs : list byte) (j : nat) (text : string) :
  bs <> [] -> (j <= Codec.padding bs)%nat ->
  decode_utf8 bs = Some text ->
  AuthenticationTools.ensure_plain_prt decode_utf8
    (Some (Codec.b64encode_nopad bs +:+ str_repeat "=" j))
  = Ok (Some text)
  /\ (forall prt : string,
        Codec.has_char "." prt = true ->
        AuthenticationTools.ensure_plain_prt decode_utf8 (Some prt)
        = Ok (Some prt))
  /\ AuthenticationTools.ensure_plain_prt decode_utf8 None = Ok None
  /\ AuthenticationTools.ensure_plain_prt decode_utf8 (Some EmptyString)
     = Ok None.
Proof.
  intros Hne Hj Htext. split; [|split; [|split; reflexivity]].
  - unfold AuthenticationTools.ensure_plain_prt.
    destruct (Codec.b64encode_nopad bs +:+ str_repeat "=" j) as [|c s] eqn:Hprt.
    + exfalso. apply Hne.
      destruct bs as [|a [|b [|d rest]]]; [reflexivity| | |];
        cbn [Codec.b64encode_nopad] in Hprt; rewrite append_cons in Hprt;
        discriminate Hprt.
    + rewrite <- Hprt.
      destruct (nopad_chars bs) as (_ & _ & _ & Hdot & _).
      rewrite has_char_append, Hdot, has_dot_pad. cbn [orb negb].
      rewrite append_assoc, <- str_repeat_add.
      rewrite b64decode_encoded.
      * cbn [or_raise bind]. rewrite Htext. reflexivity.
      * rewrite length_append, length_pad.
        apply quirk_padding_suffices; [|assumption].
        apply length_nopad_mod4.
  - intros prt Hdot. unfold AuthenticationTools.ensure_plain_prt.
    destruct prt as [|c s]; [discriminate Hdot|]. rewrite Hdot. reflexivity.
Qed.

Lemma ensure_plain_prt_decodes_witness :
  AuthenticationTools.ensure_plain_prt (fun bs => Some (string_of_bytes bs))
    (Some (Codec.b64encode_nopad (of_string "0.AQ") +:+ str_repeat "=" 0))
  = Ok (Some "0.AQ"%string)
  /\ (forall prt : string,
        Codec.has_char "." prt = true ->
        AuthenticationTools.ensure_plain_prt
          (fun bs => Some (string_of_bytes bs)) (Some prt)
        = Ok (Some prt))
  /\ AuthenticationTools.ensure_plain_prt
       (fun bs => Some (string_of_bytes bs)) None = Ok None
  /\ AuthenticationTools.ensure_plain_prt
       (fun bs => Some (string_of_bytes bs)) (Some EmptyString) = Ok None.
Proof.
  apply (ensure_plain_prt_decodes (fun bs => Some (string_of_bytes bs))
           (of_string "0.AQ") 0 "0.AQ").
  - discriminate.
  - vm_compute. lia.
  - vm_compute. reflexivity.
Defined.

(** X20. [parse_jwt] reads back a compact JWT: for header and body bytes
    that are JSON and any signature bytes, joined as unpadded URL-safe
    base64 segments, it returns the two parsed documents and the
    signature bytes. *)
Theorem parse_jwt_reads_compact (json_loads : list byte -> option value)
    (header body signature : list byte) (header_doc body_doc : value) :
  json_loads header = Some header_doc ->
  json_loads body = Some body_doc ->
  AuthenticationTools.parse_jwt json_loads
    (Codec.urlsafe_b64encode_nopad header +:+ "."
       +:+ Codec.urlsafe_b64encode_nopad body +:+ "."
       +:+ Codec.urlsafe_b64encode_nopad signature)
  = Ok (header_doc, body_doc, signature).
Proof.
  intros Hh Hb. unfold AuthenticationTools.parse_jwt.
  destruct (nopad_chars header) as (_ & _ & _ & _ & Hdh).
  destruct (nopad_chars body) as (_ & _ & _ & _ & Hdb).
  destruct (nopad_chars signature) as (_ & _ & _ & _ & Hds).
  rewrite !append_cons, !append_nil.
  rewrite (split_sep _ _ Hdh), (split_sep _ _ Hdb), (split_no_sep _ Hds).
  unfold index. cbn [nth_error or_raise bind].
  rewrite !get_data_nopad. cbn [bind]. rewrite Hh, Hb. reflexivity.
Qed.

Lemma parse_jwt_reads_compact_witness :
  AuthenticationTools.parse_jwt Recorded.json_loads
    (Codec.urlsafe_b64encode_nopad Recorded.token_json +:+ "."
       +:+ Codec.urlsafe_b64encode_nopad Recorded.claims_json +:+ "."
       +:+ Codec.urlsafe_b64encode_nopad Recorded.sessionkey)
  = Ok (Recorded.token_value,
        VDict {[ "tid"%string := VStr "T1"; "appid"%string := VStr "A1";
                 "exp"%string := VInt 1700003600 ]},
        Recorded.sessionkey).
Proof.
  apply (parse_jwt_reads_compact Recorded.json_loads).
  - vm_compute. reflexivity.
  - vm_compute. reflexivity.
Defined.

(** ** decrypt_auth_response on a compact JWE *)

Section Padding.
Import Authentication.

Lemma byte_to_nat (b : byte) : Z.to_nat (Z_of_byte b) = Byte.to_nat b.
Proof. destruct b; reflexivity. Qed.

Lemma all_equal_repeat (b : byte) (l : list byte) :
  forallb (fun x => bool_decide (x = b)) l = true -> l = repeat b (length l).
Proof.
  induction l as [|x l IH]; [reflexivity|].
  cbn [forallb length repeat]. intros H. apply andb_prop in H as [Hx Hl].
  apply bool_decide_eq_true in Hx. subst x. f_equal. now apply IH.
Qed.

Lemma repeat_all_equal (b : byte) (n : nat) :
  forallb (fun x => bool_decide (x = b)) (repeat b n) = true.
Proof.
  induction n as [|n IH]; [reflexivity|].
  cbn [repeat forallb]. rewrite IH, bool_decide_eq_true_2; reflexivity.
Qed.

(** What [pkcs7_unpad] accepts is data of whole blocks that ends in
    [p] bytes of value [p], for [p] from 1 to 16; it strips them. *)
Lemma pkcs7_unpad_padded (pt : list byte) (b : byte) :
  (1 <= Byte.to_nat b <= 16)%nat ->
  ((length pt + Byte.to_nat b) mod 16 = 0)%nat ->
  pkcs7_unpad (pt ++ repeat b (Byte.to_nat b)) = Ok pt.
Proof.
  intros Hp Hlen. unfold pkcs7_unpad.
  destruct (Byte.to_nat b) as [|k] eqn:Hk; [lia|].
  assert (Hrev : rev (pt ++ repeat b (S k)) = b :: rev (pt ++ repeat b k)).
  { cbn [repeat]. rewrite repeat_cons, app_assoc, rev_unit. reflexivity. }
  rewrite Hrev, byte_to_nat, Hk.
  rewrite length_app, repeat_length.
  replace (length pt + S k - S k)%nat with (length pt) by lia.
  rewrite drop_app_length, take_app_length, repeat_all_equal.
  apply Nat.eqb_eq in Hlen. rewrite Hlen.
  destruct (Nat.leb_spec 1 (S k)); [|lia].
  destruct (Nat.leb_spec (S k) 16); [|lia]. reflexivity.
Qed.

Lemma pkcs7_unpad_Ok (data pt : list byte) :
  pkcs7_unpad data = Ok pt ->
  exists b : byte,
    data = pt ++ repeat b (Byte.to_nat b)
    /\ (1 <= Byte.to_nat b <= 16)%nat /\ (length data mod 16 = 0)%nat.
Proof.
  unfold pkcs7_unpad.
  destruct (rev data) as [|last front] eqn:Hrev; [discriminate|].
  rewrite byte_to_nat.
  destruct (_ && _) eqn:Hcheck; [|discriminate].
  intros [= <-].
  apply andb_prop in Hcheck as [Hcheck Hsame].
  apply andb_prop in Hcheck as [Hcheck Hhi].
  apply andb_prop in Hcheck as [Hblocks Hlo].
  apply Nat.eqb_eq in Hblocks. apply Nat.leb_le in Hlo, Hhi.
  assert (Hlong : (16 <= length data)%nat).
  { assert (length data <> 0)%nat.
    { intros H0. apply length_zero_iff_nil in H0. subst data. discriminate Hrev. }
    pose proof (Nat.div_mod_eq (length data) 16). lia. }
  exists last. split; [|split; [lia|assumption]].
  apply all_equal_repeat in Hsame.
  rewrite length_skipn in Hsame.
  replace (length data - (length data - Byte.to_nat last))%nat
    with (Byte.to_nat last) in Hsame by lia.
  rewrite <- Hsame. symmetry. apply firstn_skipn.
Qed.

Lemma pkcs7_unpad_Raise (data : list byte) (e : exn) :
  pkcs7_unpad data = Raise e -> e = ValueError.
Proof.
  unfold pkcs7_unpad. destruct (rev data); [congruence|].
  destruct (_ && _); congruence.
Qed.

End Padding.

Section CompactJWE.
Import Authentication.

(** The UTF-8 bytes of ASCII text are its characters. *)
Lemma byte_of_code (c : ascii) :
  byte_of_Z (Z.of_nat (nat_of_ascii c)) = byte_of_ascii c.
Proof. destruct c as [[] [] [] [] [] [] [] []]; reflexivity. Qed.

Lemma encode_utf8_ascii (s : string) :
  Codec.all_chars Codec.is_ascii s = true ->
  encode_utf8 s = map byte_of_ascii (list_ascii_of_string s).
Proof.
  induction s as [|c s IH]; [reflexivity|].
  cbn [Codec.all_chars encode_utf8 list_ascii_of_string map].
  intros H. apply andb_prop in H as [Hc Hs]. rewrite (IH Hs).
  unfold Codec.is_ascii in Hc. apply Nat.ltb_lt in Hc.
  destruct (Z.ltb_spec (Z.of_nat (nat_of_ascii c)) 128); [|lia].
  cbn [app]. now rewrite byte_of_code.
Qed.

(** No base64 character is an opening brace. *)
Lemma b64_char_not_brace (s : Z) :
  0 <= s < 64 -> Ascii.eqb (Codec.to_urlsafe (Codec.b64_char s)) "{" = false.
Proof.
  intros Hs.
  apply negb_true_iff.
  apply (range_forall 64
           (fun s => negb (Ascii.eqb (Codec.to_urlsafe (Codec.b64_char s)) "{")));
    [vm_compute; reflexivity | assumption].
Qed.

Lemma compact_not_plain (bs : list byte) (rest : string) :
  bs <> [] ->
  String.eqb (substring 0 2 (Codec.urlsafe_b64encode_nopad bs +:+ rest))
    brace_quote = false.
Proof.
  intros Hne. destruct bs as [|a tail]; [contradiction|].
  pose proof (byte_checked a) as Ha. unfold Codec.byte_check in Ha.
  split_checks Ha.
  assert (Hfirst : exists s, Codec.urlsafe_b64encode_nopad (a :: tail)
                   = String (Codec.to_urlsafe (Codec.b64_char (Codec.sextet1 a))) s).
  { unfold Codec.urlsafe_b64encode_nopad.
    destruct tail as [|b [|c more]]; cbn; eauto. }
  destruct Hfirst as [s ->]. rewrite append_cons.
  unfold brace_quote.
  destruct (s +:+ rest) as [|c2 r]; cbn [substring String.eqb].
  - rewrite b64_char_not_brace; [reflexivity | unfold Codec.sextet1; lia].
  - rewrite b64_char_not_brace; [reflexivity | unfold Codec.sextet1; lia].
Qed.

Variable json_loads : list byte -> option value.
Variable json_loads_str : string -> option value.
Variable aesgcm_decrypt : list byte -> list byte -> list byte -> list byte
                          -> option (list byte).
Variable aes_cbc : list byte -> list byte -> option (list byte -> option (list byte)).

(** The call on five segments, of which the header, the iv and the
    ciphertext are unpadded URL-safe base64. *)
Lemma decrypt_compact (urandom urandom' : nat -> list byte)
    (sessionkey : list byte) (asjson : bool)
    (rawheader : list byte) (header : gmap string value) (ctx : string)
    (context : list byte) (enckey tagtext : string) (ivbytes ct : list byte) :
  rawheader <> [] ->
  Codec.has_char "." enckey = false ->
  Codec.has_char "." tagtext = false ->
  json_loads rawheader = Some (VDict header) ->
  header !! "ctx"%string = Some (VStr ctx) ->
  Codec.b64decode ctx = Some context ->
  context <> [] ->
  decrypt_auth_response Codec.b64decode Codec.urlsafe_b64decode
    json_loads json_loads_str aesgcm_decrypt aes_cbc urandom
    (Codec.urlsafe_b64encode_nopad rawheader +:+ "." +:+ enckey +:+ "."
       +:+ Codec.urlsafe_b64encode_nopad ivbytes +:+ "."
       +:+ Codec.urlsafe_b64encode_nopad ct +:+ "." +:+ tagtext)
    sessionkey asjson
  = let derived_key :=
      snd (calculate_derived_key urandom' sessionkey (Some context)) in
    let* depadded_data :=
      if (length ivbytes =? 12)%nat
      then
        let* tag := AuthenticationTools.get_data tagtext in
        or_raise InvalidTag
          (aesgcm_decrypt derived_key ivbytes (ct ++ tag)
             (map byte_of_ascii
                (list_ascii_of_string
                   (Codec.urlsafe_b64encode_nopad rawheader))))
      else
        let* decryptor := or_raise ValueError (aes_cbc derived_key ivbytes) in
        let* decrypted_data := or_raise ValueError (decryptor ct) in
        pkcs7_unpad decrypted_data
    in as_requested json_loads asjson depadded_data.
Proof.
  intros Hne Henc Htag Hjson Hctx Hdec Hcontext.
  destruct (nopad_chars rawheader) as (_ & Hascii & _ & _ & Hd0).
  destruct (nopad_chars ivbytes) as (_ & _ & _ & _ & Hd2).
  destruct (nopad_chars ct) as (_ & _ & _ & _ & Hd3).
  rewrite (decrypt_jwe Codec.b64decode Codec.urlsafe_b64decode
             json_loads json_loads_str aesgcm_decrypt aes_cbc
             urandom _ sessionkey asjson
             (Codec.urlsafe_b64encode_nopad rawheader) enckey
             (Codec.urlsafe_b64encode_nopad ivbytes)
             (Codec.urlsafe_b64encode_nopad ct) tagtext []
             (VDict header) context ivbytes).
  - cbv zeta.
    rewrite (derived_key_supplied_context urandom sessionkey context Hcontext).
    rewrite (derived_key_supplied_context urandom' sessionkey context Hcontext).
    cbn [snd].
    change (get_data Codec.urlsafe_b64decode) with AuthenticationTools.get_data.
    rewrite get_data_nopad. cbn [bind].
    rewrite (encode_utf8_ascii _ Hascii).
    destruct (length ivbytes =? 12)%nat; [reflexivity|].
    destruct (aes_cbc _ ivbytes); reflexivity.
  - apply compact_not_plain. assumption.
  - rewrite !append_cons, !append_nil.
    rewrite (split_sep _ _ Hd0), (split_sep _ _ Henc), (split_sep _ _ Hd2),
      (split_sep _ _ Hd3), (split_no_sep _ Htag).
    reflexivity.
  - change (get_data Codec.urlsafe_b64decode) with AuthenticationTools.get_data.
    rewrite get_data_nopad. cbn [bind]. rewrite Hjson. reflexivity.
  - cbn [subscript]. unfold getitem. rewrite Hctx.
    cbn [or_raise bind b64decode_value]. rewrite Hdec. reflexivity.
  - change (get_data Codec.urlsafe_b64decode) with AuthenticationTools.get_data.
    apply get_data_nopad.
Qed.

End CompactJWE.

(** C3, as stated, fails: when the [ctx] of the header decodes to no
    bytes the key is not derived from it but from 24 bytes of
    [os.urandom]. The same response under the same session key decrypts
    when those bytes are zero and fails its tag when they are 0xff. *)
Lemma decrypt_auth_response_empty_ctx_key_varies :
  RecordedEmptyContext.decrypt_auth_response (fun n => repeat x00 n)
    RecordedEmptyContext.jwe Recorded.sessionkey false
  = Ok (Authentication.AsBytes Recorded.token_json)
  /\ RecordedEmptyContext.decrypt_auth_response (fun n => repeat xff n)
       RecordedEmptyContext.jwe Recorded.sessionkey false
     = Raise InvalidTag.
Proof. split; vm_compute; reflexivity. Qed.

(** C3, amended. Take a response of five segments, the header, the iv and
    the ciphertext being unpadded URL-safe base64, whose header is a
    JSON object with a [ctx] that decodes to at least one byte. The key
    is the one derived from the session key and those bytes, whatever the
    entropy source. With an iv of 12 bytes the result is the AES-GCM
    decryption, under that key and iv, of the ciphertext followed by the
    decoded tag, with the characters of the header segment as additional
    data. With an iv of any other length it is the AES-CBC decryption of
    the ciphertext with its PKCS#7 padding taken off: data of whole
    blocks ending in p bytes of value p, 1 <= p <= 16, gives what precedes
    them, anything else a ValueError; the tag segment, whatever its text,
    has no part in it. The result is parsed as JSON when [asjson] is
    set. *)
Theorem decrypt_auth_response_jwe :
  forall (json_loads : list byte -> option value)
         (json_loads_str : string -> option value)
         (aesgcm_decrypt : list byte -> list byte -> list byte -> list byte
                           -> option (list byte))
         (aes_cbc : list byte -> list byte
                    -> option (list byte -> option (list byte)))
         (urandom urandom' : nat -> list byte)
         (sessionkey : list byte) (asjson : bool)
         (rawheader : list byte) (header : gmap string value) (ctx : string)
         (context : list byte) (enckey : string) (ivbytes ct tag : list byte),
    let segment := Codec.urlsafe_b64encode_nopad in
    let response (tagtext : string) :=
      (segment rawheader +:+ "." +:+ enckey +:+ "." +:+ segment ivbytes
         +:+ "." +:+ segment ct +:+ "." +:+ tagtext)%string in
    let decrypt (responsedata : string) :=
      Authentication.decrypt_auth_response
        Codec.b64decode Codec.urlsafe_b64decode json_loads json_loads_str
        aesgcm_decrypt aes_cbc urandom responsedata sessionkey asjson in
    let derived_key :=
      snd (Authentication.calculate_derived_key
             urandom' sessionkey (Some context)) in
    let requested (plain : list byte) :=
      if asjson
      then let* jdata := or_raise JSONDecodeError (json_loads plain) in
           Ok (Authentication.AsJson jdata)
      else Ok (Authentication.AsBytes plain) in
    let padded (decrypted plain : list byte) (b : byte) :=
      decrypted = plain ++ repeat b (Byte.to_nat b)
      /\ (1 <= Byte.to_nat b <= 16)%nat
      /\ (length decrypted mod 16 = 0)%nat in
    rawheader <> [] ->
    Codec.has_char "." enckey = false ->
    json_loads rawheader = Some (VDict header) ->
    header !! "ctx"%string = Some (VStr ctx) ->
    Codec.b64decode ctx = Some context ->
    context <> [] ->
    (length ivbytes = 12%nat ->
     decrypt (response (segment tag))
     = let* plain :=
         or_raise InvalidTag
           (aesgcm_decrypt derived_key ivbytes (ct ++ tag)
              (map byte_of_ascii (list_ascii_of_string (segment rawheader)))) in
       requested plain)
    /\ (length ivbytes <> 12%nat ->
        forall tagtext : string,
          Codec.has_char "." tagtext = false ->
          match aes_cbc derived_key ivbytes with
          | None => decrypt (response tagtext) = Raise ValueError
          | Some decryptor =>
              match decryptor ct with
              | None => decrypt (response tagtext) = Raise ValueError
              | Some decrypted =>
                  (forall plain b,
                      padded decrypted plain b ->
                      decrypt (response tagtext) = requested plain)
                  /\ ((forall plain b, ~ padded decrypted plain b) ->
                      decrypt (response tagtext) = Raise ValueError)
              end
          end).
Proof.
  intros until tag.
  intros segment response decrypt derived_key requested padded.
  intros Hne Henc Hjson Hctx Hdec Hcontext.
  subst segment response decrypt derived_key requested padded. cbv beta.
  split.
  - intros Hlen.
    destruct (nopad_chars tag) as (_ & _ & _ & _ & Htag).
    rewrite (decrypt_compact json_loads json_loads_str aesgcm_decrypt aes_cbc
               urandom urandom' sessionkey asjson rawheader header ctx context
               enckey _ ivbytes ct Hne Henc Htag Hjson Hctx Hdec Hcontext).
    cbv zeta. apply Nat.eqb_eq in Hlen. rewrite Hlen.
    rewrite get_data_nopad. cbn [bind].
    destruct (aesgcm_decrypt _ _ _ _); reflexivity.
  - intros Hlen tagtext Htag. apply Nat.eqb_neq in Hlen.
    rewrite (decrypt_compact json_loads json_loads_str aesgcm_decrypt aes_cbc
               urandom urandom' sessionkey asjson rawheader header ctx context
               enckey tagtext ivbytes ct Hne Henc Htag Hjson Hctx Hdec Hcontext).
    cbv zeta. rewrite Hlen.
    destruct (aes_cbc _ ivbytes) as [decryptor|]; [|reflexivity].
    cbn [or_raise bind].
    destruct (decryptor ct) as [decrypted|]; [|reflexivity].
    cbn [or_raise bind]. split.
    + intros plain b (-> & Hp & Hblocks).
      rewrite length_app, repeat_length in Hblocks.
      rewrite (pkcs7_unpad_padded plain b Hp Hblocks). cbn [bind].
      destruct asjson; reflexivity.
    + intros Hnone.
      destruct (Authentication.pkcs7_unpad decrypted) as [plain|e] eqn:Hunpad.
      * exfalso. apply pkcs7_unpad_Ok in Hunpad as (b & Hd & Hp & Hblocks).
        exact (Hnone plain b (conj Hd (conj Hp Hblocks))).
      * apply pkcs7_unpad_Raise in Hunpad. subst e. reflexivity.
Qed.

(** The recorded AES-GCM response decrypts through the first branch. *)
Lemma decrypt_auth_response_jwe_witness :
  Authentication.decrypt_auth_response
    Codec.b64decode Codec.urlsafe_b64decode
    Recorded.json_loads Recorded.json_loads_str
    Recorded.aesgcm_decrypt Recorded.aes_cbc
    (fun n => repeat x00 n) Recorded.jwe_gcm Recorded.sessionkey false
  = Ok (Authentication.AsBytes Recorded.token_json).
Proof.
  destruct (decrypt_auth_response_jwe
              Recorded.json_loads Recorded.json_loads_str
              Recorded.aesgcm_decrypt Recorded.aes_cbc
              (fun n => repeat x00 n) (fun n => repeat xff n)
              Recorded.sessionkey false
              Recorded.header_gcm
              {[ "enc"%string := VStr "A256GCM";
                 "ctx"%string := VStr "ZGVmZ2hpamtsbW5vcHFyc3R1dnd4eXp7" ]}
              "ZGVmZ2hpamtsbW5vcHFyc3R1dnd4eXp7" Recorded.kdf_context ""
              (fromhex "c8c9cacbcccdcecfd0d1d2d3")
              (fromhex "5fecaa73d9cbbee93d1225f2d875fe266db674f4e2d192")
              (fromhex "1e5947ce50d5e50fa0f927586a054f45"))
    as [Hgcm _].
  - discriminate.
  - reflexivity.
  - vm_compute. reflexivity.
  - vm_compute. reflexivity.
  - vm_compute. reflexivity.
  - discriminate.
  - specialize (Hgcm eq_refl).
    assert (Hresponse :
              (Codec.urlsafe_b64encode_nopad Recorded.header_gcm +:+ "." +:+ ""
                 +:+ "."
                 +:+ Codec.urlsafe_b64encode_nopad
                       (fromhex "c8c9cacbcccdcecfd0d1d2d3")
                 +:+ "."
                 +:+ Codec.urlsafe_b64encode_nopad
                       (fromhex
                          "5fecaa73d9cbbee93d1225f2d875fe266db674f4e2d192")
                 +:+ "."
                 +:+ Codec.urlsafe_b64encode_nopad
                       (fromhex "1e5947ce50d5e50fa0f927586a054f45"))%string
              = Recorded.jwe_gcm) by (vm_compute; reflexivity).
    rewrite Hresponse in Hgcm. rewrite Hgcm. vm_compute. reflexivity.
Defined.
